(** * gin-logger: the interceptor pipeline of [gin.go], embedded and verified

    The development follows [gin.go] function by function ([ErrorLogger]
    apart, about which nothing is stated here).  The host (gin's
    [Context], the zap-backed [Logger], the wall clock, Go's [regexp]
    and [io] packages) is modelled by the interface the middleware
    uses; the middleware itself is translated line by line.

    Layout: regular expressions, the host model, the middleware, the
    words of the specification and sample inputs; then the theorems. *)

From Stdlib Require Import ZArith NArith Ascii String List Bool Lia.
From stdpp Require Import base option gmap strings list pretty.

Local Open Scope string_scope.
Local Open Scope list_scope.
Local Open Scope Z_scope.

(* ================================================================== *)
(** * Regular expressions

    [regexp.Regexp] values are modelled by their syntax tree over bytes
    and matched with derivatives.  The fragment covers what [gin.go]
    compiles itself: literals, alternation, grouping and the [(?i)]
    flag. *)

Inductive Regexp : Type :=
| ReNever                       (* matches nothing *)
| ReEmpty                       (* matches the empty string *)
| ReByte (b : ascii)            (* one literal byte *)
| ReCat (r1 r2 : Regexp)
| ReAlt (r1 r2 : Regexp)
| ReStar (r : Regexp).

(** What a pattern matches, as a relation. *)
Inductive Denotes : Regexp -> string -> Prop :=
| DenEmpty : Denotes ReEmpty ""
| DenByte b : Denotes (ReByte b) (String b "")
| DenCat r1 r2 s1 s2 :
    Denotes r1 s1 -> Denotes r2 s2 -> Denotes (ReCat r1 r2) (s1 +:+ s2)
| DenAltL r1 r2 s : Denotes r1 s -> Denotes (ReAlt r1 r2) s
| DenAltR r1 r2 s : Denotes r2 s -> Denotes (ReAlt r1 r2) s
| DenStarNil r : Denotes (ReStar r) ""
| DenStarCons r s1 s2 :
    Denotes r s1 -> Denotes (ReStar r) s2 -> Denotes (ReStar r) (s1 +:+ s2).

Fixpoint nullable (r : Regexp) : bool :=
  match r with
  | ReNever => false
  | ReEmpty => true
  | ReByte _ => false
  | ReCat r1 r2 => nullable r1 && nullable r2
  | ReAlt r1 r2 => nullable r1 || nullable r2
  | ReStar _ => true
  end.

Fixpoint deriv (c : ascii) (r : Regexp) : Regexp :=
  match r with
  | ReNever => ReNever
  | ReEmpty => ReNever
  | ReByte b => if Ascii.eqb b c then ReEmpty else ReNever
  | ReCat r1 r2 =>
      if nullable r1
      then ReAlt (ReCat (deriv c r1) r2) (deriv c r2)
      else ReCat (deriv c r1) r2
  | ReAlt r1 r2 => ReAlt (deriv c r1) (deriv c r2)
  | ReStar r1 => ReCat (deriv c r1) (ReStar r1)
  end.

(** Anchored match of the whole string. *)
Fixpoint matchWhole (r : Regexp) (s : string) : bool :=
  match s with
  | "" => nullable r
  | String c t => matchWhole (deriv c r) t
  end.

(** Some prefix of [s] matches [r]. *)
Fixpoint matchPrefix (r : Regexp) (s : string) : bool :=
  nullable r ||
  match s with
  | "" => false
  | String c t => matchPrefix (deriv c r) t
  end.

(** [Regexp.MatchString]: the string contains a match of the pattern
    (Go's search is unanchored). *)
Fixpoint MatchString (r : Regexp) (s : string) : bool :=
  matchPrefix r s ||
  match s with
  | "" => false
  | String _ t => MatchString r t
  end.

(** ** Building the patterns of [gin.go] *)

Definition isLowerByte (c : ascii) : bool :=
  let n := nat_of_ascii c in (97 <=? n)%nat && (n <=? 122)%nat.
Definition isUpperByte (c : ascii) : bool :=
  let n := nat_of_ascii c in (65 <=? n)%nat && (n <=? 90)%nat.
Definition toLowerByte (c : ascii) : ascii :=
  if isUpperByte c then ascii_of_nat (nat_of_ascii c + 32) else c.
Definition toUpperByte (c : ascii) : ascii :=
  if isLowerByte c then ascii_of_nat (nat_of_ascii c - 32) else c.

(** One pattern byte under [(?i)].  Go folds along Unicode's simple case
    orbits: a letter matches both of its ASCII cases, and the orbits of
    [s] and [k] also hold U+017F (bytes C5 BF) and U+212A (bytes E2 84
    AA).  A lead byte is never a continuation byte, so those byte
    sequences decode to these runes wherever they occur, and matching on
    bytes agrees with Go's matching on runes. *)
Definition foldCase (c : ascii) : Regexp :=
  if isLowerByte c || isUpperByte c then
    let both := ReAlt (ReByte (toLowerByte c)) (ReByte (toUpperByte c)) in
    if Ascii.eqb (toLowerByte c) "s" then
      ReAlt both (ReCat (ReByte (ascii_of_nat 197)) (ReByte (ascii_of_nat 191)))
    else if Ascii.eqb (toLowerByte c) "k" then
      ReAlt both (ReCat (ReByte (ascii_of_nat 226))
                        (ReCat (ReByte (ascii_of_nat 132)) (ReByte (ascii_of_nat 170))))
    else both
  else ReByte c.

(** A literal, case-folded when [fold] is set. *)
Fixpoint literal (fold : bool) (s : string) : Regexp :=
  match s with
  | "" => ReEmpty
  | String c t => ReCat (if fold then foldCase c else ReByte c) (literal fold t)
  end.

(** [(a|b|...)] *)
Definition alternation (rs : list Regexp) : Regexp := fold_right ReAlt ReNever rs.

(** [(?i)(union|select|insert|delete|drop|create|alter|exec|script)] *)
Definition sqlInjectionPattern : Regexp :=
  alternation (map (literal true)
    ["union"; "select"; "insert"; "delete"; "drop"; "create"; "alter"; "exec"; "script"]).

(** [(?i)(<script|javascript:|onload=|onerror=)] *)
Definition xssPattern : Regexp :=
  alternation (map (literal true) ["<script"; "javascript:"; "onload="; "onerror="]).

(** [\.\./] *)
Definition pathTraversalPattern : Regexp := literal false "../".

(* ================================================================== *)
(** * The host: values, time, logging backend, gin's request context *)

(** Go's [any], as far as the middleware looks into it: [GetString]
    tells strings from everything else. *)
Inductive Any : Type :=
| AString (s : string)
| AInt (n : Z)
| ANil.

(** ** Time

    A [time.Time] is an instant (nanoseconds since the Unix epoch, read
    from a clock that never shows a time before the epoch) and the
    offset of its location in seconds east of UTC.  A [time.Duration]
    is a count of nanoseconds. *)
Record Time : Type := { unixNano : N; zoneOffset : Z }.

Definition Duration : Type := Z.
Definition Second : Duration := 1000000000.

Definition UTC (t : Time) : Time := {| unixNano := unixNano t; zoneOffset := 0 |}.

Definition digit (n : Z) : ascii := ascii_of_nat (48 + Z.to_nat n).
Definition pad2 (n : Z) : string := String (digit (n / 10)) (String (digit (n mod 10)) "").

(** [appendInt] with width 4, as the layout element [2006] prints a year. *)
Definition pad4 (n : Z) : string :=
  let body := pretty (Z.to_N (Z.abs n)) in
  let zeros := String.concat "" (repeat "0" (4 - String.length body)) in
  (if n <? 0 then "-" else "") +:+ zeros +:+ body.

(** Civil date of a day count since 1970-01-01 (proleptic Gregorian). *)
Definition civilFromDays (days : Z) : Z * Z * Z :=
  let z := days + 719468 in
  let era := z / 146097 in
  let doe := z - era * 146097 in
  let yoe := (doe - doe / 1460 + doe / 36524 - doe / 146096) / 365 in
  let doy := doe - (365 * yoe + yoe / 4 - yoe / 100) in
  let mp := (5 * doy + 2) / 153 in
  let d := doy - (153 * mp + 2) / 5 + 1 in
  let m := if mp <? 10 then mp + 3 else mp - 9 in
  let y := yoe + era * 400 + (if m <=? 2 then 1 else 0) in
  (y, m, d).

(** [t.Format("20060102150405")] *)
Definition Format20060102150405 (t : Time) : string :=
  let secs := Z.of_N (unixNano t) / 1000000000 + zoneOffset t in
  let '(y, m, d) := civilFromDays (secs / 86400) in
  let sod := secs mod 86400 in
  pad4 y +:+ pad2 m +:+ pad2 d +:+ pad2 (sod / 3600) +:+ pad2 (sod mod 3600 / 60) +:+ pad2 (sod mod 60).

(** ** The logging backend: zap fields, severity, handles, emitted events *)

Inductive Field : Type :=
| FString (key val : string)        (* zap.String *)
| FInt (key : string) (val : Z)     (* zap.Int *)
| FDuration (key : string) (val : Duration)
| FTime (key : string) (val : Time)
| FAny (key : string) (val : Any).  (* zap.Any *)

Definition fieldKey (f : Field) : string :=
  match f with
  | FString k _ | FInt k _ | FDuration k _ | FTime k _ | FAny k _ => k
  end.

Inductive Level : Type := LevelDebug | LevelInfo | LevelWarn | LevelError.

(** A handle is the core it writes to and the fields bound to it. *)
Record Logger : Type := { core : string; bound : list Field }.

(** [logger.With(fields...)] *)
Definition With (l : Logger) (fs : list Field) : Logger :=
  {| core := core l; bound := bound l ++ fs |}.

(** Modelled from the spec: the process-wide handle that [GetLogger]
    of go-logger (not part of this repository) returns: the unscoped
    global logging handle, no field bound. *)
Definition GetLogger : Logger := {| core := "global"; bound := [] |}.

(** One call of [Debug], [Info], [Warn] or [Error] on a handle. *)
Record Event : Type :=
  { via : Logger; level : Level; message : string; fields : list Field }.

(** ** Request bodies

    An [io.ReadCloser]: the bytes not yet read and how the stream ends
    ([None] for a clean end of file, [Some e] for a read error [e]). *)
Record ReadCloser : Type := { pending : string; failure : option string }.

(** [io.ReadAll]: everything up to the end or the error, the error (nil
    at end of file), and the reader as the call leaves it: drained. *)
Definition ReadAll (r : ReadCloser) : string * option string * ReadCloser :=
  (pending r, failure r, {| pending := ""; failure := failure r |}).

(** [io.NopCloser(bytes.NewBuffer(b))] *)
Definition NopCloserBuffer (b : string) : ReadCloser := {| pending := b; failure := None |}.

(** ** gin's context *)

Record Request : Type :=
  { Method : string;
    Path : string;                          (* URL.Path *)
    RawQuery : string;                      (* URL.RawQuery *)
    Header : gmap string (list string);
    Body : option ReadCloser;               (* None is a nil Body *)
    ContentLength : Z }.

Record ResponseWriter : Type :=
  { wStatus : Z; wSize : Z; wHeader : gmap string (list string) }.

Record Context : Type :=
  { Req : Request;
    Keys : gmap string Any;
    Writer : ResponseWriter;
    RemoteIP : string;                      (* what c.ClientIP() answers *)
    Aborted : bool }.

(** What a handler can touch: the request context, the events emitted
    so far, and the clock ([clock] lists the successive readings,
    [ticks] counts the readings taken, [localOffset] is the local
    zone). *)
Record World : Type :=
  { ctx : Context;
    events : list Event;
    clock : nat -> N;
    ticks : nat;
    localOffset : Z }.

Definition withCtx (f : Context -> Context) (w : World) : World :=
  {| ctx := f (ctx w); events := events w; clock := clock w;
     ticks := ticks w; localOffset := localOffset w |}.

(** [time.Now()] *)
Definition Now (w : World) : Time * World :=
  ({| unixNano := clock w (ticks w); zoneOffset := localOffset w |},
   {| ctx := ctx w; events := events w; clock := clock w;
      ticks := S (ticks w); localOffset := localOffset w |}).

(** [time.Since(t)] *)
Definition Since (t : Time) (w : World) : Duration * World :=
  let '(now, w') := Now w in
  (Z.of_N (unixNano now) - Z.of_N (unixNano t), w').

(** [logger.Debug/Info/Warn/Error(msg, fields...)] *)
Definition emit (lv : Level) (l : Logger) (msg : string) (fs : list Field) (w : World) : World :=
  {| ctx := ctx w;
     events := events w ++ [ {| via := l; level := lv; message := msg; fields := fs |} ];
     clock := clock w; ticks := ticks w; localOffset := localOffset w |}.

Definition validHeaderFieldByte (c : ascii) : bool :=
  let n := nat_of_ascii c in
  ((48 <=? n)%nat && (n <=? 57)%nat) || isLowerByte c || isUpperByte c ||
  existsb (Ascii.eqb c) (list_ascii_of_string "!#$%&'*+-.^_`|~").

Fixpoint canonicalize (upper : bool) (s : string) : string :=
  match s with
  | "" => ""
  | String c t =>
      let c' := if upper then toUpperByte c else toLowerByte c in
      String c' (canonicalize (Ascii.eqb c' "-") t)
  end.

(** [textproto.CanonicalMIMEHeaderKey]: a key that is not a token is
    left alone. *)
Definition CanonicalMIMEHeaderKey (s : string) : string :=
  if forallb validHeaderFieldByte (list_ascii_of_string s) then canonicalize true s else s.

(** [http.Header.Get] *)
Definition HeaderGet (h : gmap string (list string)) (key : string) : string :=
  match h !! CanonicalMIMEHeaderKey key with
  | Some (v :: _) => v
  | _ => ""
  end.

(** [http.Header.Set] and [http.Header.Del] *)
Definition HeaderSet (h : gmap string (list string)) (key value : string) : gmap string (list string) :=
  <[CanonicalMIMEHeaderKey key := [value]]> h.
Definition HeaderDel (h : gmap string (list string)) (key : string) : gmap string (list string) :=
  delete (CanonicalMIMEHeaderKey key) h.

(** [c.GetHeader(key)] *)
Definition GetHeader (c : Context) (key : string) : string := HeaderGet (Header (Req c)) key.

(** [c.Request.UserAgent()], [c.Request.Referer()], [c.ClientIP()] *)
Definition UserAgent (c : Context) : string := HeaderGet (Header (Req c)) "User-Agent".
Definition Referer (c : Context) : string := HeaderGet (Header (Req c)) "Referer".
Definition ClientIP (c : Context) : string := RemoteIP c.

(** [c.GetString(key)]: the empty string unless a string is stored. *)
Definition GetString (c : Context) (key : string) : string :=
  match Keys c !! key with
  | Some (AString s) => s
  | _ => ""
  end.

(** [c.Set(key, value)] *)
Definition SetKey (key : string) (value : Any) (c : Context) : Context :=
  {| Req := Req c; Keys := <[key := value]> (Keys c); Writer := Writer c;
     RemoteIP := RemoteIP c; Aborted := Aborted c |}.

(** [c.Header(key, value)]: writes a response header; an empty value
    deletes it. *)
Definition SetResponseHeader (key value : string) (c : Context) : Context :=
  let h := wHeader (Writer c) in
  let h' := if decide (value = "") then HeaderDel h key else HeaderSet h key value in
  {| Req := Req c; Keys := Keys c;
     Writer := {| wStatus := wStatus (Writer c); wSize := wSize (Writer c); wHeader := h' |};
     RemoteIP := RemoteIP c; Aborted := Aborted c |}.

(** gin's response writer keeps the number of body bytes written in
    its size, which starts at [noWritten]; the response counts as
    written from the moment the size is anything else. *)
Definition noWritten : Z := -1.

(** [responseWriter.Written()] *)
Definition Written (rw : ResponseWriter) : bool := negb (wSize rw =? noWritten).

(** [responseWriter.WriteHeader(code)]: a positive code other than the
    present status replaces it, unless the response is written already:
    then the status stays what it is. *)
Definition WriteHeader (code : Z) (rw : ResponseWriter) : ResponseWriter :=
  if (0 <? code) && negb (wStatus rw =? code) then
    if Written rw then rw
    else {| wStatus := code; wSize := wSize rw; wHeader := wHeader rw |}
  else rw.

(** [responseWriter.WriteHeaderNow()]: sends the header, if that has not
    happened yet; the size goes from [noWritten] to zero. *)
Definition WriteHeaderNow (rw : ResponseWriter) : ResponseWriter :=
  if Written rw then rw
  else {| wStatus := wStatus rw; wSize := 0; wHeader := wHeader rw |}.

(** [responseWriter.Write(data)]: sends the header if need be, then the
    bytes, which are added to the size. *)
Definition Write (data : string) (rw : ResponseWriter) : ResponseWriter :=
  let rw := WriteHeaderNow rw in
  {| wStatus := wStatus rw; wSize := wSize rw + Z.of_nat (String.length data);
     wHeader := wHeader rw |}.

Definition withWriter (f : ResponseWriter -> ResponseWriter) (c : Context) : Context :=
  {| Req := Req c; Keys := Keys c; Writer := f (Writer c);
     RemoteIP := RemoteIP c; Aborted := Aborted c |}.

(** [c.String(code, data)], as far as the writer goes: [c.Status(code)],
    which is [WriteHeader(code)], then [Write(data)]. *)
Definition RespondString (code : Z) (data : string) (c : Context) : Context :=
  withWriter (fun rw => Write data (WriteHeader code rw)) c.

(** [c.AbortWithStatus(code)]: [c.Status(code)], which is
    [c.Writer.WriteHeader(code)], then [c.Writer.WriteHeaderNow()], then
    [c.Abort()], which stops the pending handlers. *)
Definition AbortWithStatus (code : Z) (c : Context) : Context :=
  {| Req := Req c; Keys := Keys c;
     Writer := WriteHeaderNow (WriteHeader code (Writer c));
     RemoteIP := RemoteIP c; Aborted := true |}.

(** [c.Request.Body = b] *)
Definition setBody (b : option ReadCloser) (c : Context) : Context :=
  {| Req := {| Method := Method (Req c); Path := Path (Req c); RawQuery := RawQuery (Req c);
               Header := Header (Req c); Body := b; ContentLength := ContentLength (Req c) |};
     Keys := Keys c; Writer := Writer c; RemoteIP := RemoteIP c; Aborted := Aborted c |}.

(** ** Handlers and the chain

    A handler runs up to [c.Next()], hands the world to the rest of the
    chain, and goes on from what the chain leaves: a normal return or a
    panic. *)
Inductive Outcome : Type :=
| Returned (w : World)
| Panicked (w : World) (v : Any).

Inductive Prog : Type :=
| Done (o : Outcome)
| Next (w : World) (k : Outcome -> Prog).

Definition HandlerFunc : Type := World -> Prog.

(** A plain [c.Next()]: a panic below unwinds through the caller. *)
Definition callNext (w : World) (k : World -> Prog) : Prog :=
  Next w (fun o => match o with
                   | Returned w' => k w'
                   | Panicked w' v => Done (Panicked w' v)
                   end).

(** Modelled from the spec: [gin.CustomRecovery] (gin is not part of
    this repository) installs a fault handler around the remainder of
    the chain: it calls [c.Next()] under a deferred [recover] and gives
    a recovered fault value to [handle]. *)
Definition CustomRecovery (handle : World -> Any -> World) : HandlerFunc :=
  fun w => Next w (fun o => match o with
                            | Returned w' => Done (Returned w')
                            | Panicked w' v => Done (Returned (handle w' v))
                            end).

(** Running a handler over the rest of the chain [down]. *)
Fixpoint run (down : World -> Outcome) (p : Prog) : Outcome :=
  match p with
  | Done o => o
  | Next w k => run down (k (down w))
  end.

(** The chain [hs] in front of the terminal handler [final]. *)
Definition chain (hs : list HandlerFunc) (final : World -> Outcome) : World -> Outcome :=
  fold_right (fun h down w => run down (h w)) final hs.

(* ================================================================== *)
(** * The middleware of [gin.go] *)

(** [skipPaths := make(map[string]bool); for _, path := range paths { skipPaths[path] = true }] *)
Definition makeSkipPaths (paths : list string) : gmap string bool :=
  foldl (fun m path => <[path := true]> m) ∅ paths.

(** [skipPaths[path]]: a missing key reads as false. *)
Definition skipped (skipPaths : gmap string bool) (path : string) : bool :=
  default false (skipPaths !! path).

Module GinLoggerConfig.
Record t : Type :=
  { Logger : option Logger;             (* None is a nil Logger *)
    UTC : bool;
    SkipPaths : list string }.
End GinLoggerConfig.

(** [GinLoggerWithConfig] *)
Definition GinLoggerWithConfig (config : GinLoggerConfig.t) : HandlerFunc :=
  let logger := match GinLoggerConfig.Logger config with
                | Some l => l
                | None => GetLogger
                end in
  let skipPaths := makeSkipPaths (GinLoggerConfig.SkipPaths config) in
  fun w =>
    if skipped skipPaths (Path (Req (ctx w))) then callNext w (fun w' => Done (Returned w'))
    else
      let '(start, w) := Now w in
      let path := Path (Req (ctx w)) in
      let raw := RawQuery (Req (ctx w)) in
      callNext w (fun w =>
        let '(latency, w) := Since start w in
        let timestamp := if GinLoggerConfig.UTC config then UTC start else start in
        let c := ctx w in
        let fields :=
          [ FString "method" (Method (Req c));
            FString "path" path;
            FString "ip" (ClientIP c);
            FString "user_agent" (UserAgent c);
            FInt "status" (wStatus (Writer c));
            FDuration "latency" latency;
            FInt "body_size" (wSize (Writer c));
            FTime "timestamp" timestamp ] in
        let fields := if decide (raw = "") then fields else fields ++ [FString "query" raw] in
        let requestID := GetString c "request_id" in
        let fields := if decide (requestID = "") then fields
                      else fields ++ [FString "request_id" requestID] in
        let userID := GetString c "user_id" in
        let fields := if decide (userID = "") then fields
                      else fields ++ [FString "user_id" userID] in
        Done (Returned
          (if 500 <=? wStatus (Writer c) then emit LevelError logger "Server error" fields w
           else if 400 <=? wStatus (Writer c) then emit LevelWarn logger "Client error" fields w
           else if 300 <=? wStatus (Writer c) then emit LevelInfo logger "Redirection" fields w
           else emit LevelInfo logger "Request completed" fields w))).

(** [GinLogger] *)
Definition GinLogger : HandlerFunc :=
  GinLoggerWithConfig {| GinLoggerConfig.Logger := None; GinLoggerConfig.UTC := false;
                         GinLoggerConfig.SkipPaths := [] |}.

Definition charset : string := "abcdefghijklmnopqrstuvwxyzABCDEFGHIJKLMNOPQRSTUVWXYZ0123456789".

(** [randomString]: one clock reading per byte. *)
Fixpoint randomString (length : nat) (w : World) : string * World :=
  match length with
  | O => ("", w)
  | S n =>
      let '(t, w) := Now w in
      let i := (unixNano t mod N.of_nat (String.length charset))%N in
      let b := match String.get (N.to_nat i) charset with
               | Some b => b
               | None => "000"%char        (* not reached: i < len(charset) *)
               end in
      let '(rest, w) := randomString n w in
      (String b rest, w)
  end.

(** [generateRequestID] *)
Definition generateRequestID (w : World) : string * World :=
  let '(t, w) := Now w in
  let '(suffix, w) := randomString 8 w in
  (Format20060102150405 t +:+ "-" +:+ suffix, w).

(** [RequestIDMiddleware] *)
Definition RequestIDMiddleware : HandlerFunc :=
  fun w =>
    let requestID := GetHeader (ctx w) "X-Request-ID" in
    let '(requestID, w) := if decide (requestID = "") then generateRequestID w
                           else (requestID, w) in
    let w := withCtx (SetKey "request_id" (AString requestID)) w in
    let w := withCtx (SetResponseHeader "X-Request-ID" requestID) w in
    callNext w (fun w' => Done (Returned w')).

(** [RecoveryLogger] *)
Definition RecoveryLogger : HandlerFunc :=
  CustomRecovery (fun w recovered =>
    let c := ctx w in
    let fields :=
      [ FString "method" (Method (Req c));
        FString "path" (Path (Req c));
        FString "ip" (ClientIP c);
        FAny "panic" recovered ] in
    let requestID := GetString c "request_id" in
    let fields := if decide (requestID = "") then fields
                  else fields ++ [FString "request_id" requestID] in
    let w := emit LevelError GetLogger "Panic recovered" fields w in
    withCtx (AbortWithStatus 500) w).

Module RequestBodyLoggerConfig.
Record t : Type :=
  { MaxBodySize : Z;
    SkipPaths : list string }.
End RequestBodyLoggerConfig.

(** [RequestBodyLogger] *)
Definition RequestBodyLogger (config : RequestBodyLoggerConfig.t) : HandlerFunc :=
  let maxBodySize := if RequestBodyLoggerConfig.MaxBodySize config =? 0 then 1024 * 1024
                     else RequestBodyLoggerConfig.MaxBodySize config in
  let skipPaths := makeSkipPaths (RequestBodyLoggerConfig.SkipPaths config) in
  fun w =>
    if skipped skipPaths (Path (Req (ctx w))) then callNext w (fun w' => Done (Returned w'))
    else
      let w :=
        match Body (Req (ctx w)) with
        | Some body =>
            if ContentLength (Req (ctx w)) <=? maxBodySize then
              let '(bodyBytes, err, drained) := ReadAll body in
              match err with
              | None =>
                  let w := withCtx (setBody (Some (NopCloserBuffer bodyBytes))) w in
                  let c := ctx w in
                  let fields :=
                    [ FString "method" (Method (Req c));
                      FString "path" (Path (Req c));
                      FString "body" bodyBytes ] in
                  let requestID := GetString c "request_id" in
                  let fields := if decide (requestID = "") then fields
                                else fields ++ [FString "request_id" requestID] in
                  emit LevelDebug GetLogger "Request body" fields w
              | Some _ => withCtx (setBody (Some drained)) w
              end
            else w
        | None => w
        end in
      callNext w (fun w' => Done (Returned w')).

(** [LoggerFromContext] *)
Definition LoggerFromContext (c : Context) : Logger :=
  let logger := GetLogger in
  let fields := [] in
  let requestID := GetString c "request_id" in
  let fields := if decide (requestID = "") then fields
                else fields ++ [FString "request_id" requestID] in
  let userID := GetString c "user_id" in
  let fields := if decide (userID = "") then fields
                else fields ++ [FString "user_id" userID] in
  if (0 <? length fields)%nat then With logger fields else logger.

Module StructuredLoggerConfig.
Record t : Type :=
  { Logger : option Logger;             (* None is a nil Logger *)
    SkipPaths : list string;
    SkipPathRegexps : list Regexp;
    UTC : bool;
    LogHeaders : list string;
    LogRequestBody : bool;
    LogResponseBody : bool;
    MaxBodySize : Z;
    LogUserAgent : bool;
    LogReferer : bool;
    LogClientIP : bool;
    CustomFields : option (Context -> list Field) }.   (* None is a nil func *)
End StructuredLoggerConfig.

(** [StructuredLogger] *)
Definition StructuredLogger (config : StructuredLoggerConfig.t) : HandlerFunc :=
  let logger := match StructuredLoggerConfig.Logger config with
                | Some l => l
                | None => GetLogger
                end in
  let maxBodySize := if StructuredLoggerConfig.MaxBodySize config =? 0 then 1024 * 1024
                     else StructuredLoggerConfig.MaxBodySize config in
  let skipPaths := makeSkipPaths (StructuredLoggerConfig.SkipPaths config) in
  fun w =>
    if skipped skipPaths (Path (Req (ctx w))) then callNext w (fun w' => Done (Returned w'))
    else if existsb (fun regex => MatchString regex (Path (Req (ctx w))))
                    (StructuredLoggerConfig.SkipPathRegexps config)
    then callNext w (fun w' => Done (Returned w'))
    else
      let '(start, w) := Now w in
      let path := Path (Req (ctx w)) in
      let raw := RawQuery (Req (ctx w)) in
      let '(requestBody, w) :=
        if StructuredLoggerConfig.LogRequestBody config then
          match Body (Req (ctx w)) with
          | Some body =>
              if ContentLength (Req (ctx w)) <=? maxBodySize then
                let '(bodyBytes, err, drained) := ReadAll body in
                match err with
                | None => (bodyBytes, withCtx (setBody (Some (NopCloserBuffer bodyBytes))) w)
                | Some _ => ("", withCtx (setBody (Some drained)) w)
                end
              else ("", w)
          | None => ("", w)
          end
        else ("", w) in
      callNext w (fun w =>
        let '(latency, w) := Since start w in
        let timestamp := if StructuredLoggerConfig.UTC config then UTC start else start in
        let c := ctx w in
        let fields :=
          [ FString "method" (Method (Req c));
            FString "path" path;
            FInt "status" (wStatus (Writer c));
            FDuration "latency" latency;
            FInt "body_size" (wSize (Writer c));
            FTime "timestamp" timestamp ] in
        let fields := if decide (raw = "") then fields else fields ++ [FString "query" raw] in
        let fields := if StructuredLoggerConfig.LogClientIP config
                      then fields ++ [FString "ip" (ClientIP c)] else fields in
        let fields := if StructuredLoggerConfig.LogUserAgent config
                      then fields ++ [FString "user_agent" (UserAgent c)] else fields in
        let fields := if StructuredLoggerConfig.LogReferer config
                      then (let referer := Referer c in
                            if decide (referer = "") then fields
                            else fields ++ [FString "referer" referer])
                      else fields in
        let fields :=
          foldl (fun fields header =>
                   let value := HeaderGet (Header (Req c)) header in
                   if decide (value = "") then fields
                   else fields ++ [FString ("header_" +:+ header) value])
                fields (StructuredLoggerConfig.LogHeaders config) in
        let fields := if decide (requestBody = "") then fields
                      else fields ++ [FString "request_body" requestBody] in
        let requestID := GetString c "request_id" in
        let fields := if decide (requestID = "") then fields
                      else fields ++ [FString "request_id" requestID] in
        let userID := GetString c "user_id" in
        let fields := if decide (userID = "") then fields
                      else fields ++ [FString "user_id" userID] in
        let fields := match StructuredLoggerConfig.CustomFields config with
                      | Some customFields => fields ++ customFields c
                      | None => fields
                      end in
        Done (Returned
          (if 500 <=? wStatus (Writer c) then emit LevelError logger "Server error" fields w
           else if 400 <=? wStatus (Writer c) then emit LevelWarn logger "Client error" fields w
           else if 300 <=? wStatus (Writer c) then emit LevelInfo logger "Redirection" fields w
           else emit LevelInfo logger "Request completed" fields w))).

(** [PerformanceLogger] *)
Definition PerformanceLogger : HandlerFunc :=
  fun w =>
    let '(start, w) := Now w in
    callNext w (fun w =>
      let '(latency, w) := Since start w in
      Done (Returned
        (if Second <? latency then
           let c := ctx w in
           let fields :=
             [ FString "method" (Method (Req c));
               FString "path" (Path (Req c));
               FDuration "latency" latency;
               FInt "status" (wStatus (Writer c)) ] in
           let requestID := GetString c "request_id" in
           let fields := if decide (requestID = "") then fields
                         else fields ++ [FString "request_id" requestID] in
           emit LevelWarn GetLogger "Slow request detected" fields w
         else w))).

(** [SecurityLogger] *)
Definition SecurityLogger : HandlerFunc :=
  fun w =>
    let c := ctx w in
    let userAgent := UserAgent c in
    let path := Path (Req c) in
    let suspicious := false in
    let reason := "" in
    let '(suspicious, reason) :=
      if MatchString sqlInjectionPattern path then (true, "SQL injection attempt")
      else (suspicious, reason) in
    let '(suspicious, reason) :=
      if MatchString xssPattern path then (true, "XSS attempt")
      else (suspicious, reason) in
    let '(suspicious, reason) :=
      if MatchString pathTraversalPattern path then (true, "Path traversal attempt")
      else (suspicious, reason) in
    let w :=
      if suspicious then
        let fields :=
          [ FString "method" (Method (Req c));
            FString "path" path;
            FString "ip" (ClientIP c);
            FString "user_agent" userAgent;
            FString "reason" reason ] in
        let requestID := GetString c "request_id" in
        let fields := if decide (requestID = "") then fields
                      else fields ++ [FString "request_id" requestID] in
        emit LevelWarn GetLogger "Suspicious request detected" fields w
      else w in
    callNext w (fun w' => Done (Returned w')).

(* ================================================================== *)
(** * Words of the specification *)

(** [sub] occurs in [s]. *)
Definition contains (sub s : string) : Prop :=
  exists pre post, s = pre +:+ sub +:+ post.

(** A clean path: none of the three signatures is found in it. *)
Definition cleanPath (path : string) : Prop :=
  MatchString sqlInjectionPattern path = false /\
  MatchString xssPattern path = false /\
  MatchString pathTraversalPattern path = false.

(** The exclusion test of the structured interceptor: exact member of
    the exclusion set, or a match of an exclusion pattern. *)
Definition excluded (config : StructuredLoggerConfig.t) (path : string) : Prop :=
  In path (StructuredLoggerConfig.SkipPaths config) \/
  exists regex, In regex (StructuredLoggerConfig.SkipPathRegexps config) /\
                MatchString regex path = true.

(** The maximum in force: the configured one, 1 MiB when left at zero. *)
Definition effectiveMax (configured : Z) : Z :=
  if configured =? 0 then 1048576 else configured.

(** The reason the specification's evaluation order reports: of the
    signatures found, the one checked last. *)
Definition reported (path : string) : option string :=
  if MatchString pathTraversalPattern path then Some "Path traversal attempt"
  else if MatchString xssPattern path then Some "XSS attempt"
  else if MatchString sqlInjectionPattern path then Some "SQL injection attempt"
  else None.

(** The one event of the security engine. *)
Definition securityEvent (c : Context) (reason : string) : Event :=
  {| via := GetLogger; level := LevelWarn; message := "Suspicious request detected";
     fields := [ FString "method" (Method (Req c));
                 FString "path" (Path (Req c));
                 FString "ip" (ClientIP c);
                 FString "user_agent" (UserAgent c);
                 FString "reason" reason ]
               ++ (if decide (GetString c "request_id" = "") then []
                   else [FString "request_id" (GetString c "request_id")]) |}.

(** Severity bands of the completion loggers. *)
Definition severityBand (ev : Event) (s : Z) : Prop :=
  (level ev = LevelError <-> 500 <= s) /\
  (level ev = LevelWarn <-> 400 <= s < 500) /\
  (level ev = LevelInfo <-> s < 400).

(** Handler [h], entered in world [w], calls the rest of the chain
    without having emitted anything; when the chain returns [w'], [h]
    returns too, having emitted exactly one event, of the band of
    status [s]. *)
Definition completesWithOneEvent (h : HandlerFunc) (w w' : World) (s : Z) : Prop :=
  exists (w1 : World) (k : Outcome -> Prog) (w'' : World),
    h w = Next w1 k /\ events w1 = events w /\
    k (Returned w') = Done (Returned w'') /\
    exists ev : Event, events w'' = events w' ++ [ev] /\ severityBand ev s.

(** The identity fields a context holds: request_id, then user_id, each
    when it is a non-empty string. *)
Definition identityFields (c : Context) : list Field :=
  (if decide (GetString c "request_id" = "") then []
   else [FString "request_id" (GetString c "request_id")]) ++
  (if decide (GetString c "user_id" = "") then []
   else [FString "user_id" (GetString c "user_id")]).

(** The context with the response status replaced by [code], whatever
    the writer has sent: with it the theorems range over every status
    the rest of the chain can leave behind. *)
Definition SetStatus (code : Z) (c : Context) : Context :=
  {| Req := Req c; Keys := Keys c;
     Writer := {| wStatus := code; wSize := wSize (Writer c); wHeader := wHeader (Writer c) |};
     RemoteIP := RemoteIP c; Aborted := Aborted c |}.

(** ** The parts of [StructuredLogger], named

    The three stretches of the handler body, each as a function of its
    own, for the lemmas to talk about; [StructuredLogger_unfold] shows
    the handler is their composition. *)

(** The block under "Capture request body if needed". *)
Definition captureRequestBody (enabled : bool) (maxBodySize : Z) (w : World) : string * World :=
  if enabled then
    match Body (Req (ctx w)) with
    | Some body =>
        if ContentLength (Req (ctx w)) <=? maxBodySize then
          let '(bodyBytes, err, drained) := ReadAll body in
          match err with
          | None => (bodyBytes, withCtx (setBody (Some (NopCloserBuffer bodyBytes))) w)
          | Some _ => ("", withCtx (setBody (Some drained)) w)
          end
        else ("", w)
    | None => ("", w)
    end
  else ("", w).

(** The fields the handler builds before it comes to the body: the six
    fixed ones, then query, ip, user_agent, referer and the configured
    headers. *)
Definition structuredHeadFields (config : StructuredLoggerConfig.t)
    (path raw : string) (timestamp : Time) (latency : Duration)
    (c : Context) : list Field :=
  let fields :=
    [ FString "method" (Method (Req c));
      FString "path" path;
      FInt "status" (wStatus (Writer c));
      FDuration "latency" latency;
      FInt "body_size" (wSize (Writer c));
      FTime "timestamp" timestamp ] in
  let fields := if decide (raw = "") then fields else fields ++ [FString "query" raw] in
  let fields := if StructuredLoggerConfig.LogClientIP config
                then fields ++ [FString "ip" (ClientIP c)] else fields in
  let fields := if StructuredLoggerConfig.LogUserAgent config
                then fields ++ [FString "user_agent" (UserAgent c)] else fields in
  let fields := if StructuredLoggerConfig.LogReferer config
                then (let referer := Referer c in
                      if decide (referer = "") then fields
                      else fields ++ [FString "referer" referer])
                else fields in
  foldl (fun fields header =>
           let value := HeaderGet (Header (Req c)) header in
           if decide (value = "") then fields
           else fields ++ [FString ("header_" +:+ header) value])
        fields (StructuredLoggerConfig.LogHeaders config).

(** The fields the handler builds itself, before the custom ones. *)
Definition structuredOwnFields (config : StructuredLoggerConfig.t)
    (path raw requestBody : string) (timestamp : Time) (latency : Duration)
    (c : Context) : list Field :=
  let fields := structuredHeadFields config path raw timestamp latency c in
  let fields := if decide (requestBody = "") then fields
                else fields ++ [FString "request_body" requestBody] in
  let requestID := GetString c "request_id" in
  let fields := if decide (requestID = "") then fields
                else fields ++ [FString "request_id" requestID] in
  let userID := GetString c "user_id" in
  let fields := if decide (userID = "") then fields
                else fields ++ [FString "user_id" userID] in
  fields.

(** What the custom-field callback adds. *)
Definition customOutput (config : StructuredLoggerConfig.t) (c : Context) : list Field :=
  match StructuredLoggerConfig.CustomFields config with
  | Some customFields => customFields c
  | None => []
  end.

(** The switch on the status code. *)
Definition logByStatus (logger : Logger) (status : Z) (fields : list Field) (w : World) : World :=
  if 500 <=? status then emit LevelError logger "Server error" fields w
  else if 400 <=? status then emit LevelWarn logger "Client error" fields w
  else if 300 <=? status then emit LevelInfo logger "Redirection" fields w
  else emit LevelInfo logger "Request completed" fields w.

(** Everything after [c.Next()] returns. *)
Definition structuredComplete (config : StructuredLoggerConfig.t)
    (path raw requestBody : string) (start : Time) (w : World) : World :=
  let logger := match StructuredLoggerConfig.Logger config with
                | Some l => l
                | None => GetLogger
                end in
  let '(latency, w) := Since start w in
  let timestamp := if StructuredLoggerConfig.UTC config then UTC start else start in
  let c := ctx w in
  let fields := structuredOwnFields config path raw requestBody timestamp latency c in
  let fields := match StructuredLoggerConfig.CustomFields config with
                | Some customFields => fields ++ customFields c
                | None => fields
                end in
  logByStatus logger (wStatus (Writer c)) fields w.

(** The exclusion test as the handler computes it. *)
Definition excludedb (config : StructuredLoggerConfig.t) (path : string) : bool :=
  skipped (makeSkipPaths (StructuredLoggerConfig.SkipPaths config)) path ||
  existsb (fun regex => MatchString regex path)
          (StructuredLoggerConfig.SkipPathRegexps config).

(** The body block of [RequestBodyLogger]. *)
Definition logRequestBody (maxBodySize : Z) (w : World) : World :=
  match Body (Req (ctx w)) with
  | Some body =>
      if ContentLength (Req (ctx w)) <=? maxBodySize then
        let '(bodyBytes, err, drained) := ReadAll body in
        match err with
        | None =>
            let w := withCtx (setBody (Some (NopCloserBuffer bodyBytes))) w in
            let c := ctx w in
            let fields :=
              [ FString "method" (Method (Req c));
                FString "path" (Path (Req c));
                FString "body" bodyBytes ] in
            let requestID := GetString c "request_id" in
            let fields := if decide (requestID = "") then fields
                          else fields ++ [FString "request_id" requestID] in
            emit LevelDebug GetLogger "Request body" fields w
        | Some _ => withCtx (setBody (Some drained)) w
        end
      else w
  | None => w
  end.

(** What a handler that reads the request body to its end gets: the
    bytes and the error, if there is a body at all. *)
Definition bodyAsRead (c : Context) : option (string * option string) :=
  match Body (Req c) with
  | Some body => Some (fst (fst (ReadAll body)), snd (fst (ReadAll body)))
  | None => None
  end.

(** The guard of body capture: enabled, a body present (not nil), the
    declared length within the maximum. *)
Definition captureActive (enabled : bool) (maxBodySize : Z) (c : Context) : Prop :=
  enabled = true /\ Body (Req c) <> None /\ ContentLength (Req c) <= maxBodySize.

(** The body a read to the end leaves in the request: a fresh buffer
    over the bytes when the read succeeded, the spent stream when it
    failed. *)
Definition bodyAfterRead (body : ReadCloser) : ReadCloser :=
  match failure body with
  | None => NopCloserBuffer (pending body)
  | Some _ => {| pending := ""; failure := failure body |}
  end.

(** The rest [k] of the structured handler always returns, and no event
    it emits has a request_body field among the handler's own fields
    (those in front of the custom callback's). *)
Definition completesWithoutBodyField (config : StructuredLoggerConfig.t)
    (k : Outcome -> Prog) : Prop :=
  forall w' : World,
    exists (w'' : World) (new : list Event),
      k (Returned w') = Done (Returned w'') /\
      events w'' = events w' ++ new /\
      forall ev, In ev new ->
        exists own, fields ev = own ++ customOutput config (ctx w') /\
                    ~ In "request_body" (map fieldKey own).

(** ** Sample worlds *)

Definition sampleClock (n : nat) : N := (1700000000000000000 + 1500000000 * N.of_nat n)%N.

Definition sampleWorld (path : string) (headers : gmap string (list string))
    (body : option ReadCloser) (contentLength : Z) : World :=
  {| ctx := {| Req := {| Method := "GET"; Path := path; RawQuery := "";
                         Header := headers; Body := body; ContentLength := contentLength |};
               Keys := ∅;
               Writer := {| wStatus := 200; wSize := 0; wHeader := ∅ |};
               RemoteIP := "10.0.0.7"; Aborted := false |};
     events := []; clock := sampleClock; ticks := 0; localOffset := 0 |}.

(** The same request as gin hands it to the first handler: nothing of
    the response is written yet. *)
Definition arrivingWorld (path : string) (headers : gmap string (list string))
    (body : option ReadCloser) (contentLength : Z) : World :=
  {| ctx := {| Req := {| Method := "GET"; Path := path; RawQuery := "";
                         Header := headers; Body := body; ContentLength := contentLength |};
               Keys := ∅;
               Writer := {| wStatus := 200; wSize := noWritten; wHeader := ∅ |};
               RemoteIP := "10.0.0.7"; Aborted := false |};
     events := []; clock := sampleClock; ticks := 0; localOffset := 0 |}.

Definition sampleStructuredConfig : StructuredLoggerConfig.t :=
  {| StructuredLoggerConfig.Logger := None;
     StructuredLoggerConfig.SkipPaths := ["/health"; "/metrics"];
     StructuredLoggerConfig.SkipPathRegexps := [literal false "/static/"];
     StructuredLoggerConfig.UTC := true;
     StructuredLoggerConfig.LogHeaders := ["Authorization"; "Content-Type"];
     StructuredLoggerConfig.LogRequestBody := true;
     StructuredLoggerConfig.LogResponseBody := false;
     StructuredLoggerConfig.MaxBodySize := 0;
     StructuredLoggerConfig.LogUserAgent := true;
     StructuredLoggerConfig.LogReferer := true;
     StructuredLoggerConfig.LogClientIP := true;
     StructuredLoggerConfig.CustomFields := Some (fun _ => [FString "service" "gin-example"]) |}.

Definition sampleBodyConfig (maxBodySize : Z) : RequestBodyLoggerConfig.t :=
  {| RequestBodyLoggerConfig.MaxBodySize := maxBodySize;
     RequestBodyLoggerConfig.SkipPaths := ["/health"] |}.

Definition sampleStructuredConfigMax (maxBodySize : Z) : StructuredLoggerConfig.t :=
  {| StructuredLoggerConfig.Logger := None;
     StructuredLoggerConfig.SkipPaths := ["/health"; "/metrics"];
     StructuredLoggerConfig.SkipPathRegexps := [literal false "/static/"];
     StructuredLoggerConfig.UTC := true;
     StructuredLoggerConfig.LogHeaders := [];
     StructuredLoggerConfig.LogRequestBody := true;
     StructuredLoggerConfig.LogResponseBody := false;
     StructuredLoggerConfig.MaxBodySize := maxBodySize;
     StructuredLoggerConfig.LogUserAgent := false;
     StructuredLoggerConfig.LogReferer := false;
     StructuredLoggerConfig.LogClientIP := false;
     StructuredLoggerConfig.CustomFields := None |}.

(** A present but empty body, as a server request without payload has. *)
Definition emptyBody : ReadCloser := {| pending := ""; failure := None |}.

Definition formBody : ReadCloser := {| pending := "name=ada&role=dev"; failure := None |}.

Definition brokenBody : ReadCloser :=
  {| pending := "name=a"; failure := Some "unexpected EOF" |}.

Definition sampleGinConfig : GinLoggerConfig.t :=
  {| GinLoggerConfig.Logger := None; GinLoggerConfig.UTC := false;
     GinLoggerConfig.SkipPaths := ["/health"] |}.

(** A terminal handler that panics, as the example application's
    [/panic] route does. *)
Definition panicHandler : World -> Outcome :=
  fun w => Panicked w (AString "This is a test panic!").

(** A terminal handler that answers 200 with some text and panics
    afterwards. *)
Definition respondThenPanic : World -> Outcome :=
  fun w => Panicked (withCtx (RespondString 200 "partial report") w)
                    (AString "lost the database").

(* ================================================================== *)
(** * The rest of [gin.go] and its callers *)

(** ** [ErrorLogger]

    A [gin.Error]: the wrapped error (by its message) and its
    [ErrorType], a 64-bit mask; the constants are gin's. *)
Record GinError : Type := { Err : string; Type_ : Z }.

Definition ErrorTypeBind : Z := 2 ^ 63.
Definition ErrorTypeRender : Z := 2 ^ 62.
Definition ErrorTypePrivate : Z := 1.
Definition ErrorTypePublic : Z := 2.
Definition ErrorTypeAny : Z := 2 ^ 64 - 1.

(** [ErrorLogger].  The context record above carries no error list:
    [Errors] stands for the field [c.Errors], read once when the loop
    starts.  [zap.Error(err.Err)] is the field named error that holds
    the error. *)
Definition ErrorLogger (Errors : Context -> list GinError) : HandlerFunc :=
  fun w =>
    callNext w (fun w =>
      Done (Returned
        (foldl (fun w err =>
                  let c := ctx w in
                  let fields :=
                    [ FString "method" (Method (Req c));
                      FString "path" (Path (Req c));
                      FString "ip" (ClientIP c);
                      FAny "error" (AString (Err err)) ] in
                  let requestID := GetString c "request_id" in
                  let fields := if decide (requestID = "") then fields
                                else fields ++ [FString "request_id" requestID] in
                  if Type_ err =? ErrorTypeBind
                  then emit LevelWarn GetLogger "Binding error" fields w
                  else if Type_ err =? ErrorTypeRender
                  then emit LevelError GetLogger "Rendering error" fields w
                  else if Type_ err =? ErrorTypePublic
                  then emit LevelInfo GetLogger "Public error" fields w
                  else emit LevelError GetLogger "Internal error" fields w)
               w (Errors (ctx w))))).

(** The body of the loop of [ErrorLogger], as a function of its own. *)
Definition logError (w : World) (err : GinError) : World :=
  let c := ctx w in
  let fields :=
    [ FString "method" (Method (Req c));
      FString "path" (Path (Req c));
      FString "ip" (ClientIP c);
      FAny "error" (AString (Err err)) ] in
  let requestID := GetString c "request_id" in
  let fields := if decide (requestID = "") then fields
                else fields ++ [FString "request_id" requestID] in
  if Type_ err =? ErrorTypeBind
  then emit LevelWarn GetLogger "Binding error" fields w
  else if Type_ err =? ErrorTypeRender
  then emit LevelError GetLogger "Rendering error" fields w
  else if Type_ err =? ErrorTypePublic
  then emit LevelInfo GetLogger "Public error" fields w
  else emit LevelError GetLogger "Internal error" fields w.

(** What [ErrorLogger] makes of one error in context [c]. *)
Definition logsError (c : Context) (err : GinError) (ev : Event) : Prop :=
  via ev = GetLogger /\
  fields ev = [ FString "method" (Method (Req c));
                FString "path" (Path (Req c));
                FString "ip" (ClientIP c);
                FAny "error" (AString (Err err)) ]
              ++ (if decide (GetString c "request_id" = "") then []
                  else [FString "request_id" (GetString c "request_id")]) /\
  (Type_ err = ErrorTypeBind -> level ev = LevelWarn /\ message ev = "Binding error") /\
  (Type_ err = ErrorTypeRender -> level ev = LevelError /\ message ev = "Rendering error") /\
  (Type_ err = ErrorTypePublic -> level ev = LevelInfo /\ message ev = "Public error") /\
  (Type_ err <> ErrorTypeBind -> Type_ err <> ErrorTypeRender -> Type_ err <> ErrorTypePublic ->
     level ev = LevelError /\ message ev = "Internal error").

(** ** The example application: the chain [main] assembles *)

Definition exampleStructuredConfig : StructuredLoggerConfig.t :=
  {| StructuredLoggerConfig.Logger := None;
     StructuredLoggerConfig.SkipPaths := ["/health"; "/metrics"];
     StructuredLoggerConfig.SkipPathRegexps := [];
     StructuredLoggerConfig.UTC := false;
     StructuredLoggerConfig.LogHeaders := ["Authorization"; "Content-Type"; "X-API-Key"];
     StructuredLoggerConfig.LogRequestBody := true;
     StructuredLoggerConfig.LogResponseBody := false;
     StructuredLoggerConfig.MaxBodySize := 1024 * 1024;
     StructuredLoggerConfig.LogUserAgent := true;
     StructuredLoggerConfig.LogReferer := true;
     StructuredLoggerConfig.LogClientIP := true;
     StructuredLoggerConfig.CustomFields :=
       Some (fun _ => [FString "service" "gin-example"; FString "version" "1.0.0"]) |}.

(** The [r.Use] calls of [main], in order. *)
Definition exampleMiddleware (Errors : Context -> list GinError) : list HandlerFunc :=
  [ RequestIDMiddleware; SecurityLogger; PerformanceLogger;
    StructuredLogger exampleStructuredConfig; ErrorLogger Errors; RecoveryLogger ].

(** The handlers this package offers, [RecoveryLogger] apart. *)
Inductive PlainMiddleware (Errors : Context -> list GinError) : HandlerFunc -> Prop :=
| PlainGinLogger : PlainMiddleware Errors GinLogger
| PlainGinLoggerWithConfig config : PlainMiddleware Errors (GinLoggerWithConfig config)
| PlainRequestID : PlainMiddleware Errors RequestIDMiddleware
| PlainErrorLogger : PlainMiddleware Errors (ErrorLogger Errors)
| PlainRequestBodyLogger config : PlainMiddleware Errors (RequestBodyLogger config)
| PlainStructuredLogger config : PlainMiddleware Errors (StructuredLogger config)
| PlainPerformanceLogger : PlainMiddleware Errors PerformanceLogger
| PlainSecurityLogger : PlainMiddleware Errors SecurityLogger.

(** Handler [h] wraps its one call of the rest of the chain and does
    not look at panics: it goes on after a normal return and returns
    itself, and a panic below it unwinds through it. *)
Definition PassesThrough (h : HandlerFunc) : Prop :=
  forall w : World,
    exists (w1 : World) (k : Outcome -> Prog),
      h w = Next w1 k /\
      (forall w' : World, exists w'' : World,
          k (Returned w') = Done (Returned w'') /\ ctx w'' = ctx w') /\
      (forall (w' : World) (v : Any), k (Panicked w' v) = Done (Panicked w' v)).

(** ** Closed forms of the events, for the statements below *)

(** The event fields of [GinLoggerWithConfig], written out. *)
Definition ginLoggerFields (path raw : string) (timestamp : Time) (latency : Duration)
    (c : Context) : list Field :=
  [ FString "method" (Method (Req c));
    FString "path" path;
    FString "ip" (ClientIP c);
    FString "user_agent" (UserAgent c);
    FInt "status" (wStatus (Writer c));
    FDuration "latency" latency;
    FInt "body_size" (wSize (Writer c));
    FTime "timestamp" timestamp ]
  ++ (if decide (raw = "") then [] else [FString "query" raw])
  ++ identityFields c.

(** The fields [StructuredLogger] builds itself, written out. *)
Definition structuredFieldsWrittenOut (config : StructuredLoggerConfig.t)
    (path raw requestBody : string) (timestamp : Time) (latency : Duration)
    (c : Context) : list Field :=
  [ FString "method" (Method (Req c));
    FString "path" path;
    FInt "status" (wStatus (Writer c));
    FDuration "latency" latency;
    FInt "body_size" (wSize (Writer c));
    FTime "timestamp" timestamp ]
  ++ (if decide (raw = "") then [] else [FString "query" raw])
  ++ (if StructuredLoggerConfig.LogClientIP config then [FString "ip" (ClientIP c)] else [])
  ++ (if StructuredLoggerConfig.LogUserAgent config
      then [FString "user_agent" (UserAgent c)] else [])
  ++ (if StructuredLoggerConfig.LogReferer config
      then (if decide (Referer c = "") then [] else [FString "referer" (Referer c)])
      else [])
  ++ flat_map (fun header =>
                 if decide (HeaderGet (Header (Req c)) header = "") then []
                 else [FString ("header_" +:+ header) (HeaderGet (Header (Req c)) header)])
              (StructuredLoggerConfig.LogHeaders config)
  ++ (if decide (requestBody = "") then [] else [FString "request_body" requestBody])
  ++ identityFields c.

(** The handle a completion logger writes to. *)
Definition loggerOr (configured : option Logger) : Logger :=
  match configured with
  | Some l => l
  | None => GetLogger
  end.

(** Message and level of a completion event for status [s]. *)
Definition completionLevel (s : Z) : Level :=
  if 500 <=? s then LevelError else if 400 <=? s then LevelWarn else LevelInfo.
Definition completionMessage (s : Z) : string :=
  if 500 <=? s then "Server error" else if 400 <=? s then "Client error"
  else if 300 <=? s then "Redirection" else "Request completed".

(** The same configuration with the [LogResponseBody] option set to [b]. *)
Definition setLogResponseBody (b : bool) (config : StructuredLoggerConfig.t) :
    StructuredLoggerConfig.t :=
  {| StructuredLoggerConfig.Logger := StructuredLoggerConfig.Logger config;
     StructuredLoggerConfig.SkipPaths := StructuredLoggerConfig.SkipPaths config;
     StructuredLoggerConfig.SkipPathRegexps := StructuredLoggerConfig.SkipPathRegexps config;
     StructuredLoggerConfig.UTC := StructuredLoggerConfig.UTC config;
     StructuredLoggerConfig.LogHeaders := StructuredLoggerConfig.LogHeaders config;
     StructuredLoggerConfig.LogRequestBody := StructuredLoggerConfig.LogRequestBody config;
     StructuredLoggerConfig.LogResponseBody := b;
     StructuredLoggerConfig.MaxBodySize := StructuredLoggerConfig.MaxBodySize config;
     StructuredLoggerConfig.LogUserAgent := StructuredLoggerConfig.LogUserAgent config;
     StructuredLoggerConfig.LogReferer := StructuredLoggerConfig.LogReferer config;
     StructuredLoggerConfig.LogClientIP := StructuredLoggerConfig.LogClientIP config;
     StructuredLoggerConfig.CustomFields := StructuredLoggerConfig.CustomFields config |}.

(** [sub] is [kw] up to the case of its ASCII letters. *)
Fixpoint sameFold (kw sub : string) : Prop :=
  match kw, sub with
  | "", "" => True
  | String a kw', String b sub' => toLowerByte a = toLowerByte b /\ sameFold kw' sub'
  | _, _ => False
  end.

Definition allBytes : list ascii := map ascii_of_nat (seq 0 256).

(** A clock stuck at one reading. *)
Definition stuckWorld (reading : N) : World :=
  {| ctx := ctx (sampleWorld "/" ∅ None 0); events := [];
     clock := fun _ => reading; ticks := 0; localOffset := 0 |}.

(* ================================================================== *)
(** * Strings *)

Local Arguments String.append !_ _ / : simpl nomatch.

Lemma append_nil_r (s : string) : s +:+ "" = s.
Proof. induction s as [|c s IH]; simpl; [reflexivity | now rewrite IH]. Qed.

Lemma append_eq_nil (a b : string) : a +:+ b = "" -> a = "" /\ b = "".
Proof. destruct a; simpl; [auto | discriminate]. Qed.

Lemma append_eq_cons (a b : string) (c : ascii) (s : string) :
  a +:+ b = String c s ->
  (a = "" /\ b = String c s) \/ (exists a', a = String c a' /\ s = a' +:+ b).
Proof.
  destruct a as [|x a]; simpl; intros H.
  - left; auto.
  - right. injection H as -> <-. eauto.
Qed.

Lemma contains_cons (sub : string) (c : ascii) (s : string) :
  contains sub s -> contains sub (String c s).
Proof. intros (pre & post & ->). now exists (String c pre), post. Qed.

(* ================================================================== *)
(** * The matcher decides the denotation *)

Create HintDb regexp.
#[local] Hint Constructors Denotes : regexp.

Lemma nullable_spec (r : Regexp) : nullable r = true <-> Denotes r "".
Proof.
  split.
  - induction r; simpl; intros H; try discriminate.
    + constructor.
    + apply andb_true_iff in H as [H1 H2].
      change "" with ("" +:+ ""). constructor; auto.
    + apply orb_true_iff in H as [H|H]; [apply DenAltL | apply DenAltR]; auto.
    + constructor.
  - intros H. remember "" as s eqn:E. induction H; simpl; try reflexivity; try discriminate.
    + apply append_eq_nil in E as [-> ->]. rewrite IHDenotes1, IHDenotes2; auto.
    + rewrite IHDenotes; auto.
    + rewrite IHDenotes; auto. apply orb_true_r.
Qed.

Lemma deriv_sound (r : Regexp) : forall c s, Denotes (deriv c r) s -> Denotes r (String c s).
Proof.
  induction r; simpl; intros c s H.
  - inversion H.
  - inversion H.
  - destruct (Ascii.eqb b c) eqn:E; inversion H; subst.
    apply Ascii.eqb_eq in E as ->. constructor.
  - assert (Hcat : forall t, Denotes (ReCat (deriv c r1) r2) t -> Denotes (ReCat r1 r2) (String c t)).
    { intros t Ht. inversion Ht; subst.
      change (String c (s1 +:+ s2)) with (String c s1 +:+ s2). constructor; auto. }
    destruct (nullable r1) eqn:N.
    + inversion H; subst; [auto|].
      change (String c s) with ("" +:+ String c s). constructor; [|auto].
      now apply nullable_spec.
    + auto.
  - inversion H; subst; auto with regexp.
  - inversion H; subst.
    change (String c (s1 +:+ s2)) with (String c s1 +:+ s2). auto with regexp.
Qed.

Lemma deriv_complete (r : Regexp) (s0 : string) :
  Denotes r s0 -> forall c s, s0 = String c s -> Denotes (deriv c r) s.
Proof.
  induction 1 as [ | b | r1 r2 s1 s2 H1 IH1 H2 IH2 | r1 r2 s H IH | r1 r2 s H IH
                 | r | r s1 s2 H1 IH1 H2 IH2 ]; intros c t E; simpl.
  - discriminate.
  - injection E as -> <-. rewrite Ascii.eqb_refl. constructor.
  - apply append_eq_cons in E as [[-> ->] | (a' & -> & ->)].
    + apply nullable_spec in H1. rewrite H1. apply DenAltR. now apply IH2.
    + assert (Denotes (ReCat (deriv c r1) r2) (a' +:+ s2)) by (constructor; auto).
      destruct (nullable r1); [apply DenAltL|]; auto.
  - auto with regexp.
  - auto with regexp.
  - discriminate.
  - apply append_eq_cons in E as [[-> ->] | (a' & -> & ->)].
    + now apply IH2.
    + auto with regexp.
Qed.

Lemma deriv_spec (r : Regexp) (c : ascii) (s : string) :
  Denotes (deriv c r) s <-> Denotes r (String c s).
Proof. split; [apply deriv_sound | intros H; eapply deriv_complete; eauto]. Qed.

Lemma matchWhole_spec (s : string) : forall r, matchWhole r s = true <-> Denotes r s.
Proof.
  induction s as [|c s IH]; intros r; simpl.
  - apply nullable_spec.
  - rewrite IH. apply deriv_spec.
Qed.

Lemma matchPrefix_spec (s : string) :
  forall r, matchPrefix r s = true <-> exists p q, s = p +:+ q /\ Denotes r p.
Proof.
  induction s as [|c s IH]; intros r; simpl.
  - rewrite orb_false_r, nullable_spec. split.
    + intros H. now exists "", "".
    + intros (p & q & E & H). symmetry in E. apply append_eq_nil in E as [-> _]. exact H.
  - rewrite orb_true_iff, nullable_spec, IH. split.
    + intros [H | (p & q & -> & H)].
      * now exists "", (String c s).
      * exists (String c p), q. split; [reflexivity | now apply deriv_spec].
    + intros (p & q & E & H). symmetry in E.
      apply append_eq_cons in E as [[-> _] | (p' & -> & ->)].
      * now left.
      * right. exists p', q. split; [reflexivity | now apply deriv_spec].
Qed.

(** Go's unanchored search: [MatchString] holds exactly when some
    substring is in the pattern's language. *)
Lemma MatchString_spec (r : Regexp) (s : string) :
  MatchString r s = true <-> exists mid, Denotes r mid /\ contains mid s.
Proof.
  induction s as [|c s IH]; cbn [MatchString].
  - rewrite orb_false_r, matchPrefix_spec. split.
    + intros (p & q & E & H). exists p. split; [exact H|]. now exists "", q.
    + intros (mid & H & pre & post & E). symmetry in E.
      apply append_eq_nil in E as [-> E]. apply append_eq_nil in E as [-> ->].
      now exists "", "".
  - rewrite orb_true_iff, matchPrefix_spec, IH. split.
    + intros [(p & q & E & H) | (mid & H & Hc)].
      * exists p. split; [exact H|]. now exists "", q.
      * exists mid. split; [exact H | now apply contains_cons].
    + intros (mid & H & pre & post & E).
      destruct pre as [|x pre]; simpl in E.
      * left. now exists mid, post.
      * right. injection E as -> ->. exists mid. split; [exact H|]. now exists pre, post.
Qed.

Lemma MatchString_contains (r : Regexp) (sub s : string) :
  matchWhole r sub = true -> contains sub s -> MatchString r s = true.
Proof.
  intros H Hc. apply MatchString_spec. exists sub. split; [now apply matchWhole_spec | exact Hc].
Qed.

Lemma literal_exact (s mid : string) : Denotes (literal false s) mid -> mid = s.
Proof.
  revert mid. induction s as [|c s IH]; simpl; intros mid H.
  - now inversion H.
  - inversion H as [ | | r1 r2 s1 s2 H1 H2 | | | | ]; subst.
    inversion H1; subst. simpl. f_equal. now apply IH.
Qed.

(** The traversal signature is found exactly in the paths that hold the
    bytes [../]. *)
Lemma pathTraversal_iff (path : string) :
  MatchString pathTraversalPattern path = true <-> contains "../" path.
Proof.
  split.
  - intros H. apply MatchString_spec in H as (mid & H & Hc).
    apply literal_exact in H. now subst.
  - intros H. eapply MatchString_contains; [|exact H]. reflexivity.
Qed.

(* ================================================================== *)
(** * Path exclusion *)

Lemma skipped_foldl (paths : list string) (path : string) :
  forall m : gmap string bool,
    default false (foldl (fun m p => <[p := true]> m) m paths !! path) = true <->
    In path paths \/ default false (m !! path) = true.
Proof.
  induction paths as [|p paths IH]; intros m; simpl.
  - tauto.
  - rewrite IH. destruct (decide (p = path)) as [->|Hne].
    + rewrite lookup_insert_eq. simpl. tauto.
    + rewrite lookup_insert_ne by exact Hne. split; [|tauto].
      intros [H|H]; [|tauto]. left. now right.
Qed.

Lemma skipped_spec (paths : list string) (path : string) :
  skipped (makeSkipPaths paths) path = true <-> In path paths.
Proof.
  unfold skipped, makeSkipPaths. rewrite skipped_foldl, lookup_empty. simpl.
  split; [intros [H|H]; [exact H | discriminate] | tauto].
Qed.

Lemma excluded_spec (config : StructuredLoggerConfig.t) (path : string) :
  excluded config path <->
  skipped (makeSkipPaths (StructuredLoggerConfig.SkipPaths config)) path = true \/
  existsb (fun regex => MatchString regex path)
          (StructuredLoggerConfig.SkipPathRegexps config) = true.
Proof. unfold excluded. now rewrite skipped_spec, existsb_exists. Qed.

Lemma excludedb_spec (config : StructuredLoggerConfig.t) (path : string) :
  excludedb config path = true <-> excluded config path.
Proof. unfold excludedb. now rewrite orb_true_iff, excluded_spec. Qed.

Lemma if_orb {A : Type} (a b : bool) (x y : A) :
  (if a then x else if b then x else y) = (if a || b then x else y).
Proof. destruct a, b; reflexivity. Qed.

Lemma StructuredLogger_unfold (config : StructuredLoggerConfig.t) (w : World) :
  StructuredLogger config w =
  if excludedb config (Path (Req (ctx w))) then callNext w (fun w' => Done (Returned w'))
  else
    let '(start, w0) := Now w in
    let '(requestBody, w1) :=
      captureRequestBody (StructuredLoggerConfig.LogRequestBody config)
        (effectiveMax (StructuredLoggerConfig.MaxBodySize config)) w0 in
    callNext w1 (fun w' =>
      Done (Returned (structuredComplete config (Path (Req (ctx w))) (RawQuery (Req (ctx w)))
                        requestBody start w'))).
Proof.
  unfold excludedb. rewrite <- if_orb. reflexivity.
Qed.

Lemma run_callNext_return (down : World -> Outcome) (w : World) :
  run down (callNext w (fun w' => Done (Returned w'))) = down w.
Proof. simpl. now destruct (down w). Qed.

Lemma StructuredLogger_excluded (config : StructuredLoggerConfig.t) (w : World) :
  excluded config (Path (Req (ctx w))) ->
  StructuredLogger config w = callNext w (fun w' => Done (Returned w')).
Proof.
  intros H. apply excludedb_spec in H. now rewrite StructuredLogger_unfold, H.
Qed.

(** C4. A request whose path is an exact member of the exclusion set, or
    matches one of the exclusion patterns, goes through the structured
    interceptor untouched: the interceptor calls the rest of the chain
    on the very world it received (no clock reading taken, no body
    read, no event emitted) and does nothing once the chain returns, so
    running it is running the rest of the chain. *)
Theorem StructuredLogger_excluded_forwards
    (config : StructuredLoggerConfig.t) (w : World) :
  excluded config (Path (Req (ctx w))) ->
  StructuredLogger config w = callNext w (fun w' => Done (Returned w')) /\
  forall down : World -> Outcome, run down (StructuredLogger config w) = down w.
Proof.
  intros H. pose proof (StructuredLogger_excluded config w H) as E.
  split; [exact E|]. intros down. rewrite E. apply run_callNext_return.
Qed.

Lemma StructuredLogger_excluded_forwards_witness :
  excluded sampleStructuredConfig "/static/app.js" /\
  StructuredLogger sampleStructuredConfig (sampleWorld "/static/app.js" ∅ None 0)
  = callNext (sampleWorld "/static/app.js" ∅ None 0) (fun w' => Done (Returned w')).
Proof.
  assert (H : excluded sampleStructuredConfig "/static/app.js").
  { right. exists (literal false "/static/"). split; [simpl; auto | reflexivity]. }
  split; [exact H|].
  exact (proj1 (StructuredLogger_excluded_forwards sampleStructuredConfig
                  (sampleWorld "/static/app.js" ∅ None 0) H)).
Defined.

(* ================================================================== *)
(** * Request identifiers *)

Lemma HeaderGet_HeaderSet (h : gmap string (list string)) (key value : string) :
  HeaderGet (HeaderSet h key value) key = value.
Proof. unfold HeaderGet, HeaderSet. now rewrite lookup_insert_eq. Qed.

Lemma randomString_length (n : nat) :
  forall w, String.length (fst (randomString n w)) = n.
Proof.
  induction n as [|n IH]; intros w; simpl; [reflexivity|].
  destruct (randomString n _) as [rest w'] eqn:E. simpl. f_equal.
  match type of E with randomString n ?x = _ => specialize (IH x); now rewrite E in IH end.
Qed.

Lemma randomString_ticks (n : nat) :
  forall w, ticks (snd (randomString n w)) = (ticks w + n)%nat.
Proof.
  induction n as [|n IH]; intros w; simpl; [lia|].
  destruct (randomString n _) as [rest w'] eqn:E. simpl.
  match type of E with randomString n ?x = _ =>
    specialize (IH x); rewrite E in IH; simpl in IH; lia end.
Qed.

(** Generating an identifier only reads the clock. *)
Lemma randomString_frame (n : nat) :
  forall w, events (snd (randomString n w)) = events w /\
            ctx (snd (randomString n w)) = ctx w.
Proof.
  induction n as [|n IH]; intros w; simpl; [auto|].
  destruct (randomString n _) as [rest w'] eqn:E. simpl.
  match type of E with randomString n ?x = _ => specialize (IH x); now rewrite E in IH end.
Qed.

Lemma generateRequestID_frame (w : World) :
  events (snd (generateRequestID w)) = events w /\
  ctx (snd (generateRequestID w)) = ctx w.
Proof.
  unfold generateRequestID. destruct (Now w) as [t w1] eqn:N.
  pose proof (randomString_frame 8 w1) as H.
  destruct (randomString 8 w1) as [suffix w']. simpl in *.
  injection N as _ <-. exact H.
Qed.

(** A generated identifier is the timestamp of the first clock reading,
    a dash, and eight bytes drawn by the next eight readings. *)
Lemma generateRequestID_shape (w : World) :
  exists suffix : string,
    fst (generateRequestID w) = Format20060102150405 (fst (Now w)) +:+ "-" +:+ suffix /\
    String.length suffix = 8%nat /\
    ticks (snd (generateRequestID w)) = (ticks w + 9)%nat.
Proof.
  unfold generateRequestID. destruct (Now w) as [t w1] eqn:N.
  pose proof (randomString_length 8 w1) as Hlen.
  pose proof (randomString_ticks 8 w1) as Ht.
  destruct (randomString 8 w1) as [suffix w2]. simpl in *.
  exists suffix. split; [reflexivity|]. split; [exact Hlen|].
  injection N as _ <-. simpl in Ht. lia.
Qed.

Lemma generateRequestID_nonempty (w : World) : fst (generateRequestID w) <> "".
Proof.
  unfold generateRequestID. destruct (Now w) as [t w1].
  destruct (randomString 8 w1) as [suffix w2]. simpl.
  intros H. apply append_eq_nil in H as [_ H]. discriminate.
Qed.

(** C2. [RequestIDMiddleware] hands the rest of the chain a world in
    which the response header X-Request-ID and the context key
    request_id hold one and the same non-empty identifier: the inbound
    X-Request-ID header value when there is a non-empty one, the value
    [generateRequestID] makes at that moment otherwise.  The request
    itself is left as it was and no event is emitted. *)
Theorem RequestIDMiddleware_sets_identifier (w : World) :
  let inbound := GetHeader (ctx w) "X-Request-ID" in
  exists (id : string) (w1 : World),
    RequestIDMiddleware w = callNext w1 (fun w' => Done (Returned w')) /\
    HeaderGet (wHeader (Writer (ctx w1))) "X-Request-ID" = id /\
    Keys (ctx w1) !! "request_id" = Some (AString id) /\
    GetString (ctx w1) "request_id" = id /\
    id <> "" /\
    (inbound <> "" -> id = inbound) /\
    (inbound = "" -> id = fst (generateRequestID w)) /\
    Req (ctx w1) = Req (ctx w) /\ events w1 = events w.
Proof.
  intros inbound. unfold RequestIDMiddleware. fold inbound.
  destruct (decide (inbound = "")) as [E|NE].
  - pose proof (generateRequestID_nonempty w) as Hne.
    pose proof (generateRequestID_frame w) as Hev.
    destruct (generateRequestID w) as [id w0]. simpl in Hne, Hev. destruct Hev as [Hev Hctx].
    eexists id, _. split; [reflexivity|]. simpl.
    unfold SetResponseHeader. destruct (decide (id = "")) as [|_]; [contradiction|]. simpl.
    rewrite HeaderGet_HeaderSet, Hctx. unfold GetString. simpl. rewrite lookup_insert_eq.
    repeat split; auto. intros H; contradiction.
  - eexists inbound, _. split; [reflexivity|]. simpl.
    unfold SetResponseHeader. destruct (decide (inbound = "")) as [|_]; [contradiction|]. simpl.
    rewrite HeaderGet_HeaderSet. unfold GetString. simpl. rewrite lookup_insert_eq.
    repeat split; auto. intros H; contradiction.
Qed.

(* ================================================================== *)
(** * The standalone performance logger *)

(** C8. [PerformanceLogger] reads the clock, runs the rest of the chain,
    reads the clock again, and emits exactly one warning event when the
    difference is above one second, none otherwise.  Whatever status the
    chain left, the same number of events comes out. *)
Theorem PerformanceLogger_warns_iff_slow (w w' : World) :
  let latency := Z.of_N (clock w' (ticks w')) - Z.of_N (clock w (ticks w)) in
  exists (k : Outcome -> Prog) (w'' : World),
    PerformanceLogger w = Next (snd (Now w)) k /\
    events (snd (Now w)) = events w /\
    k (Returned w') = Done (Returned w'') /\
    ctx w'' = ctx w' /\
    (Second < latency ->
       exists ev, events w'' = events w' ++ [ev] /\ level ev = LevelWarn /\
                  via ev = GetLogger /\ In (FDuration "latency" latency) (fields ev)) /\
    (latency <= Second -> events w'' = events w') /\
    (forall s : Z, exists ws'',
        k (Returned (withCtx (SetStatus s) w')) = Done (Returned ws'') /\
        length (events ws'') = length (events w'')).
Proof.
  intros latency. unfold PerformanceLogger. simpl.
  eexists _, _. split; [reflexivity|]. split; [reflexivity|]. split; [reflexivity|].
  fold latency. unfold Second.
  destruct (1000000000 <? latency) eqn:E.
  - apply Z.ltb_lt in E. split; [reflexivity|]. split; [|split].
    + intros _. eexists. split; [reflexivity|]. simpl. repeat split.
      case_decide; simpl; tauto.
    + intros H. lia.
    + intros s. eexists. split; [reflexivity|]. simpl. fold latency.
      apply Z.ltb_lt in E. rewrite E. simpl. now rewrite !length_app.
  - apply Z.ltb_ge in E. split; [reflexivity|]. split; [|split].
    + intros H. lia.
    + reflexivity.
    + intros s. eexists. split; [reflexivity|]. simpl. fold latency.
      apply Z.ltb_ge in E. now rewrite E.
Qed.

(* ================================================================== *)
(** * The context-scoped logger accessor *)

Lemma LoggerFromContext_identity (c : Context) :
  LoggerFromContext c = With GetLogger (identityFields c).
Proof.
  unfold LoggerFromContext, identityFields.
  destruct (decide (GetString c "request_id" = "")),
           (decide (GetString c "user_id" = "")); reflexivity.
Qed.

Lemma GetString_SetKey_eq (c : Context) (key value : string) :
  GetString (SetKey key (AString value) c) key = value.
Proof. unfold GetString, SetKey. simpl. now rewrite lookup_insert_eq. Qed.

Lemma GetString_SetKey_ne (c : Context) (key key' : string) (value : Any) :
  key <> key' -> GetString (SetKey key value c) key' = GetString c key'.
Proof. intros H. unfold GetString, SetKey. simpl. now rewrite lookup_insert_ne. Qed.

Lemma GetString_SetKey_other (c : Context) (key : string) (value : Any) :
  (forall s, value = AString s -> s = "") ->
  GetString (SetKey key value c) key = "".
Proof.
  intros H. unfold GetString, SetKey. simpl. rewrite lookup_insert_eq.
  destruct value as [s| |]; [|reflexivity..]. now apply H.
Qed.

(** C9. [LoggerFromContext] answers the unscoped global handle when the
    context holds neither a non-empty request_id nor a non-empty
    user_id, and otherwise the global handle with exactly the identity
    fields the context holds at the call.  A call made after
    application code has set a (non-empty) user_id, in a context that
    had none, answers the earlier handle with the one field user_id
    added; a value that is not a non-empty string changes nothing. *)
Theorem LoggerFromContext_identity_fields (c : Context) :
  (GetString c "request_id" = "" -> GetString c "user_id" = "" ->
     LoggerFromContext c = GetLogger) /\
  ((GetString c "request_id" <> "" \/ GetString c "user_id" <> "") ->
     LoggerFromContext c = With GetLogger (identityFields c) /\
     identityFields c <> []) /\
  (forall user : string,
     user <> "" -> GetString c "user_id" = "" ->
     let before := LoggerFromContext c in
     let after := LoggerFromContext (SetKey "user_id" (AString user) c) in
     core after = core before /\
     bound after = bound before ++ [FString "user_id" user] /\
     ~ In "user_id" (map fieldKey (bound before))) /\
  (forall value : Any,
     (forall s, value = AString s -> s = "") -> GetString c "user_id" = "" ->
     LoggerFromContext (SetKey "user_id" value c) = LoggerFromContext c).
Proof.
  split; [|split; [|split]].
  - intros H1 H2. rewrite LoggerFromContext_identity. unfold identityFields.
    rewrite H1, H2. reflexivity.
  - intros H. split; [apply LoggerFromContext_identity|].
    unfold identityFields.
    destruct (decide (GetString c "request_id" = "")) as [E1|N1];
      destruct (decide (GetString c "user_id" = "")) as [E2|N2];
      simpl; try discriminate.
    destruct H; contradiction.
  - intros user Hu Hnone. simpl. rewrite !LoggerFromContext_identity.
    unfold identityFields.
    rewrite GetString_SetKey_eq, GetString_SetKey_ne by discriminate.
    rewrite Hnone. simpl.
    destruct (decide (user = "")) as [|_]; [contradiction|].
    rewrite app_nil_r. split; [reflexivity|]. split; [reflexivity|].
    destruct (decide (GetString c "request_id" = "")); simpl.
    + tauto.
    + intros [H|[]]. discriminate.
  - intros value Hv Hnone. rewrite !LoggerFromContext_identity. unfold identityFields.
    rewrite (GetString_SetKey_other c "user_id" value Hv),
            GetString_SetKey_ne by discriminate.
    now rewrite Hnone.
Qed.

Lemma LoggerFromContext_identity_fields_witness :
  let c := ctx (sampleWorld "/users/7" ∅ None 0) in
  "u-7" <> "" /\ GetString c "user_id" = "" /\
  bound (LoggerFromContext (SetKey "user_id" (AString "u-7") c))
  = bound (LoggerFromContext c) ++ [FString "user_id" "u-7"].
Proof.
  intros c.
  assert (H1 : "u-7" <> "") by discriminate.
  assert (H2 : GetString c "user_id" = "") by reflexivity.
  split; [exact H1|]. split; [exact H2|].
  exact (proj1 (proj2 (proj1 (proj2 (proj2 (LoggerFromContext_identity_fields c)))
                         "u-7" H1 H2))).
Defined.

(* ================================================================== *)
(** * Panic recovery *)

Lemma AbortWithStatus_unwritten (code : Z) (c : Context) :
  0 < code -> wSize (Writer c) = noWritten ->
  wStatus (Writer (AbortWithStatus code c)) = code /\
  wSize (Writer (AbortWithStatus code c)) = 0.
Proof.
  intros Hc Hs. unfold AbortWithStatus, WriteHeaderNow, WriteHeader, Written. cbn [Writer].
  destruct (Writer c) as [st sz hd]. cbn [wSize wStatus] in *. subst sz.
  apply Z.ltb_lt in Hc. rewrite Hc. cbn.
  destruct (Z.eqb_spec st code) as [->|_]; cbn; auto.
Qed.

Lemma AbortWithStatus_written (code : Z) (c : Context) :
  wSize (Writer c) <> noWritten -> Writer (AbortWithStatus code c) = Writer c.
Proof.
  intros Hs. unfold AbortWithStatus, WriteHeaderNow, WriteHeader, Written. cbn [Writer].
  apply Z.eqb_neq in Hs. rewrite Hs. cbn [negb].
  destruct ((0 <? code) && negb (wStatus (Writer c) =? code)); unfold Written; now rewrite Hs.
Qed.

(** What [RecoveryLogger] makes of a panic. *)
Lemma RecoveryLogger_recovers (final : World -> Outcome) (w wp : World) (v : Any) :
  final w = Panicked wp v ->
  exists evp : Event,
    run final (RecoveryLogger w) =
    Returned {| ctx := AbortWithStatus 500 (ctx wp); events := events wp ++ [evp];
                clock := clock wp; ticks := ticks wp; localOffset := localOffset wp |} /\
    level evp = LevelError /\ via evp = GetLogger /\ message evp = "Panic recovered" /\
    fields evp = [ FString "method" (Method (Req (ctx wp)));
                   FString "path" (Path (Req (ctx wp)));
                   FString "ip" (ClientIP (ctx wp));
                   FAny "panic" v ]
                 ++ (if decide (GetString (ctx wp) "request_id" = "") then []
                     else [FString "request_id" (GetString (ctx wp) "request_id")]).
Proof.
  intros H. unfold RecoveryLogger, CustomRecovery. cbn [run]. rewrite H. cbn [run].
  eexists. split; [reflexivity|]. cbn [level via message fields].
  repeat split. now case_decide.
Qed.

(** C7, as the code has it.  When the rest of the chain returns,
    [RecoveryLogger] adds nothing.  When it panics with value [v], running
    [RecoveryLogger] over it returns normally: the panic is turned into
    exactly one more event, at error level on the global handle,
    holding the recovered value, method, path and client address, and
    the request identifier when the context has one; the context is
    aborted, and the request and the context keys are left alone.  The
    response gets status 500 when nothing of it was written before the
    panic; a response already written keeps its writer, status included,
    as it was.  Whatever the rest of the chain does, [RecoveryLogger]
    returns, so no panic passes it. *)
Theorem RecoveryLogger_contains_panic (down : World -> Outcome) (w : World) :
  (exists w'', run down (RecoveryLogger w) = Returned w'') /\
  (forall w' : World, down w = Returned w' -> run down (RecoveryLogger w) = Returned w') /\
  (forall (w' : World) (v : Any),
     down w = Panicked w' v ->
     exists (ev : Event) (w'' : World),
       run down (RecoveryLogger w) = Returned w'' /\
       events w'' = events w' ++ [ev] /\
       level ev = LevelError /\ via ev = GetLogger /\
       In (FAny "panic" v) (fields ev) /\
       In (FString "method" (Method (Req (ctx w')))) (fields ev) /\
       In (FString "path" (Path (Req (ctx w')))) (fields ev) /\
       In (FString "ip" (ClientIP (ctx w'))) (fields ev) /\
       (GetString (ctx w') "request_id" <> "" ->
          In (FString "request_id" (GetString (ctx w') "request_id")) (fields ev)) /\
       Aborted (ctx w'') = true /\
       Req (ctx w'') = Req (ctx w') /\ Keys (ctx w'') = Keys (ctx w') /\
       (wSize (Writer (ctx w')) = noWritten ->
          wStatus (Writer (ctx w'')) = 500 /\ wSize (Writer (ctx w'')) = 0) /\
       (wSize (Writer (ctx w')) <> noWritten -> Writer (ctx w'') = Writer (ctx w'))).
Proof.
  split; [|split].
  - unfold RecoveryLogger, CustomRecovery. cbn [run]. destruct (down w); cbn [run]; eauto.
  - intros w' H. unfold RecoveryLogger, CustomRecovery. cbn [run]. now rewrite H.
  - intros w' v H.
    destruct (RecoveryLogger_recovers down w w' v H) as (ev & Hrun & Hl & Hv & _ & Hf).
    eexists ev, _. split; [exact Hrun|]. cbn [events ctx].
    split; [reflexivity|]. split; [exact Hl|]. split; [exact Hv|].
    rewrite Hf.
    split; [simpl; tauto|]. split; [simpl; tauto|]. split; [simpl; tauto|].
    split; [simpl; tauto|].
    split; [intros Hid; case_decide; [contradiction | simpl; tauto]|].
    split; [reflexivity|]. split; [reflexivity|]. split; [reflexivity|].
    split.
    + intros Hs. now apply AbortWithStatus_unwritten.
    + intros Hs. now apply AbortWithStatus_written.
Qed.

(** C7 as worded fails: this handler has answered 200 with some text
    before it panics.  [RecoveryLogger] contains the panic and logs it,
    and the response keeps status 200: gin does not change the status
    of a response that is written. *)
Lemma written_response_keeps_status :
  exists (w'' : World) (ev : Event),
    run respondThenPanic (RecoveryLogger (arrivingWorld "/report" ∅ None 0)) = Returned w'' /\
    events w'' = [ev] /\ message ev = "Panic recovered" /\
    Aborted (ctx w'') = true /\
    wStatus (Writer (ctx w'')) = 200 /\ wSize (Writer (ctx w'')) = 14 /\
    200 <> 500.
Proof.
  eexists _, _. split; [reflexivity|]. cbn [events ctx withCtx app].
  split; [reflexivity|]. split; [reflexivity|]. split; [reflexivity|].
  split; [reflexivity|]. split; [reflexivity|]. discriminate.
Qed.

(* ================================================================== *)
(** * The security engine *)

Lemma SecurityLogger_unfold (w : World) :
  SecurityLogger w =
  callNext
    match reported (Path (Req (ctx w))) with
    | Some reason =>
        {| ctx := ctx w; events := events w ++ [securityEvent (ctx w) reason];
           clock := clock w; ticks := ticks w; localOffset := localOffset w |}
    | None => w
    end
    (fun w' => Done (Returned w')).
Proof.
  unfold SecurityLogger, reported.
  destruct (MatchString sqlInjectionPattern (Path (Req (ctx w)))),
           (MatchString xssPattern (Path (Req (ctx w)))),
           (MatchString pathTraversalPattern (Path (Req (ctx w))));
    try reflexivity;
    unfold emit, securityEvent; simpl;
    destruct (decide (GetString (ctx w) "request_id" = "")); reflexivity.
Qed.

Lemma reported_script (path : string) :
  contains "<script" path -> ~ contains "../" path -> reported path = Some "XSS attempt".
Proof.
  intros Hs Ht. unfold reported.
  destruct (MatchString pathTraversalPattern path) eqn:T.
  - apply pathTraversal_iff in T. contradiction.
  - erewrite (MatchString_contains xssPattern "<script"); [reflexivity | reflexivity | exact Hs].
Qed.

Lemma reported_traversal (path : string) :
  contains "../" path -> reported path = Some "Path traversal attempt".
Proof. intros H. unfold reported. apply pathTraversal_iff in H. now rewrite H. Qed.

Lemma reported_clean (path : string) : cleanPath path -> reported path = None.
Proof. intros (H1 & H2 & H3). unfold reported. now rewrite H1, H2, H3. Qed.

(** C3, as the code has it.  [SecurityLogger] checks the SQL-injection,
    XSS and path-traversal signatures in that order, a later match
    overwriting the reason of an earlier one, emits one warning event
    with the reason left when any matched, none otherwise, and in every
    case calls the rest of the chain on the unchanged request.  So the
    path [/api/users?id=1' UNION SELECT * FROM users--] reports "SQL
    injection attempt"; a path containing [<script] and no [../]
    reports "XSS attempt"; a path containing [../] reports "Path
    traversal attempt"; a clean path reports nothing. *)
Theorem SecurityLogger_reports_last_match (w : World) :
  let c := ctx w in
  let path := Path (Req c) in
  (exists w1 : World,
     SecurityLogger w = callNext w1 (fun w' => Done (Returned w')) /\
     ctx w1 = c /\
     events w1 = events w ++ match reported path with
                             | Some reason => [securityEvent c reason]
                             | None => []
                             end) /\
  (path = "/api/users?id=1' UNION SELECT * FROM users--" ->
     reported path = Some "SQL injection attempt") /\
  (contains "<script" path -> ~ contains "../" path -> reported path = Some "XSS attempt") /\
  (contains "../" path -> reported path = Some "Path traversal attempt") /\
  (cleanPath path -> reported path = None).
Proof.
  intros c path. split; [|split; [|split; [|split]]].
  - rewrite SecurityLogger_unfold. fold c path. eexists. split; [reflexivity|].
    destruct (reported path); simpl; [auto|]. now rewrite app_nil_r.
  - intros ->. reflexivity.
  - apply reported_script.
  - apply reported_traversal.
  - apply reported_clean.
Qed.

Lemma traversal_absent_from_script_path : ~ contains "../" "/search/<script>alert(1)".
Proof. intros H. apply pathTraversal_iff in H. discriminate. Qed.

Lemma SecurityLogger_reports_last_match_witness :
  contains "<script" "/search/<script>alert(1)" /\
  reported "/search/<script>alert(1)" = Some "XSS attempt".
Proof.
  assert (H : contains "<script" "/search/<script>alert(1)")
    by (exists "/search/", ">alert(1)"; reflexivity).
  split; [exact H|].
  exact (proj1 (proj2 (proj2 (SecurityLogger_reports_last_match
                                (sampleWorld "/search/<script>alert(1)" ∅ None 0))))
           H traversal_absent_from_script_path).
Defined.

(** C3 as worded fails: this path contains [<script], and since it also
    contains [../] the one event emitted carries "Path traversal
    attempt", not "XSS attempt". *)
Lemma script_path_reported_as_traversal :
  contains "<script" "/<script>/../etc/passwd" /\
  SecurityLogger (sampleWorld "/<script>/../etc/passwd" ∅ None 0)
  = callNext
      {| ctx := ctx (sampleWorld "/<script>/../etc/passwd" ∅ None 0);
         events := [securityEvent (ctx (sampleWorld "/<script>/../etc/passwd" ∅ None 0))
                      "Path traversal attempt"];
         clock := sampleClock; ticks := 0; localOffset := 0 |}
      (fun w' => Done (Returned w')) /\
  In (FString "reason" "Path traversal attempt")
     (fields (securityEvent (ctx (sampleWorld "/<script>/../etc/passwd" ∅ None 0))
                "Path traversal attempt")) /\
  "Path traversal attempt" <> "XSS attempt".
Proof.
  split; [exists "/", ">/../etc/passwd"; reflexivity|].
  split; [apply SecurityLogger_unfold|].
  split; [simpl; tauto | discriminate].
Qed.

(* ================================================================== *)
(** * Completion logging: severity by status *)

Lemma logByStatus_spec (logger : Logger) (s : Z) (fs : list Field) (w : World) :
  exists ev : Event,
    logByStatus logger s fs w
    = {| ctx := ctx w; events := events w ++ [ev]; clock := clock w;
         ticks := ticks w; localOffset := localOffset w |} /\
    via ev = logger /\ fields ev = fs /\ severityBand ev s.
Proof.
  unfold logByStatus, severityBand.
  destruct (Z.leb_spec 500 s); [|destruct (Z.leb_spec 400 s); [|destruct (Z.leb_spec 300 s)]];
    (eexists; split; [reflexivity|]; simpl;
     repeat split; intros; try lia; try discriminate; try reflexivity).
Qed.

Lemma GinLoggerWithConfig_completes (config : GinLoggerConfig.t) (w w' : World) :
  ~ In (Path (Req (ctx w))) (GinLoggerConfig.SkipPaths config) ->
  completesWithOneEvent (GinLoggerWithConfig config) w w' (wStatus (Writer (ctx w'))).
Proof.
  intros Hin. unfold completesWithOneEvent, GinLoggerWithConfig.
  destruct (skipped _ _) eqn:E; [apply skipped_spec in E; contradiction|].
  cbv beta iota zeta delta [Now callNext Since].
  eexists _, _, _. split; [reflexivity|]. split; [reflexivity|]. split; [reflexivity|].
  cbv beta iota zeta delta [ctx].
  match goal with
  | |- exists ev, events (if 500 <=? ?s then emit _ ?l _ ?fs ?w0 else _) = _ /\ _ =>
      destruct (logByStatus_spec l s fs w0) as (ev & H1 & _ & _ & H2);
      exists ev; unfold logByStatus in H1; rewrite H1; split; [reflexivity | exact H2]
  end.
Qed.

Lemma structuredComplete_spec (config : StructuredLoggerConfig.t)
    (path raw requestBody : string) (start : Time) (w' : World) :
  let logger := match StructuredLoggerConfig.Logger config with
                | Some l => l
                | None => GetLogger
                end in
  let latency := Z.of_N (clock w' (ticks w')) - Z.of_N (unixNano start) in
  let timestamp := if StructuredLoggerConfig.UTC config then UTC start else start in
  exists ev : Event,
    structuredComplete config path raw requestBody start w'
    = {| ctx := ctx w'; events := events w' ++ [ev]; clock := clock w';
         ticks := S (ticks w'); localOffset := localOffset w' |} /\
    via ev = logger /\
    fields ev = structuredOwnFields config path raw requestBody timestamp latency (ctx w')
                ++ customOutput config (ctx w') /\
    severityBand ev (wStatus (Writer (ctx w'))).
Proof.
  intros logger latency timestamp. unfold structuredComplete.
  cbv beta iota zeta delta [Since Now]. cbv beta iota delta [ctx].
  fold logger latency timestamp.
  match goal with
  | |- exists ev, logByStatus ?l ?s ?fs ?w0 = _ /\ _ =>
      destruct (logByStatus_spec l s fs w0) as (ev & H1 & H2 & H3 & H4)
  end.
  exists ev. split; [exact H1|]. split; [exact H2|]. split; [|exact H4].
  rewrite H3. unfold customOutput.
  destruct (StructuredLoggerConfig.CustomFields config); [reflexivity|].
  now rewrite app_nil_r.
Qed.

Lemma captureRequestBody_events (enabled : bool) (maxBodySize : Z) (w : World) :
  events (snd (captureRequestBody enabled maxBodySize w)) = events w.
Proof.
  unfold captureRequestBody. destruct enabled; [|reflexivity].
  destruct (Body (Req (ctx w))) as [body|]; [|reflexivity].
  destruct (ContentLength (Req (ctx w)) <=? maxBodySize); [|reflexivity].
  simpl. destruct (failure body); reflexivity.
Qed.

(** The shape of [StructuredLogger] on a path that is not excluded. *)
Lemma StructuredLogger_not_excluded (config : StructuredLoggerConfig.t) (w : World) :
  ~ excluded config (Path (Req (ctx w))) ->
  let start := fst (Now w) in
  let captured := captureRequestBody (StructuredLoggerConfig.LogRequestBody config)
                    (effectiveMax (StructuredLoggerConfig.MaxBodySize config)) (snd (Now w)) in
  StructuredLogger config w =
  callNext (snd captured) (fun w' =>
    Done (Returned (structuredComplete config (Path (Req (ctx w))) (RawQuery (Req (ctx w)))
                      (fst captured) start w'))).
Proof.
  intros H start captured. rewrite StructuredLogger_unfold.
  destruct (excludedb _ _) eqn:E; [apply excludedb_spec in E; contradiction|].
  subst start captured. simpl.
  destruct (captureRequestBody _ _ _). reflexivity.
Qed.

Lemma StructuredLogger_completes (config : StructuredLoggerConfig.t) (w w' : World) :
  ~ excluded config (Path (Req (ctx w))) ->
  completesWithOneEvent (StructuredLogger config) w w' (wStatus (Writer (ctx w'))).
Proof.
  intros H. unfold completesWithOneEvent.
  rewrite (StructuredLogger_not_excluded config w H). unfold callNext.
  eexists _, _, _. split; [reflexivity|].
  split; [now rewrite captureRequestBody_events|].
  split; [reflexivity|].
  match goal with
  | |- exists ev, events (structuredComplete ?c ?p ?r ?b ?st ?w0) = _ /\ _ =>
      destruct (structuredComplete_spec c p r b st w0) as (ev & H1 & _ & _ & H2);
      exists ev; rewrite H1; split; [reflexivity | exact H2]
  end.
Qed.

(** C1. For a request whose path is not excluded, both completion
    loggers ([GinLoggerWithConfig] and [StructuredLogger]) emit nothing
    before the rest of the chain runs and, once it has returned with
    final status [s], exactly one event: at error level if and only if
    [s >= 500], at warning level if and only if [400 <= s < 500], at
    info level if and only if [s < 400]. *)
Theorem completion_loggers_severity_by_status
    (gc : GinLoggerConfig.t) (sc : StructuredLoggerConfig.t) (w w' : World) :
  let path := Path (Req (ctx w)) in
  let s := wStatus (Writer (ctx w')) in
  (~ In path (GinLoggerConfig.SkipPaths gc) ->
     completesWithOneEvent (GinLoggerWithConfig gc) w w' s) /\
  (~ excluded sc path ->
     completesWithOneEvent (StructuredLogger sc) w w' s).
Proof.
  intros path s. split.
  - apply GinLoggerWithConfig_completes.
  - apply StructuredLogger_completes.
Qed.

(* ================================================================== *)
(** * Body capture *)

Lemma header_fields_keep (key : string) (h : gmap string (list string)) (headers : list string) :
  (forall header, "header_" +:+ header <> key) ->
  forall init : list Field,
    ~ In key (map fieldKey init) ->
    ~ In key (map fieldKey
                (foldl (fun fields header =>
                          let value := HeaderGet h header in
                          if decide (value = "") then fields
                          else fields ++ [FString ("header_" +:+ header) value])
                       init headers)).
Proof.
  intros Hk. induction headers as [|header headers IH]; intros init Hinit; simpl; [exact Hinit|].
  apply IH. destruct (decide (HeaderGet h header = "")); [exact Hinit|].
  rewrite map_app, in_app_iff. simpl. intros [H|[H|[]]]; [contradiction|].
  now apply (Hk header).
Qed.

Lemma structuredHeadFields_no_body (config : StructuredLoggerConfig.t)
    (path raw : string) (timestamp : Time) (latency : Duration) (c : Context) :
  ~ In "request_body" (map fieldKey (structuredHeadFields config path raw timestamp latency c)).
Proof.
  unfold structuredHeadFields. apply header_fields_keep; [discriminate|].
  destruct (decide (raw = "")),
           (StructuredLoggerConfig.LogClientIP config),
           (StructuredLoggerConfig.LogUserAgent config),
           (StructuredLoggerConfig.LogReferer config);
    try destruct (decide (Referer c = ""));
    simpl; intros H; repeat (destruct H as [H|H]; [discriminate|]); exact H.
Qed.

Lemma structuredOwnFields_body (config : StructuredLoggerConfig.t)
    (path raw requestBody : string) (timestamp : Time) (latency : Duration) (c : Context) :
  let own := structuredOwnFields config path raw requestBody timestamp latency c in
  (In "request_body" (map fieldKey own) -> requestBody <> "") /\
  (requestBody <> "" -> In (FString "request_body" requestBody) own).
Proof.
  pose proof (structuredHeadFields_no_body config path raw timestamp latency c) as Hhead.
  unfold structuredOwnFields.
  set (head := structuredHeadFields config path raw timestamp latency c) in *.
  cbv zeta. split.
  - intros H E. apply Hhead.
    destruct (decide (requestBody = "")) as [_|]; [|contradiction].
    destruct (decide (GetString c "request_id" = "")),
             (decide (GetString c "user_id" = ""));
      rewrite ?map_app, ?in_app_iff in H; simpl in H; intuition discriminate.
  - intros NE. destruct (decide (requestBody = "")) as [|_]; [contradiction|].
    destruct (decide (GetString c "request_id" = "")),
             (decide (GetString c "user_id" = ""));
      rewrite ?in_app_iff; simpl; tauto.
Qed.

(** What the capture step yields, case by case. *)
Lemma captureRequestBody_spec (enabled : bool) (maxBodySize : Z) (w : World) :
  captureRequestBody enabled maxBodySize w =
  match Body (Req (ctx w)) with
  | Some body =>
      if enabled && (ContentLength (Req (ctx w)) <=? maxBodySize) then
        match failure body with
        | None => (pending body, withCtx (setBody (Some (NopCloserBuffer (pending body)))) w)
        | Some _ => ("", withCtx (setBody (Some {| pending := ""; failure := failure body |})) w)
        end
      else ("", w)
  | None => ("", w)
  end.
Proof.
  unfold captureRequestBody. destruct (Body (Req (ctx w))) as [body|].
  - destruct enabled; simpl; [|reflexivity].
    destruct (ContentLength (Req (ctx w)) <=? maxBodySize); [|reflexivity].
    destruct (failure body); reflexivity.
  - destruct enabled; reflexivity.
Qed.

Lemma RequestBodyLogger_unfold (config : RequestBodyLoggerConfig.t) (w : World) :
  RequestBodyLogger config w =
  callNext
    (if skipped (makeSkipPaths (RequestBodyLoggerConfig.SkipPaths config)) (Path (Req (ctx w)))
     then w
     else logRequestBody (effectiveMax (RequestBodyLoggerConfig.MaxBodySize config)) w)
    (fun w' => Done (Returned w')).
Proof.
  unfold RequestBodyLogger. destruct (skipped _ _); reflexivity.
Qed.

Lemma logRequestBody_spec (maxBodySize : Z) (w : World) :
  match Body (Req (ctx w)) with
  | Some body =>
      if ContentLength (Req (ctx w)) <=? maxBodySize then
        match failure body with
        | None =>
            exists ev,
              logRequestBody maxBodySize w
              = {| ctx := setBody (Some (NopCloserBuffer (pending body))) (ctx w);
                   events := events w ++ [ev]; clock := clock w; ticks := ticks w;
                   localOffset := localOffset w |} /\
              level ev = LevelDebug /\ via ev = GetLogger /\
              In (FString "body" (pending body)) (fields ev)
        | Some _ =>
            logRequestBody maxBodySize w
            = withCtx (setBody (Some {| pending := ""; failure := failure body |})) w
        end
      else logRequestBody maxBodySize w = w
  | None => logRequestBody maxBodySize w = w
  end.
Proof.
  unfold logRequestBody. destruct (Body (Req (ctx w))) as [body|]; [|reflexivity].
  destruct (ContentLength (Req (ctx w)) <=? maxBodySize); [|reflexivity].
  destruct (failure body) eqn:F; simpl; rewrite F; [reflexivity|].
  eexists. split; [reflexivity|]. simpl. repeat split. case_decide; simpl; tauto.
Qed.

Lemma structuredComplete_body_field (config : StructuredLoggerConfig.t)
    (path raw requestBody : string) (start : Time) (w' : World) :
  exists (w'' : World) (ev : Event) (own : list Field),
    structuredComplete config path raw requestBody start w' = w'' /\
    events w'' = events w' ++ [ev] /\
    fields ev = own ++ customOutput config (ctx w') /\
    (In "request_body" (map fieldKey own) -> requestBody <> "") /\
    (requestBody <> "" -> In (FString "request_body" requestBody) own).
Proof.
  destruct (structuredComplete_spec config path raw requestBody start w')
    as (ev & H1 & _ & H3 & _).
  eexists _, ev, _. split; [reflexivity|]. rewrite H1. split; [reflexivity|].
  split; [exact H3|]. apply structuredOwnFields_body.
Qed.

(** Both phases of [StructuredLogger] at once: the world it hands down,
    and what its rest emits. *)
Lemma StructuredLogger_phases (config : StructuredLoggerConfig.t) (w : World) :
  let path := Path (Req (ctx w)) in
  let captured := captureRequestBody (StructuredLoggerConfig.LogRequestBody config)
                    (effectiveMax (StructuredLoggerConfig.MaxBodySize config)) (snd (Now w)) in
  exists k : Outcome -> Prog,
    StructuredLogger config w = Next (if excludedb config path then w else snd captured) k /\
    forall w' : World,
      exists (w'' : World) (new : list Event),
        k (Returned w') = Done (Returned w'') /\
        events w'' = events w' ++ new /\
        (excludedb config path = true -> new = []) /\
        (excludedb config path = false ->
           exists ev own,
             new = [ev] /\ fields ev = own ++ customOutput config (ctx w') /\
             (In "request_body" (map fieldKey own) -> fst captured <> "") /\
             (fst captured <> "" -> In (FString "request_body" (fst captured)) own)).
Proof.
  intros path captured. destruct (excludedb config path) eqn:E.
  - apply excludedb_spec in E. rewrite (StructuredLogger_excluded config w E).
    unfold callNext. eexists. split; [reflexivity|]. intros w'.
    exists w', []. split; [reflexivity|]. split; [now rewrite app_nil_r|].
    split; [reflexivity | discriminate].
  - assert (NE : ~ excluded config path) by (rewrite <- excludedb_spec, E; discriminate).
    rewrite (StructuredLogger_not_excluded config w NE). fold captured. unfold callNext.
    eexists. split; [reflexivity|]. intros w'.
    destruct (structuredComplete_body_field config path (RawQuery (Req (ctx w)))
                (fst captured) (fst (Now w)) w') as (w'' & ev & own & H1 & H2 & H3 & H4 & H5).
    exists w'', [ev]. split; [now rewrite <- H1|]. split; [exact H2|].
    split; [discriminate|]. intros _. exists ev, own. auto.
Qed.

Lemma completesWithoutBodyField_intro (config : StructuredLoggerConfig.t)
    (k : Outcome -> Prog) (captured : string) (b : bool) :
  (forall w' : World,
      exists (w'' : World) (new : list Event),
        k (Returned w') = Done (Returned w'') /\
        events w'' = events w' ++ new /\
        (b = true -> new = []) /\
        (b = false ->
           exists ev own,
             new = [ev] /\ fields ev = own ++ customOutput config (ctx w') /\
             (In "request_body" (map fieldKey own) -> captured <> "") /\
             (captured <> "" -> In (FString "request_body" captured) own))) ->
  (b = false -> captured = "") ->
  completesWithoutBodyField config k.
Proof.
  intros Hk Hc w'. destruct (Hk w') as (w'' & new & H1 & H2 & H3 & H4).
  exists w'', new. split; [exact H1|]. split; [exact H2|].
  intros ev Hin. destruct b.
  - rewrite (H3 eq_refl) in Hin. destruct Hin.
  - destruct (H4 eq_refl) as (ev' & own & -> & Hf & Hno & _).
    destruct Hin as [<-|[]]. exists own. split; [exact Hf|].
    intros Hb. apply Hno in Hb. apply Hb. now apply Hc.
Qed.

Lemma captured_after_Now (enabled : bool) (maxBodySize : Z) (w : World) (body : ReadCloser) :
  Body (Req (ctx w)) = Some body ->
  captureRequestBody enabled maxBodySize (snd (Now w)) =
  if enabled && (ContentLength (Req (ctx w)) <=? maxBodySize) then
    match failure body with
    | None => (pending body,
               withCtx (setBody (Some (NopCloserBuffer (pending body)))) (snd (Now w)))
    | Some _ => ("", withCtx (setBody (Some {| pending := ""; failure := failure body |}))
                       (snd (Now w)))
    end
  else ("", snd (Now w)).
Proof.
  intros H. rewrite captureRequestBody_spec.
  change (ctx (snd (Now w))) with (ctx w). now rewrite H.
Qed.

(** ** What the two handlers do with a body, case by case *)

Lemma not_excluded_false (config : StructuredLoggerConfig.t) (path : string) :
  ~ excluded config path -> excludedb config path = false.
Proof.
  intros NE. destruct (excludedb config path) eqn:E; [|reflexivity].
  apply excludedb_spec in E. contradiction.
Qed.

Lemma not_skipped_false (paths : list string) (path : string) :
  ~ In path paths -> skipped (makeSkipPaths paths) path = false.
Proof.
  intros NS. destruct (skipped _ _) eqn:E; [|reflexivity].
  apply skipped_spec in E. contradiction.
Qed.

(** The capture step when its guard holds: the body is read to its end
    and replaced by what the read leaves. *)
Lemma captureRequestBody_active (maxBodySize : Z) (w : World) (body : ReadCloser) :
  Body (Req (ctx w)) = Some body ->
  ContentLength (Req (ctx w)) <= maxBodySize ->
  captureRequestBody true maxBodySize w =
  (match failure body with None => pending body | Some _ => "" end,
   withCtx (setBody (Some (bodyAfterRead body))) w).
Proof.
  intros Hb Hle. rewrite captureRequestBody_spec, Hb. apply Z.leb_le in Hle.
  rewrite Hle. unfold bodyAfterRead. cbn [andb]. now destruct (failure body).
Qed.

(** The capture step when its guard fails: nothing is touched. *)
Lemma captureRequestBody_idle (enabled : bool) (maxBodySize : Z) (w : World) :
  ~ captureActive enabled maxBodySize (ctx w) ->
  captureRequestBody enabled maxBodySize w = ("", w).
Proof.
  intros NA. rewrite captureRequestBody_spec.
  destruct (Body (Req (ctx w))) as [body|] eqn:Hb; [|reflexivity].
  destruct enabled; [|reflexivity].
  destruct (Z.leb_spec (ContentLength (Req (ctx w))) maxBodySize) as [Hle|Hgt]; [|reflexivity].
  exfalso. apply NA. unfold captureActive. rewrite Hb. repeat split; [discriminate | exact Hle].
Qed.

Lemma captureActive_dec (enabled : bool) (maxBodySize : Z) (c : Context) :
  captureActive enabled maxBodySize c \/ ~ captureActive enabled maxBodySize c.
Proof.
  unfold captureActive. destruct enabled; [|right; intros (H & _); discriminate].
  destruct (Body (Req c)); [|right; intros (_ & H & _); now apply H].
  destruct (Z.le_gt_cases (ContentLength (Req c)) maxBodySize); [left | right].
  - repeat split; [discriminate | assumption].
  - intros (_ & _ & H'). lia.
Qed.

(** The body block of [RequestBodyLogger] when its guard holds. *)
Lemma logRequestBody_active (maxBodySize : Z) (w : World) (body : ReadCloser) :
  Body (Req (ctx w)) = Some body ->
  ContentLength (Req (ctx w)) <= maxBodySize ->
  logRequestBody maxBodySize w =
  match failure body with
  | None =>
      {| ctx := setBody (Some (bodyAfterRead body)) (ctx w);
         events := events w ++
           [ {| via := GetLogger; level := LevelDebug; message := "Request body";
                fields := [ FString "method" (Method (Req (ctx w)));
                            FString "path" (Path (Req (ctx w)));
                            FString "body" (pending body) ]
                          ++ (if decide (GetString (ctx w) "request_id" = "") then []
                              else [FString "request_id" (GetString (ctx w) "request_id")]) |} ];
         clock := clock w; ticks := ticks w; localOffset := localOffset w |}
  | Some _ => withCtx (setBody (Some (bodyAfterRead body))) w
  end.
Proof.
  intros Hb Hle. unfold logRequestBody, bodyAfterRead. rewrite Hb. apply Z.leb_le in Hle.
  rewrite Hle. unfold ReadAll. destruct (failure body); [reflexivity|].
  cbv zeta. unfold emit. cbn [withCtx ctx events clock ticks localOffset].
  change (GetString (setBody (Some (NopCloserBuffer (pending body))) (ctx w)) "request_id")
    with (GetString (ctx w) "request_id").
  now destruct (decide (GetString (ctx w) "request_id" = "")).
Qed.

(** The body block of [RequestBodyLogger] when its guard fails. *)
Lemma logRequestBody_idle (maxBodySize : Z) (w : World) :
  ~ captureActive true maxBodySize (ctx w) -> logRequestBody maxBodySize w = w.
Proof.
  intros NA. unfold logRequestBody.
  destruct (Body (Req (ctx w))) as [body|] eqn:Hb; [|reflexivity].
  destruct (Z.leb_spec (ContentLength (Req (ctx w))) maxBodySize) as [Hle|Hgt]; [|reflexivity].
  exfalso. apply NA. unfold captureActive. rewrite Hb. repeat split; [discriminate | exact Hle].
Qed.

(** [StructuredLogger] on a path that is not excluded, with the guard
    of body capture holding: the world handed down and the completion
    event, as far as the body goes. *)
Lemma StructuredLogger_active (sc : StructuredLoggerConfig.t) (w : World) (body : ReadCloser) :
  Body (Req (ctx w)) = Some body ->
  StructuredLoggerConfig.LogRequestBody sc = true ->
  ContentLength (Req (ctx w)) <= effectiveMax (StructuredLoggerConfig.MaxBodySize sc) ->
  ~ excluded sc (Path (Req (ctx w))) ->
  exists (w1 : World) (k : Outcome -> Prog),
    StructuredLogger sc w = Next w1 k /\
    ctx w1 = setBody (Some (bodyAfterRead body)) (ctx w) /\
    events w1 = events w /\
    forall w' : World,
      exists (w'' : World) (ev : Event) (own : list Field),
        k (Returned w') = Done (Returned w'') /\
        events w'' = events w' ++ [ev] /\
        fields ev = own ++ customOutput sc (ctx w') /\
        (failure body = None -> pending body <> "" ->
           In (FString "request_body" (pending body)) own) /\
        (failure body <> None \/ pending body = "" ->
           ~ In "request_body" (map fieldKey own)).
Proof.
  intros Hb Hen Hle NE.
  destruct (StructuredLogger_phases sc w) as (k & Hk & Hrest).
  rewrite (not_excluded_false sc _ NE) in Hk, Hrest. rewrite Hen in Hk, Hrest.
  rewrite (captureRequestBody_active _ (snd (Now w)) body Hb Hle) in Hk, Hrest.
  cbn [fst snd] in Hk, Hrest.
  eexists _, k. split; [exact Hk|]. split; [reflexivity|]. split; [reflexivity|].
  intros w'. destruct (Hrest w') as (w'' & new & H1 & H2 & _ & H4).
  destruct (H4 eq_refl) as (ev & own & -> & Hf & Hno & Hyes).
  exists w'', ev, own. split; [exact H1|]. split; [exact H2|]. split; [exact Hf|]. split.
  - intros Hok Hne. rewrite Hok in Hyes. now apply Hyes.
  - intros Hor Hin. apply Hno in Hin. destruct (failure body) eqn:F.
    + now apply Hin.
    + destruct Hor as [Hor|Hor]; [now apply Hor | contradiction].
Qed.

(** [StructuredLogger] when the guard of body capture fails, or the
    path is excluded: the context goes down untouched and no event has
    a request_body field of the handler's own. *)
Lemma StructuredLogger_idle (sc : StructuredLoggerConfig.t) (w : World) :
  ~ (captureActive (StructuredLoggerConfig.LogRequestBody sc)
       (effectiveMax (StructuredLoggerConfig.MaxBodySize sc)) (ctx w) /\
     ~ excluded sc (Path (Req (ctx w)))) ->
  exists (w1 : World) (k : Outcome -> Prog),
    StructuredLogger sc w = Next w1 k /\ ctx w1 = ctx w /\ events w1 = events w /\
    completesWithoutBodyField sc k.
Proof.
  intros NA. destruct (StructuredLogger_phases sc w) as (k & Hk & Hrest).
  eexists _, k. split; [exact Hk|].
  destruct (excludedb sc (Path (Req (ctx w)))) eqn:E.
  - split; [reflexivity|]. split; [reflexivity|].
    eapply completesWithoutBodyField_intro; [exact Hrest | discriminate].
  - assert (NE : ~ excluded sc (Path (Req (ctx w))))
      by (rewrite <- excludedb_spec, E; discriminate).
    assert (Hidle : captureRequestBody (StructuredLoggerConfig.LogRequestBody sc)
                      (effectiveMax (StructuredLoggerConfig.MaxBodySize sc)) (snd (Now w))
                    = ("", snd (Now w))).
    { apply captureRequestBody_idle. intros A. apply NA. split; [exact A | exact NE]. }
    rewrite Hidle. split; [reflexivity|]. split; [reflexivity|].
    eapply completesWithoutBodyField_intro; [exact Hrest|]. intros _. now rewrite Hidle.
Qed.

(** [RequestBodyLogger] on a path that is not skipped, with a body
    present and the declared length within the maximum. *)
Lemma RequestBodyLogger_active (bc : RequestBodyLoggerConfig.t) (w : World) (body : ReadCloser) :
  Body (Req (ctx w)) = Some body ->
  ContentLength (Req (ctx w)) <= effectiveMax (RequestBodyLoggerConfig.MaxBodySize bc) ->
  ~ In (Path (Req (ctx w))) (RequestBodyLoggerConfig.SkipPaths bc) ->
  exists w1 : World,
    RequestBodyLogger bc w = callNext w1 (fun w' => Done (Returned w')) /\
    ctx w1 = setBody (Some (bodyAfterRead body)) (ctx w) /\
    (failure body = None ->
       exists ev : Event,
         events w1 = events w ++ [ev] /\
         level ev = LevelDebug /\ via ev = GetLogger /\ message ev = "Request body" /\
         In (FString "body" (pending body)) (fields ev)) /\
    (failure body <> None -> events w1 = events w).
Proof.
  intros Hb Hle NS. rewrite RequestBodyLogger_unfold, (not_skipped_false _ _ NS).
  rewrite (logRequestBody_active _ w body Hb Hle).
  eexists. split; [reflexivity|]. destruct (failure body) eqn:F.
  - split; [reflexivity|]. split; [discriminate | reflexivity].
  - split; [reflexivity|]. split; [|intros H; now contradiction H].
    intros _. eexists. split; [reflexivity|]. cbn [level via message fields].
    repeat split. rewrite in_app_iff. simpl. tauto.
Qed.

(** [RequestBodyLogger] in every other case only calls the rest of the
    chain. *)
Lemma RequestBodyLogger_idle (bc : RequestBodyLoggerConfig.t) (w : World) :
  ~ (captureActive true (effectiveMax (RequestBodyLoggerConfig.MaxBodySize bc)) (ctx w) /\
     ~ In (Path (Req (ctx w))) (RequestBodyLoggerConfig.SkipPaths bc)) ->
  RequestBodyLogger bc w = callNext w (fun w' => Done (Returned w')).
Proof.
  intros NA. rewrite RequestBodyLogger_unfold.
  destruct (skipped _ _) eqn:E; [reflexivity|].
  rewrite logRequestBody_idle; [reflexivity|]. intros A. apply NA. split; [exact A|].
  intros Hin. apply skipped_spec in Hin. congruence.
Qed.

(** C5, as the code has it.  Take a request with a body, on a path that
    is not excluded, with body capture enabled and the declared length
    at most the maximum in force.  Both handlers read the body to its
    end.  When the read succeeds they put a fresh buffer over the bytes
    in its place and change nothing else of the context, so the rest of
    the chain reads the very same bytes, without error; and the bytes
    read are logged: by [RequestBodyLogger] in the body field of the
    debug event it emits before the chain runs, by [StructuredLogger]
    in the request_body field of its completion event (no such field
    for an empty body).  When the read fails, both still call the rest
    of the chain, having emitted nothing; [RequestBodyLogger] then
    returns, and [StructuredLogger] completes with no request_body
    field of its own.  On an excluded path neither handler reads the
    body: each only calls the rest of the chain. *)
Theorem body_capture_restores_body
    (sc : StructuredLoggerConfig.t) (bc : RequestBodyLoggerConfig.t)
    (w : World) (body : ReadCloser) :
  Body (Req (ctx w)) = Some body ->
  let path := Path (Req (ctx w)) in
  let declared := ContentLength (Req (ctx w)) in
  let restored := setBody (Some (NopCloserBuffer (pending body))) (ctx w) in
  (StructuredLoggerConfig.LogRequestBody sc = true ->
   declared <= effectiveMax (StructuredLoggerConfig.MaxBodySize sc) ->
   ~ excluded sc path ->
   exists (w1 : World) (k : Outcome -> Prog),
     StructuredLogger sc w = Next w1 k /\ events w1 = events w /\
     (failure body = None ->
        ctx w1 = restored /\ bodyAsRead (ctx w1) = Some (pending body, None) /\
        forall w' : World,
          exists (w'' : World) (ev : Event) (own : list Field),
            k (Returned w') = Done (Returned w'') /\
            events w'' = events w' ++ [ev] /\
            fields ev = own ++ customOutput sc (ctx w') /\
            (pending body <> "" -> In (FString "request_body" (pending body)) own) /\
            (pending body = "" -> ~ In "request_body" (map fieldKey own))) /\
     (forall e : string, failure body = Some e -> completesWithoutBodyField sc k)) /\
  (declared <= effectiveMax (RequestBodyLoggerConfig.MaxBodySize bc) ->
   ~ In path (RequestBodyLoggerConfig.SkipPaths bc) ->
   exists w1 : World,
     RequestBodyLogger bc w = callNext w1 (fun w' => Done (Returned w')) /\
     (failure body = None ->
        ctx w1 = restored /\ bodyAsRead (ctx w1) = Some (pending body, None) /\
        exists ev : Event,
          events w1 = events w ++ [ev] /\
          level ev = LevelDebug /\ via ev = GetLogger /\ message ev = "Request body" /\
          In (FString "body" (pending body)) (fields ev)) /\
     (forall e : string, failure body = Some e -> events w1 = events w)) /\
  (excluded sc path ->
   StructuredLogger sc w = callNext w (fun w' => Done (Returned w'))) /\
  (In path (RequestBodyLoggerConfig.SkipPaths bc) ->
   RequestBodyLogger bc w = callNext w (fun w' => Done (Returned w'))).
Proof.
  intros Hbody path declared restored.
  split; [|split; [|split]].
  - intros Hen Hle NE.
    destruct (StructuredLogger_active sc w body Hbody Hen Hle NE)
      as (w1 & k & Hk & Hctx & Hev & Hrest).
    exists w1, k. split; [exact Hk|]. split; [exact Hev|]. split.
    + intros Hok. unfold bodyAfterRead in Hctx. rewrite Hok in Hctx.
      split; [exact Hctx|]. split; [now rewrite Hctx|].
      intros w'. destruct (Hrest w') as (w'' & ev & own & H1 & H2 & H3 & Hyes & Hno).
      exists w'', ev, own. split; [exact H1|]. split; [exact H2|]. split; [exact H3|]. split.
      * intros Hne. now apply Hyes.
      * intros He. apply Hno. now right.
    + intros e Hfail w'.
      destruct (Hrest w') as (w'' & ev & own & H1 & H2 & H3 & _ & Hno).
      exists w'', [ev]. split; [exact H1|]. split; [exact H2|].
      intros ev' [<-|[]]. exists own. split; [exact H3|]. apply Hno. left. congruence.
  - intros Hle NS.
    destruct (RequestBodyLogger_active bc w body Hbody Hle NS)
      as (w1 & Hrun & Hctx & Hok & Hfail).
    exists w1. split; [exact Hrun|]. split.
    + intros H. unfold bodyAfterRead in Hctx. rewrite H in Hctx.
      split; [exact Hctx|]. split; [now rewrite Hctx | now apply Hok].
    + intros e H. apply Hfail. congruence.
  - apply StructuredLogger_excluded.
  - intros Hin. apply RequestBodyLogger_idle. intros [_ NS]. contradiction.
Qed.

Lemma body_capture_restores_body_witness :
  let w := sampleWorld "/users" ∅ (Some formBody) 17 in
  Body (Req (ctx w)) = Some formBody /\ failure formBody = None /\
  ContentLength (Req (ctx w)) = effectiveMax 17 /\
  ~ In (Path (Req (ctx w))) (RequestBodyLoggerConfig.SkipPaths (sampleBodyConfig 17)) /\
  exists (w1 : World) (ev : Event),
    RequestBodyLogger (sampleBodyConfig 17) w = callNext w1 (fun w' => Done (Returned w')) /\
    bodyAsRead (ctx w1) = Some ("name=ada&role=dev", None) /\
    events w1 = events w ++ [ev] /\
    In (FString "body" "name=ada&role=dev") (fields ev).
Proof.
  intros w.
  assert (H1 : Body (Req (ctx w)) = Some formBody) by reflexivity.
  assert (H2 : failure formBody = None) by reflexivity.
  assert (H3 : ContentLength (Req (ctx w)) = effectiveMax 17) by reflexivity.
  assert (H4 : ~ In (Path (Req (ctx w)))
                    (RequestBodyLoggerConfig.SkipPaths (sampleBodyConfig 17))).
  { simpl. intros [H|[]]. discriminate. }
  split; [exact H1|]. split; [exact H2|]. split; [exact H3|]. split; [exact H4|].
  destruct (proj1 (proj2 (body_capture_restores_body
                            (sampleStructuredConfigMax 17) (sampleBodyConfig 17) w formBody H1))
              (Z.eq_le_incl _ _ H3) H4)
    as (w1 & Hrun & Hok & _).
  destruct (Hok H2) as (_ & Hread & ev & Hev & _ & _ & _ & Hin).
  exists w1, ev. auto.
Defined.

(** C5 as worded fails: body capture is enabled in both configurations
    and the seventeen bytes of this body are well within the maximum,
    but the path is excluded, and neither handler reads the body: each
    only calls the rest of the chain, and no event is emitted. *)
Lemma excluded_path_body_is_not_read :
  StructuredLoggerConfig.LogRequestBody sampleStructuredConfig = true /\
  In "/health" (StructuredLoggerConfig.SkipPaths sampleStructuredConfig) /\
  In "/health" (RequestBodyLoggerConfig.SkipPaths (sampleBodyConfig 0)) /\
  17 <= effectiveMax 0 /\
  StructuredLogger sampleStructuredConfig (sampleWorld "/health" ∅ (Some formBody) 17)
  = callNext (sampleWorld "/health" ∅ (Some formBody) 17) (fun w' => Done (Returned w')) /\
  RequestBodyLogger (sampleBodyConfig 0) (sampleWorld "/health" ∅ (Some formBody) 17)
  = callNext (sampleWorld "/health" ∅ (Some formBody) 17) (fun w' => Done (Returned w')) /\
  run Returned (StructuredLogger sampleStructuredConfig
                  (sampleWorld "/health" ∅ (Some formBody) 17))
  = Returned (sampleWorld "/health" ∅ (Some formBody) 17) /\
  events (sampleWorld "/health" ∅ (Some formBody) 17) = [].
Proof.
  split; [reflexivity|]. split; [simpl; tauto|]. split; [simpl; tauto|].
  split; [unfold effectiveMax; simpl; lia|].
  assert (E : StructuredLogger sampleStructuredConfig
                (sampleWorld "/health" ∅ (Some formBody) 17)
              = callNext (sampleWorld "/health" ∅ (Some formBody) 17)
                  (fun w' => Done (Returned w'))).
  { apply StructuredLogger_excluded. left. simpl. tauto. }
  split; [exact E|]. split; [reflexivity|]. split; [now rewrite E | reflexivity].
Qed.

Lemma captured_nonempty (enabled : bool) (maxBodySize : Z) (w : World) :
  fst (captureRequestBody enabled maxBodySize w) <> "" ->
  enabled = true /\ ContentLength (Req (ctx w)) <= maxBodySize /\
  exists body, Body (Req (ctx w)) = Some body /\ failure body = None /\ pending body <> "".
Proof.
  rewrite captureRequestBody_spec.
  destruct (Body (Req (ctx w))) as [body|]; [|intros H; now contradiction H].
  destruct enabled; [|intros H; now contradiction H]. simpl.
  destruct (Z.leb_spec (ContentLength (Req (ctx w))) maxBodySize) as [Hle|Hgt];
    [|intros H; now contradiction H].
  destruct (failure body) eqn:F; [intros H; now contradiction H|].
  simpl. intros H. split; [reflexivity|]. split; [exact Hle|]. exists body. auto.
Qed.

(** C6, as the code has it.  The maximum in force is the configured one,
    1,048,576 when that is left at zero.  Body capture has a guard of
    three parts: it is enabled ([LogRequestBody] for [StructuredLogger];
    [RequestBodyLogger] has no flag), the body is present (not nil; it
    may be empty), and the declared length is within the maximum; and
    the path must not be excluded.  Only under the guard does either
    handler touch the request: whenever the context it hands to the
    rest of the chain differs from the one it got, the guard held; and
    only under the guard, with a non-empty body read without error, has
    an event of [StructuredLogger] a request_body field of its own.
    Under the guard the body is read to its end and replaced by what
    the read leaves, whether it holds bytes or not; [RequestBodyLogger]
    then emits its debug event with the bytes in the body field, also
    for an empty body, and [StructuredLogger] has the request_body
    field exactly for non-empty bytes read without error.  When the
    declared length exceeds the maximum, [RequestBodyLogger] forwards
    the world untouched and [StructuredLogger] forwards the unchanged
    context and completes with no request_body field of its own. *)
Theorem body_capture_guard
    (sc : StructuredLoggerConfig.t) (bc : RequestBodyLoggerConfig.t) (w : World) :
  let path := Path (Req (ctx w)) in
  let declared := ContentLength (Req (ctx w)) in
  let smax := effectiveMax (StructuredLoggerConfig.MaxBodySize sc) in
  let bmax := effectiveMax (RequestBodyLoggerConfig.MaxBodySize bc) in
  let sactive := captureActive (StructuredLoggerConfig.LogRequestBody sc) smax (ctx w) /\
                 ~ excluded sc path in
  let bactive := captureActive true bmax (ctx w) /\
                 ~ In path (RequestBodyLoggerConfig.SkipPaths bc) in
  effectiveMax 0 = 1048576 /\
  (forall m : Z, m <> 0 -> effectiveMax m = m) /\
  (exists (w1 : World) (k : Outcome -> Prog),
     StructuredLogger sc w = Next w1 k /\ events w1 = events w /\
     (ctx w1 <> ctx w -> sactive) /\
     (~ sactive -> ctx w1 = ctx w) /\
     forall w' : World,
       exists (w'' : World) (new : list Event),
         k (Returned w') = Done (Returned w'') /\
         events w'' = events w' ++ new /\
         forall ev, In ev new ->
           exists own, fields ev = own ++ customOutput sc (ctx w') /\
             (In "request_body" (map fieldKey own) ->
                sactive /\
                exists body, Body (Req (ctx w)) = Some body /\
                             failure body = None /\ pending body <> "")) /\
  (forall body : ReadCloser,
     Body (Req (ctx w)) = Some body -> sactive ->
     exists (w1 : World) (k : Outcome -> Prog),
       StructuredLogger sc w = Next w1 k /\
       ctx w1 = setBody (Some (bodyAfterRead body)) (ctx w) /\
       forall w' : World,
         exists (w'' : World) (ev : Event) (own : list Field),
           k (Returned w') = Done (Returned w'') /\
           events w'' = events w' ++ [ev] /\
           fields ev = own ++ customOutput sc (ctx w') /\
           (failure body = None -> pending body <> "" ->
              In (FString "request_body" (pending body)) own) /\
           (failure body <> None \/ pending body = "" ->
              ~ In "request_body" (map fieldKey own))) /\
  (exists w1 : World,
     RequestBodyLogger bc w = callNext w1 (fun w' => Done (Returned w')) /\
     (w1 <> w -> bactive) /\ (~ bactive -> w1 = w)) /\
  (forall body : ReadCloser,
     Body (Req (ctx w)) = Some body -> bactive ->
     exists w1 : World,
       RequestBodyLogger bc w = callNext w1 (fun w' => Done (Returned w')) /\
       ctx w1 = setBody (Some (bodyAfterRead body)) (ctx w) /\
       (failure body = None ->
          exists ev : Event,
            events w1 = events w ++ [ev] /\
            level ev = LevelDebug /\ via ev = GetLogger /\ message ev = "Request body" /\
            In (FString "body" (pending body)) (fields ev)) /\
       (failure body <> None -> events w1 = events w)) /\
  (smax < declared ->
     exists (w1 : World) (k : Outcome -> Prog),
       StructuredLogger sc w = Next w1 k /\ ctx w1 = ctx w /\ events w1 = events w /\
       completesWithoutBodyField sc k) /\
  (bmax < declared ->
     RequestBodyLogger bc w = callNext w (fun w' => Done (Returned w'))).
Proof.
  intros path declared smax bmax sactive bactive.
  assert (Sdec : sactive \/ ~ sactive).
  { unfold sactive.
    destruct (captureActive_dec (StructuredLoggerConfig.LogRequestBody sc) smax (ctx w))
      as [A|NA]; [|right; tauto].
    destruct (excludedb sc path) eqn:E.
    - right. intros [_ NE]. apply NE. now apply excludedb_spec.
    - left. split; [exact A|]. rewrite <- excludedb_spec, E. discriminate. }
  assert (Bdec : bactive \/ ~ bactive).
  { unfold bactive. destruct (captureActive_dec true bmax (ctx w)) as [A|NA]; [|right; tauto].
    destruct (in_dec string_dec path (RequestBodyLoggerConfig.SkipPaths bc)); [right|left]; tauto. }
  split; [reflexivity|].
  split; [intros m Hm; unfold effectiveMax; now destruct (Z.eqb_spec m 0)|].
  split; [|split; [|split; [|split; [|split]]]].
  - destruct Sdec as [A|NA].
    + destruct A as [(Hen & Hb & Hle) NE].
      destruct (Body (Req (ctx w))) as [body|] eqn:Hbody; [|now contradiction Hb].
      destruct (StructuredLogger_active sc w body Hbody Hen Hle NE)
        as (w1 & k & Hk & _ & Hev & Hrest).
      assert (A : sactive).
      { unfold sactive, captureActive. rewrite Hbody. repeat split; auto. }
      exists w1, k. split; [exact Hk|]. split; [exact Hev|]. split; [intros _; exact A|].
      split; [intros NA; now contradiction NA|].
      intros w'. destruct (Hrest w') as (w'' & ev & own & H1 & H2 & H3 & _ & Hno).
      exists w'', [ev]. split; [exact H1|]. split; [exact H2|].
      intros ev' [<-|[]]. exists own. split; [exact H3|].
      intros Hin. split; [exact A|]. exists body. split; [reflexivity|].
      destruct (failure body) eqn:F.
      * exfalso. apply Hno; [left; discriminate | exact Hin].
      * split; [reflexivity|]. intros He. apply Hno; [now right | exact Hin].
    + destruct (StructuredLogger_idle sc w NA) as (w1 & k & Hk & Hctx & Hev & Hrest).
      exists w1, k. split; [exact Hk|]. split; [exact Hev|].
      split; [intros H; now contradiction H|]. split; [intros _; exact Hctx|].
      intros w'. destruct (Hrest w') as (w'' & new & H1 & H2 & H3).
      exists w'', new. split; [exact H1|]. split; [exact H2|].
      intros ev Hin. destruct (H3 ev Hin) as (own & Hf & Hno).
      exists own. split; [exact Hf|]. intros H. contradiction.
  - intros body Hbody [(Hen & _ & Hle) NE].
    destruct (StructuredLogger_active sc w body Hbody Hen Hle NE)
      as (w1 & k & Hk & Hctx & _ & Hrest).
    exists w1, k. auto.
  - destruct Bdec as [A|NA].
    + eexists. split; [apply RequestBodyLogger_unfold|].
      split; [intros _; exact A | intros NA; now contradiction NA].
    + exists w. split; [now apply RequestBodyLogger_idle|].
      split; [intros H; now contradiction H | reflexivity].
  - intros body Hbody [(_ & _ & Hle) NS].
    exact (RequestBodyLogger_active bc w body Hbody Hle NS).
  - intros Hover. apply StructuredLogger_idle. intros [(_ & _ & Hle) _].
    fold declared smax in Hle. lia.
  - intros Hover. apply RequestBodyLogger_idle. intros [(_ & _ & Hle) _].
    fold declared bmax in Hle. lia.
Qed.

Lemma body_capture_guard_witness :
  let w := sampleWorld "/upload" ∅ (Some formBody) 2000000 in
  effectiveMax 0 < ContentLength (Req (ctx w)) /\
  RequestBodyLogger (sampleBodyConfig 0) w = callNext w (fun w' => Done (Returned w')).
Proof.
  intros w.
  assert (H : effectiveMax 0 < ContentLength (Req (ctx w))) by (vm_compute; reflexivity).
  split; [exact H|].
  exact (proj2 (proj2 (proj2 (proj2 (proj2 (proj2 (proj2
           (body_capture_guard sampleStructuredConfig (sampleBodyConfig 0) w))))))) H).
Defined.

(** C6 as worded fails: the body of this request is present and empty,
    and [RequestBodyLogger] captures it all the same: it emits its
    debug event, with an empty body field. *)
Lemma empty_body_is_captured :
  pending emptyBody = "" /\
  RequestBodyLogger (sampleBodyConfig 0) (sampleWorld "/ping" ∅ (Some emptyBody) 0)
  = callNext
      {| ctx := ctx (sampleWorld "/ping" ∅ (Some emptyBody) 0);
         events := [ {| via := GetLogger; level := LevelDebug; message := "Request body";
                        fields := [ FString "method" "GET"; FString "path" "/ping";
                                    FString "body" "" ] |} ];
         clock := sampleClock; ticks := 0; localOffset := 0 |}
      (fun w' => Done (Returned w')).
Proof. split; reflexivity. Qed.

(** C10, as the code has it.  Take a request with a body and a negative
    declared length, on a path that is not excluded.  Under a
    configured maximum that is not negative the size guard passes,
    whatever the body holds; a body that reads without error is then
    buffered whole and put back, and its bytes are emitted: by
    [RequestBodyLogger] in the body field of its debug event, by
    [StructuredLogger] in a request_body field of its completion event
    when they are non-empty. *)
Theorem negative_length_passes_guard
    (sc : StructuredLoggerConfig.t) (bc : RequestBodyLoggerConfig.t)
    (w : World) (body : ReadCloser) :
  Body (Req (ctx w)) = Some body ->
  ContentLength (Req (ctx w)) < 0 ->
  let path := Path (Req (ctx w)) in
  let declared := ContentLength (Req (ctx w)) in
  let restored := setBody (Some (NopCloserBuffer (pending body))) (ctx w) in
  (0 <= StructuredLoggerConfig.MaxBodySize sc ->
   StructuredLoggerConfig.LogRequestBody sc = true ->
   ~ excluded sc path ->
     (declared <=? effectiveMax (StructuredLoggerConfig.MaxBodySize sc)) = true /\
     (failure body = None ->
        exists (w1 : World) (k : Outcome -> Prog),
          StructuredLogger sc w = Next w1 k /\ ctx w1 = restored /\
          (pending body <> "" ->
             forall w' : World, exists (w'' : World) (ev : Event),
               k (Returned w') = Done (Returned w'') /\
               events w'' = events w' ++ [ev] /\
               In (FString "request_body" (pending body)) (fields ev)))) /\
  (0 <= RequestBodyLoggerConfig.MaxBodySize bc ->
   ~ In path (RequestBodyLoggerConfig.SkipPaths bc) ->
     (declared <=? effectiveMax (RequestBodyLoggerConfig.MaxBodySize bc)) = true /\
     (failure body = None ->
        exists (w1 : World) (ev : Event),
          RequestBodyLogger bc w = callNext w1 (fun w' => Done (Returned w')) /\
          ctx w1 = restored /\ events w1 = events w ++ [ev] /\
          level ev = LevelDebug /\ In (FString "body" (pending body)) (fields ev))).
Proof.
  intros Hbody Hneg path declared restored.
  assert (Hguard : forall m : Z, 0 <= m -> (declared <=? effectiveMax m) = true).
  { intros m Hm. apply Z.leb_le. unfold effectiveMax, declared.
    destruct (Z.eqb_spec m 0); lia. }
  split.
  - intros Hmax Hen NE. split; [now apply Hguard|]. intros Hok.
    destruct (StructuredLogger_phases sc w) as (k & Hk & Hrest).
    assert (E : excludedb sc (Path (Req (ctx w))) = false).
    { destruct (excludedb _ _) eqn:E; [apply excludedb_spec in E; contradiction | reflexivity]. }
    rewrite E in Hk, Hrest.
    rewrite (captured_after_Now _ _ w body Hbody), Hen, Hok in Hk, Hrest.
    fold declared in Hk, Hrest. rewrite (Hguard _ Hmax) in Hk, Hrest. simpl in Hk, Hrest.
    eexists _, k. split; [exact Hk|]. split; [reflexivity|].
    intros Hne w'. destruct (Hrest w') as (w'' & new & H1 & H2 & _ & H4).
    destruct (H4 eq_refl) as (ev & own & -> & Hf & _ & Hin).
    exists w'', ev. split; [exact H1|]. split; [exact H2|].
    rewrite Hf, in_app_iff. left. now apply Hin.
  - intros Hmax NS. split; [now apply Hguard|]. intros Hok.
    rewrite RequestBodyLogger_unfold.
    destruct (skipped _ _) eqn:E; [apply skipped_spec in E; contradiction|].
    pose proof (logRequestBody_spec
                  (effectiveMax (RequestBodyLoggerConfig.MaxBodySize bc)) w) as L.
    rewrite Hbody, Hok in L. fold declared in L. rewrite (Hguard _ Hmax) in L.
    destruct L as (ev & -> & Hl & _ & Hin).
    eexists _, ev. split; [reflexivity|]. simpl. auto.
Qed.

Lemma negative_length_passes_guard_witness :
  let w := sampleWorld "/upload" ∅ (Some formBody) (-1) in
  Body (Req (ctx w)) = Some formBody /\ ContentLength (Req (ctx w)) < 0 /\
  4 < Z.of_nat (String.length (pending formBody)) /\
  exists (w1 : World) (ev : Event),
    RequestBodyLogger (sampleBodyConfig 4) w = callNext w1 (fun w' => Done (Returned w')) /\
    events w1 = events w ++ [ev] /\
    In (FString "body" "name=ada&role=dev") (fields ev).
Proof.
  intros w.
  assert (H1 : Body (Req (ctx w)) = Some formBody) by reflexivity.
  assert (H2 : ContentLength (Req (ctx w)) < 0) by reflexivity.
  assert (H3 : 0 <= RequestBodyLoggerConfig.MaxBodySize (sampleBodyConfig 4)) by (simpl; lia).
  assert (H4 : ~ In (Path (Req (ctx w)))
                    (RequestBodyLoggerConfig.SkipPaths (sampleBodyConfig 4))).
  { simpl. intros [H|[]]. discriminate. }
  split; [exact H1|]. split; [exact H2|]. split; [reflexivity|].
  destruct (proj2 (proj2 (negative_length_passes_guard
                            (sampleStructuredConfigMax 4) (sampleBodyConfig 4) w formBody H1 H2)
                     H3 H4) eq_refl)
    as (w1 & ev & Hrun & _ & Hev & _ & Hin).
  exists w1, ev. split; [exact Hrun|]. split; [exact Hev | exact Hin].
Defined.

(** C10 as worded fails in four ways.  Under a configured maximum of
    -2 a declared length of -1 does not pass the guard, and the body is
    neither buffered nor logged.  A body whose read fails is not
    logged.  An empty body gives no request_body field in the event of
    [StructuredLogger].  On a skipped path nothing is read at all. *)
Lemma negative_length_not_always_captured :
  ((-1 <=? effectiveMax (-2)) = false /\
   RequestBodyLogger (sampleBodyConfig (-2)) (sampleWorld "/upload" ∅ (Some formBody) (-1))
   = callNext (sampleWorld "/upload" ∅ (Some formBody) (-1)) (fun w' => Done (Returned w'))) /\
  (exists w1 : World,
     RequestBodyLogger (sampleBodyConfig 0) (sampleWorld "/upload" ∅ (Some brokenBody) (-1))
     = callNext w1 (fun w' => Done (Returned w')) /\ events w1 = []) /\
  (exists (w1 : World) (k : Outcome -> Prog),
     StructuredLogger (sampleStructuredConfigMax 0) (sampleWorld "/upload" ∅ (Some emptyBody) (-1))
     = Next w1 k /\
     completesWithoutBodyField (sampleStructuredConfigMax 0) k) /\
  RequestBodyLogger (sampleBodyConfig 0) (sampleWorld "/health" ∅ (Some formBody) (-1))
  = callNext (sampleWorld "/health" ∅ (Some formBody) (-1)) (fun w' => Done (Returned w')).
Proof.
  split; [split; reflexivity|]. split; [|split].
  - eexists. split; reflexivity.
  - destruct (StructuredLogger_phases (sampleStructuredConfigMax 0)
                (sampleWorld "/upload" ∅ (Some emptyBody) (-1))) as (k & Hk & Hrest).
    eexists _, k. split; [exact Hk|].
    eapply completesWithoutBodyField_intro; [exact Hrest|]. reflexivity.
  - reflexivity.
Qed.

Lemma completion_loggers_severity_by_status_witness :
  let w := sampleWorld "/api/users" ∅ None 0 in
  let w' := withCtx (SetStatus 503) w in
  (~ In "/api/users" (GinLoggerConfig.SkipPaths sampleGinConfig)) /\
  completesWithOneEvent (GinLoggerWithConfig sampleGinConfig) w w' 503.
Proof.
  intros w w'.
  assert (H : ~ In "/api/users" (GinLoggerConfig.SkipPaths sampleGinConfig)).
  { simpl. intros [H|[]]. discriminate. }
  split; [exact H|].
  exact (proj1 (completion_loggers_severity_by_status
                  sampleGinConfig sampleStructuredConfig w w') H).
Defined.

Lemma RecoveryLogger_contains_panic_witness :
  let w := arrivingWorld "/panic" ∅ None 0 in
  panicHandler w = Panicked w (AString "This is a test panic!") /\
  wSize (Writer (ctx w)) = noWritten /\
  exists w'' : World,
    run panicHandler (RecoveryLogger w) = Returned w'' /\
    wStatus (Writer (ctx w'')) = 500 /\ length (events w'') = 1%nat.
Proof.
  intros w.
  assert (H : panicHandler w = Panicked w (AString "This is a test panic!")) by reflexivity.
  assert (Hs : wSize (Writer (ctx w)) = noWritten) by reflexivity.
  split; [exact H|]. split; [exact Hs|].
  destruct (proj2 (proj2 (RecoveryLogger_contains_panic panicHandler w)) w _ H)
    as (ev & w'' & Hrun & Hev & _ & _ & _ & _ & _ & _ & _ & _ & _ & _ & Hst & _).
  exists w''. split; [exact Hrun|]. split; [exact (proj1 (Hst Hs))|]. now rewrite Hev.
Defined.

Lemma PerformanceLogger_warns_iff_slow_witness :
  let w := sampleWorld "/slow" ∅ None 0 in
  let w' := snd (Now w) in
  Second < 1500000000 /\
  exists (k : Outcome -> Prog) (w'' : World) (ev : Event),
    PerformanceLogger w = Next w' k /\
    k (Returned w') = Done (Returned w'') /\
    events w'' = events w' ++ [ev] /\ level ev = LevelWarn.
Proof.
  intros w w'.
  assert (H : Second < 1500000000) by reflexivity.
  split; [exact H|].
  destruct (PerformanceLogger_warns_iff_slow w w')
    as (k & w'' & Hrun & _ & Hk & _ & Hslow & _).
  destruct (Hslow H) as (ev & Hev & Hl & _).
  exists k, w'', ev. auto.
Defined.

Lemma RequestIDMiddleware_sets_identifier_witness :
  let w := sampleWorld "/api/users" {["X-Request-Id" := ["abc-123"]]} None 0 in
  GetHeader (ctx w) "X-Request-ID" <> "" /\
  exists w1 : World,
    RequestIDMiddleware w = callNext w1 (fun w' => Done (Returned w')) /\
    HeaderGet (wHeader (Writer (ctx w1))) "X-Request-ID" = "abc-123" /\
    GetString (ctx w1) "request_id" = "abc-123".
Proof.
  intros w.
  assert (H : GetHeader (ctx w) "X-Request-ID" <> "") by (vm_compute; discriminate).
  split; [exact H|].
  destruct (RequestIDMiddleware_sets_identifier w)
    as (id & w1 & Hrun & Hh & _ & Hk & _ & Hin & _).
  exists w1. rewrite Hh, Hk. split; [exact Hrun|]. split; apply (Hin H).
Defined.

(* ================================================================== *)
(** * The error logger *)

Lemma ErrorLogger_unfold (Errors : Context -> list GinError) (w : World) :
  ErrorLogger Errors w =
  callNext w (fun w' => Done (Returned (foldl logError w' (Errors (ctx w'))))).
Proof. reflexivity. Qed.

Lemma logError_spec (w : World) (err : GinError) :
  exists ev : Event,
    logError w err
    = {| ctx := ctx w; events := events w ++ [ev]; clock := clock w;
         ticks := ticks w; localOffset := localOffset w |} /\
    logsError (ctx w) err ev.
Proof.
  unfold logError, logsError. cbv zeta.
  destruct (Z.eqb_spec (Type_ err) ErrorTypeBind) as [E1|N1];
    [|destruct (Z.eqb_spec (Type_ err) ErrorTypeRender) as [E2|N2];
      [|destruct (Z.eqb_spec (Type_ err) ErrorTypePublic) as [E3|N3]]];
    (eexists; split; [reflexivity|]; simpl;
     split; [reflexivity|];
     split; [destruct (decide (GetString (ctx w) "request_id" = "")); reflexivity|];
     repeat split; intros; try reflexivity; try contradiction;
     try (exfalso; unfold ErrorTypeBind, ErrorTypeRender, ErrorTypePublic in *; lia)).
Qed.

Lemma logError_loop (errs : list GinError) :
  forall w : World,
    exists evs : list Event,
      foldl logError w errs
      = {| ctx := ctx w; events := events w ++ evs; clock := clock w;
           ticks := ticks w; localOffset := localOffset w |} /\
      Forall2 (logsError (ctx w)) errs evs.
Proof.
  induction errs as [|err errs IH]; intros w.
  - exists []. split; [destruct w; simpl; now rewrite app_nil_r | constructor].
  - cbn [foldl]. destruct (logError_spec w err) as (ev & Hev & Hlog). rewrite Hev.
    match goal with |- context [foldl logError ?w0 errs] => destruct (IH w0) as (evs & Heq & Hall) end.
    simpl in Heq, Hall. exists (ev :: evs). split.
    + rewrite Heq. now rewrite <- app_assoc.
    + constructor; assumption.
Qed.

(** X1. After the rest of the chain has returned, [ErrorLogger] emits
    one event per error attached to the context, in the order of the
    list and nothing else: binding errors at warning level, rendering
    errors at error level, public errors at info level, every other
    type (private, any, a combination of bits) at error level as
    "Internal error"; each event holds method, path, client address,
    the error, and the request identifier when there is one.  It emits
    nothing before the chain runs and changes nothing but the events. *)
Theorem ErrorLogger_logs_each_error (Errors : Context -> list GinError) (w w' : World) :
  exists (k : Outcome -> Prog) (evs : list Event),
    ErrorLogger Errors w = Next w k /\
    k (Returned w')
    = Done (Returned {| ctx := ctx w'; events := events w' ++ evs; clock := clock w';
                        ticks := ticks w'; localOffset := localOffset w' |}) /\
    Forall2 (logsError (ctx w')) (Errors (ctx w')) evs /\
    length evs = length (Errors (ctx w')).
Proof.
  rewrite ErrorLogger_unfold. unfold callNext.
  destruct (logError_loop (Errors (ctx w')) w') as (evs & Heq & Hall).
  eexists _, evs. split; [reflexivity|]. cbv beta iota. rewrite Heq.
  split; [reflexivity|]. split; [exact Hall|].
  symmetry. eapply Forall2_length; eauto.
Qed.

(** X2. When the rest of the chain attaches no error, or panics,
    [ErrorLogger] is invisible: running it is running the rest of the
    chain. *)
Theorem ErrorLogger_transparent_without_errors
    (Errors : Context -> list GinError) (down : World -> Outcome) (w : World) :
  (forall w', down w = Returned w' -> Errors (ctx w') = []) ->
  run down (ErrorLogger Errors w) = down w.
Proof.
  intros H. rewrite ErrorLogger_unfold. simpl.
  destruct (down w) as [w'|w' v] eqn:E; [|reflexivity].
  simpl. now rewrite (H w' eq_refl).
Qed.

Lemma ErrorLogger_transparent_without_errors_witness :
  (forall w', Returned (sampleWorld "/" ∅ None 0) = Returned w' -> (fun _ : Context => @nil GinError) (ctx w') = []) /\
  run Returned (ErrorLogger (fun _ => []) (sampleWorld "/" ∅ None 0))
  = Returned (sampleWorld "/" ∅ None 0).
Proof.
  assert (H : forall w', Returned (sampleWorld "/" ∅ None 0) = Returned w' ->
                         (fun _ : Context => @nil GinError) (ctx w') = []) by reflexivity.
  split; [exact H|].
  exact (ErrorLogger_transparent_without_errors (fun _ => []) Returned
           (sampleWorld "/" ∅ None 0) H).
Defined.

(* ================================================================== *)
(** * Skipped paths of the other loggers *)

(** X3. [GinLoggerWithConfig] on a path that is an exact member of
    SkipPaths is the rest of the chain and nothing else: no clock
    reading, no event. *)
Theorem GinLoggerWithConfig_skips (config : GinLoggerConfig.t) (w : World) :
  In (Path (Req (ctx w))) (GinLoggerConfig.SkipPaths config) ->
  GinLoggerWithConfig config w = callNext w (fun w' => Done (Returned w')) /\
  forall down : World -> Outcome, run down (GinLoggerWithConfig config w) = down w.
Proof.
  intros H. apply skipped_spec in H.
  assert (E : GinLoggerWithConfig config w = callNext w (fun w' => Done (Returned w'))).
  { unfold GinLoggerWithConfig. now rewrite H. }
  split; [exact E|]. intros down. rewrite E. apply run_callNext_return.
Qed.

Lemma GinLoggerWithConfig_skips_witness :
  In "/health" (GinLoggerConfig.SkipPaths sampleGinConfig) /\
  GinLoggerWithConfig sampleGinConfig (sampleWorld "/health" ∅ None 0)
  = callNext (sampleWorld "/health" ∅ None 0) (fun w' => Done (Returned w')).
Proof.
  assert (H : In "/health" (GinLoggerConfig.SkipPaths sampleGinConfig)) by (simpl; auto).
  split; [exact H|].
  exact (proj1 (GinLoggerWithConfig_skips sampleGinConfig (sampleWorld "/health" ∅ None 0) H)).
Defined.

(** X4. [RequestBodyLogger] on a path that is an exact member of
    SkipPaths is the rest of the chain and nothing else: the body is
    not read and no event is emitted, whatever the body and its
    declared length. *)
Theorem RequestBodyLogger_skips (config : RequestBodyLoggerConfig.t) (w : World) :
  In (Path (Req (ctx w))) (RequestBodyLoggerConfig.SkipPaths config) ->
  RequestBodyLogger config w = callNext w (fun w' => Done (Returned w')) /\
  forall down : World -> Outcome, run down (RequestBodyLogger config w) = down w.
Proof.
  intros H. apply skipped_spec in H.
  assert (E : RequestBodyLogger config w = callNext w (fun w' => Done (Returned w'))).
  { rewrite RequestBodyLogger_unfold. now rewrite H. }
  split; [exact E|]. intros down. rewrite E. apply run_callNext_return.
Qed.

Lemma RequestBodyLogger_skips_witness :
  In "/health" (RequestBodyLoggerConfig.SkipPaths (sampleBodyConfig 0)) /\
  RequestBodyLogger (sampleBodyConfig 0) (sampleWorld "/health" ∅ (Some formBody) 17)
  = callNext (sampleWorld "/health" ∅ (Some formBody) 17) (fun w' => Done (Returned w')).
Proof.
  assert (H : In "/health" (RequestBodyLoggerConfig.SkipPaths (sampleBodyConfig 0)))
    by (simpl; auto).
  split; [exact H|].
  exact (proj1 (RequestBodyLogger_skips (sampleBodyConfig 0)
                  (sampleWorld "/health" ∅ (Some formBody) 17) H)).
Defined.

(* ================================================================== *)
(** * The completion events, written out *)

Lemma logByStatus_written_out (logger : Logger) (s : Z) (fs : list Field) (w : World) :
  logByStatus logger s fs w
  = {| ctx := ctx w;
       events := events w ++ [ {| via := logger; level := completionLevel s;
                                  message := completionMessage s; fields := fs |} ];
       clock := clock w; ticks := ticks w; localOffset := localOffset w |}.
Proof.
  unfold logByStatus, completionLevel, completionMessage.
  destruct (500 <=? s); [reflexivity|].
  destruct (400 <=? s); [reflexivity|].
  destruct (300 <=? s); reflexivity.
Qed.

Lemma GinLoggerWithConfig_completion_shape (config : GinLoggerConfig.t) (w : World) :
  ~ In (Path (Req (ctx w))) (GinLoggerConfig.SkipPaths config) ->
  let start := {| unixNano := clock w (ticks w); zoneOffset := localOffset w |} in
  let timestamp := if GinLoggerConfig.UTC config then UTC start else start in
  exists k : Outcome -> Prog,
    GinLoggerWithConfig config w = Next (snd (Now w)) k /\
    (forall w' : World,
       let s := wStatus (Writer (ctx w')) in
       let latency := Z.of_N (clock w' (ticks w')) - Z.of_N (clock w (ticks w)) in
       k (Returned w') =
       Done (Returned
         {| ctx := ctx w';
            events := events w' ++
              [ {| via := loggerOr (GinLoggerConfig.Logger config);
                   level := completionLevel s; message := completionMessage s;
                   fields := ginLoggerFields (Path (Req (ctx w))) (RawQuery (Req (ctx w)))
                               timestamp latency (ctx w') |} ];
            clock := clock w'; ticks := S (ticks w'); localOffset := localOffset w' |})) /\
    (forall (w' : World) (v : Any), k (Panicked w' v) = Done (Panicked w' v)).
Proof.
  intros H start timestamp. unfold GinLoggerWithConfig.
  destruct (skipped _ _) eqn:E; [apply skipped_spec in E; contradiction|].
  cbv beta iota zeta delta [Now callNext].
  eexists. split; [reflexivity|]. split; [|reflexivity].
  intros w'. cbv beta iota zeta delta [Since Now].
  cbn [ctx events clock ticks localOffset unixNano zoneOffset fst snd].
  do 2 f_equal.
  unfold ginLoggerFields, identityFields, completionLevel, completionMessage, loggerOr, emit.
  destruct (decide (RawQuery (Req (ctx w)) = "")),
           (decide (GetString (ctx w') "request_id" = "")),
           (decide (GetString (ctx w') "user_id" = ""));
    destruct (500 <=? wStatus (Writer (ctx w'))); try reflexivity;
    destruct (400 <=? wStatus (Writer (ctx w'))); try reflexivity;
    destruct (300 <=? wStatus (Writer (ctx w'))); reflexivity.
Qed.

(** X5. The completion event of [GinLoggerWithConfig], in full.  On a
    path that is not skipped the handler takes one clock reading, calls
    the rest of the chain, and on its return emits exactly this event:
    on the configured handle (the global one when none is configured),
    with level and message by status band, and the fields method,
    path, ip, user_agent, status, latency, body_size, timestamp, then
    query if the raw query is non-empty, then request_id and user_id
    when the context holds them.  Path, query and timestamp are those
    at entry; method, client address, user agent, status, size and the
    identity fields are read after the chain has run; latency is the
    difference of the two readings.  When the chain panics, nothing is
    emitted and the panic goes on. *)
Theorem GinLoggerWithConfig_event (config : GinLoggerConfig.t) (w : World) :
  ~ In (Path (Req (ctx w))) (GinLoggerConfig.SkipPaths config) ->
  let start := {| unixNano := clock w (ticks w); zoneOffset := localOffset w |} in
  let timestamp := if GinLoggerConfig.UTC config then UTC start else start in
  exists k : Outcome -> Prog,
    GinLoggerWithConfig config w = Next (snd (Now w)) k /\
    (forall w' : World,
       let s := wStatus (Writer (ctx w')) in
       let latency := Z.of_N (clock w' (ticks w')) - Z.of_N (clock w (ticks w)) in
       k (Returned w') =
       Done (Returned
         {| ctx := ctx w';
            events := events w' ++
              [ {| via := loggerOr (GinLoggerConfig.Logger config);
                   level := completionLevel s; message := completionMessage s;
                   fields := ginLoggerFields (Path (Req (ctx w))) (RawQuery (Req (ctx w)))
                               timestamp latency (ctx w') |} ];
            clock := clock w'; ticks := S (ticks w'); localOffset := localOffset w' |})) /\
    (forall (w' : World) (v : Any), k (Panicked w' v) = Done (Panicked w' v)).
Proof. exact (GinLoggerWithConfig_completion_shape config w). Qed.

Lemma GinLoggerWithConfig_event_witness :
  (~ In "/api/users" (GinLoggerConfig.SkipPaths sampleGinConfig)) /\
  exists k : Outcome -> Prog,
    GinLoggerWithConfig sampleGinConfig (sampleWorld "/api/users" ∅ None 0)
    = Next (snd (Now (sampleWorld "/api/users" ∅ None 0))) k /\
    forall (w' : World) (v : Any), k (Panicked w' v) = Done (Panicked w' v).
Proof.
  assert (H : ~ In (Path (Req (ctx (sampleWorld "/api/users" ∅ None 0))))
                   (GinLoggerConfig.SkipPaths sampleGinConfig)).
  { simpl. intros [H|[]]. discriminate. }
  split; [exact H|].
  destruct (GinLoggerWithConfig_event sampleGinConfig (sampleWorld "/api/users" ∅ None 0) H)
    as (k & Hk & _ & Hp).
  exists k. split; [exact Hk | exact Hp].
Defined.

(** X6. [GinLogger], the logger without configuration, skips no path:
    for every request it emits its one completion event, on the global
    handle, stamped in the local zone. *)
Theorem GinLogger_logs_every_path (w w' : World) :
  exists (k : Outcome -> Prog) (ev : Event),
    GinLogger w = Next (snd (Now w)) k /\
    k (Returned w')
    = Done (Returned {| ctx := ctx w'; events := events w' ++ [ev]; clock := clock w';
                        ticks := S (ticks w'); localOffset := localOffset w' |}) /\
    via ev = GetLogger /\
    level ev = completionLevel (wStatus (Writer (ctx w'))) /\
    In (FTime "timestamp" {| unixNano := clock w (ticks w); zoneOffset := localOffset w |})
       (fields ev).
Proof.
  assert (H : ~ In (Path (Req (ctx w)))
                   (GinLoggerConfig.SkipPaths
                      {| GinLoggerConfig.Logger := None; GinLoggerConfig.UTC := false;
                         GinLoggerConfig.SkipPaths := [] |})) by (simpl; tauto).
  destruct (GinLoggerWithConfig_completion_shape _ w H) as (k & Hk & Hr & _).
  exists k. eexists. split; [exact Hk|]. split; [apply Hr|].
  simpl. split; [reflexivity|]. split; [reflexivity|].
  unfold ginLoggerFields. simpl. tauto.
Qed.

Lemma header_fields_written_out (h : gmap string (list string)) (headers : list string) :
  forall init : list Field,
    foldl (fun fields header =>
             let value := HeaderGet h header in
             if decide (value = "") then fields
             else fields ++ [FString ("header_" +:+ header) value])
          init headers
    = init ++ flat_map (fun header =>
                          if decide (HeaderGet h header = "") then []
                          else [FString ("header_" +:+ header) (HeaderGet h header)])
                       headers.
Proof.
  induction headers as [|header headers IH]; intros init; simpl.
  - now rewrite app_nil_r.
  - rewrite IH. destruct (decide (HeaderGet h header = "")); simpl; [reflexivity|].
    now rewrite <- app_assoc.
Qed.

Lemma snoc_if_dec (P : Prop) (d : Decision P) (l : list Field) (x : Field) :
  (if d then l else l ++ [x]) = l ++ (if d then [] else [x]).
Proof. destruct d; [now rewrite app_nil_r | reflexivity]. Qed.

Lemma snoc_if_bool (b : bool) (l : list Field) (x : Field) :
  (if b then l ++ [x] else l) = l ++ (if b then [x] else []).
Proof. destruct b; [reflexivity | now rewrite app_nil_r]. Qed.

Lemma snoc_if_bool_dec (b : bool) (P : Prop) (d : Decision P) (l : list Field) (x : Field) :
  (if b then (if d then l else l ++ [x]) else l)
  = l ++ (if b then (if d then [] else [x]) else []).
Proof. destruct b, d; rewrite ?app_nil_r; reflexivity. Qed.

Lemma structuredOwnFields_written_out (config : StructuredLoggerConfig.t)
    (path raw requestBody : string) (timestamp : Time) (latency : Duration) (c : Context) :
  structuredOwnFields config path raw requestBody timestamp latency c
  = structuredFieldsWrittenOut config path raw requestBody timestamp latency c.
Proof.
  unfold structuredOwnFields, structuredHeadFields, structuredFieldsWrittenOut, identityFields.
  cbv zeta. rewrite header_fields_written_out.
  rewrite snoc_if_bool_dec, !snoc_if_bool, !snoc_if_dec.
  unfold decide. rewrite <- !app_assoc. reflexivity.
Qed.

(** The completion event of [StructuredLogger], for the theorems below. *)
Lemma StructuredLogger_completion_shape (config : StructuredLoggerConfig.t) (w : World) :
  ~ excluded config (Path (Req (ctx w))) ->
  let start := {| unixNano := clock w (ticks w); zoneOffset := localOffset w |} in
  let timestamp := if StructuredLoggerConfig.UTC config then UTC start else start in
  let captured := captureRequestBody (StructuredLoggerConfig.LogRequestBody config)
                    (effectiveMax (StructuredLoggerConfig.MaxBodySize config)) (snd (Now w)) in
  exists k : Outcome -> Prog,
    StructuredLogger config w = Next (snd captured) k /\
    (forall w' : World,
       let s := wStatus (Writer (ctx w')) in
       let latency := Z.of_N (clock w' (ticks w')) - Z.of_N (clock w (ticks w)) in
       k (Returned w') =
       Done (Returned
         {| ctx := ctx w';
            events := events w' ++
              [ {| via := loggerOr (StructuredLoggerConfig.Logger config);
                   level := completionLevel s; message := completionMessage s;
                   fields := structuredFieldsWrittenOut config
                               (Path (Req (ctx w))) (RawQuery (Req (ctx w)))
                               (fst captured) timestamp latency (ctx w')
                             ++ customOutput config (ctx w') |} ];
            clock := clock w'; ticks := S (ticks w'); localOffset := localOffset w' |})) /\
    (forall (w' : World) (v : Any), k (Panicked w' v) = Done (Panicked w' v)).
Proof.
  intros H start timestamp captured.
  rewrite (StructuredLogger_not_excluded config w H). fold captured. unfold callNext.
  eexists. split; [reflexivity|]. split; [|reflexivity].
  intros w'. cbv beta iota zeta. unfold structuredComplete.
  cbv beta iota zeta delta [Since Now].
  cbn [ctx events clock ticks localOffset unixNano zoneOffset fst snd].
  rewrite logByStatus_written_out, structuredOwnFields_written_out.
  cbn [ctx events clock ticks localOffset].
  unfold customOutput, loggerOr.
  destruct (StructuredLoggerConfig.CustomFields config); [reflexivity|].
  now rewrite app_nil_r.
Qed.

(** X7. The completion event of [StructuredLogger], in full.  On a path
    that is not excluded the handler hands the rest of the chain the
    world left by its clock reading and body capture, and on its return
    emits exactly this event: on the configured handle (the global one
    when none is configured), with level and message by status band,
    and the fields method, path, status, latency, body_size, timestamp,
    then query, ip, user_agent, referer, one header_ field per
    configured header with a value, request_body, request_id, user_id
    (each only under its condition), then whatever the custom callback
    returns, last.  Path, query, timestamp and captured body are those
    at entry; everything else is read after the chain has run; latency
    is the difference of the two clock readings.  When the chain
    panics, nothing is emitted and the panic goes on. *)
Theorem StructuredLogger_event (config : StructuredLoggerConfig.t) (w : World) :
  ~ excluded config (Path (Req (ctx w))) ->
  let start := {| unixNano := clock w (ticks w); zoneOffset := localOffset w |} in
  let timestamp := if StructuredLoggerConfig.UTC config then UTC start else start in
  let captured := captureRequestBody (StructuredLoggerConfig.LogRequestBody config)
                    (effectiveMax (StructuredLoggerConfig.MaxBodySize config)) (snd (Now w)) in
  exists k : Outcome -> Prog,
    StructuredLogger config w = Next (snd captured) k /\
    (forall w' : World,
       let s := wStatus (Writer (ctx w')) in
       let latency := Z.of_N (clock w' (ticks w')) - Z.of_N (clock w (ticks w)) in
       k (Returned w') =
       Done (Returned
         {| ctx := ctx w';
            events := events w' ++
              [ {| via := loggerOr (StructuredLoggerConfig.Logger config);
                   level := completionLevel s; message := completionMessage s;
                   fields := structuredFieldsWrittenOut config
                               (Path (Req (ctx w))) (RawQuery (Req (ctx w)))
                               (fst captured) timestamp latency (ctx w')
                             ++ customOutput config (ctx w') |} ];
            clock := clock w'; ticks := S (ticks w'); localOffset := localOffset w' |})) /\
    (forall (w' : World) (v : Any), k (Panicked w' v) = Done (Panicked w' v)).
Proof. exact (StructuredLogger_completion_shape config w). Qed.

Lemma not_excluded_sample (path : string) :
  MatchString (literal false "/static/") path = false ->
  path <> "/health" -> path <> "/metrics" ->
  ~ excluded sampleStructuredConfig path.
Proof.
  intros Hm H1 H2 [H|(regex & Hin & Hr)].
  - simpl in H. destruct H as [H|[H|[]]]; [now apply H1 | now apply H2].
  - change (In regex [literal false "/static/"]) in Hin.
    destruct Hin as [<-|[]]. congruence.
Qed.

Lemma StructuredLogger_event_witness :
  (~ excluded sampleStructuredConfig "/api/users") /\
  exists k : Outcome -> Prog,
    StructuredLogger sampleStructuredConfig (sampleWorld "/api/users" ∅ None 0)
    = Next (snd (Now (sampleWorld "/api/users" ∅ None 0))) k /\
    forall (w' : World) (v : Any), k (Panicked w' v) = Done (Panicked w' v).
Proof.
  assert (H : ~ excluded sampleStructuredConfig
                  (Path (Req (ctx (sampleWorld "/api/users" ∅ None 0))))).
  { apply not_excluded_sample; [reflexivity | discriminate | discriminate]. }
  split; [exact H|].
  destruct (StructuredLogger_event sampleStructuredConfig (sampleWorld "/api/users" ∅ None 0) H)
    as (k & Hk & _ & Hp).
  exists k. split; [exact Hk | exact Hp].
Defined.

Lemma header_key_inj (h h' : string) : "header_" +:+ h = "header_" +:+ h' -> h = h'.
Proof. simpl. intros H. now injection H. Qed.

Lemma header_fields_keys (hs : gmap string (list string)) (headers : list string) (key : string) :
  In key (map fieldKey
            (flat_map (fun header =>
                         if decide (HeaderGet hs header = "") then []
                         else [FString ("header_" +:+ header) (HeaderGet hs header)])
                      headers)) ->
  exists header, In header headers /\ HeaderGet hs header <> "" /\
                 key = "header_" +:+ header.
Proof.
  induction headers as [|header headers IH]; simpl; [tauto|].
  rewrite map_app, in_app_iff. intros [H|H].
  - destruct (decide (HeaderGet hs header = "")) as [|NE]; simpl in H; [tauto|].
    destruct H as [<-|[]]. exists header. auto.
  - destruct (IH H) as (h' & Hin & Hne & ->). exists h'. auto.
Qed.

Lemma structuredOwnFields_headers
    (config : StructuredLoggerConfig.t) (path raw requestBody : string)
    (timestamp : Time) (latency : Duration) (c : Context) (header : string) :
  In header (StructuredLoggerConfig.LogHeaders config) ->
  let own := structuredOwnFields config path raw requestBody timestamp latency c in
  let value := HeaderGet (Header (Req c)) header in
  (value <> "" -> In (FString ("header_" +:+ header) value) own) /\
  (value = "" -> ~ In ("header_" +:+ header) (map fieldKey own)).
Proof.
  intros Hin own value. subst own. rewrite structuredOwnFields_written_out.
  unfold structuredFieldsWrittenOut, identityFields. split.
  - intros NE. rewrite !in_app_iff. do 5 right. left.
    apply in_flat_map. exists header. split; [exact Hin|].
    fold value. destruct (decide (value = "")); [contradiction | simpl; auto].
  - intros E. rewrite !map_app, !in_app_iff.
    intros [H|[H|[H|[H|[H|[H|[H|[H|H]]]]]]]].
    + simpl in H. repeat (destruct H as [H|H]; [discriminate H|]). exact H.
    + destruct (decide (raw = "")); simpl in H; [tauto|]. destruct H as [H|[]]. discriminate.
    + destruct (StructuredLoggerConfig.LogClientIP config); simpl in H; [|tauto].
      destruct H as [H|[]]. discriminate.
    + destruct (StructuredLoggerConfig.LogUserAgent config); simpl in H; [|tauto].
      destruct H as [H|[]]. discriminate.
    + destruct (StructuredLoggerConfig.LogReferer config); [|simpl in H; tauto].
      destruct (decide (Referer c = "")); simpl in H; [tauto|].
      destruct H as [H|[]]. discriminate.
    + apply header_fields_keys in H as (h' & _ & Hne & Hk).
      apply header_key_inj in Hk. subst h'. contradiction.
    + destruct (decide (requestBody = "")); simpl in H; [tauto|].
      destruct H as [H|[]]. discriminate.
    + destruct (decide (GetString c "request_id" = "")); simpl in H; [tauto|].
      destruct H as [H|[]]. discriminate.
    + destruct (decide (GetString c "user_id" = "")); simpl in H; [tauto|].
      destruct H as [H|[]]. discriminate.
Qed.

(** X8. For each header name configured in LogHeaders, the completion
    event of [StructuredLogger] holds, among the fields the handler
    builds itself, a field named header_ followed by the name as
    configured exactly when the request has a non-empty value under
    that name (looked up as [Header.Get] does) once the chain has run;
    the field holds that value verbatim. *)
Theorem StructuredLogger_logs_configured_headers
    (config : StructuredLoggerConfig.t) (w w' : World) (header : string) :
  ~ excluded config (Path (Req (ctx w))) ->
  In header (StructuredLoggerConfig.LogHeaders config) ->
  let value := HeaderGet (Header (Req (ctx w'))) header in
  exists (w1 : World) (k : Outcome -> Prog) (ev : Event) (own : list Field),
    StructuredLogger config w = Next w1 k /\
    k (Returned w')
    = Done (Returned {| ctx := ctx w'; events := events w' ++ [ev]; clock := clock w';
                        ticks := S (ticks w'); localOffset := localOffset w' |}) /\
    fields ev = own ++ customOutput config (ctx w') /\
    (value <> "" -> In (FString ("header_" +:+ header) value) own) /\
    (value = "" -> ~ In ("header_" +:+ header) (map fieldKey own)).
Proof.
  intros NE Hin value.
  destruct (StructuredLogger_completion_shape config w NE) as (k & Hk & Hr & _).
  eexists _, k, _, _. split; [exact Hk|]. split; [apply Hr|].
  cbn [fields]. split; [reflexivity|].
  rewrite <- structuredOwnFields_written_out.
  apply (structuredOwnFields_headers config _ _ _ _ _ (ctx w') header Hin).
Qed.

Lemma StructuredLogger_logs_configured_headers_witness :
  let w := sampleWorld "/api/users" {["Authorization" := ["Bearer s3cr3t"]]} None 0 in
  (~ excluded sampleStructuredConfig "/api/users") /\
  In "Authorization" (StructuredLoggerConfig.LogHeaders sampleStructuredConfig) /\
  exists (w1 : World) (k : Outcome -> Prog) (ev : Event),
    StructuredLogger sampleStructuredConfig w = Next w1 k /\
    k (Returned w)
    = Done (Returned {| ctx := ctx w; events := events w ++ [ev]; clock := clock w;
                        ticks := S (ticks w); localOffset := localOffset w |}) /\
    In (FString "header_Authorization" "Bearer s3cr3t") (fields ev).
Proof.
  intros w.
  assert (H1 : ~ excluded sampleStructuredConfig (Path (Req (ctx w)))).
  { apply not_excluded_sample; [reflexivity | discriminate | discriminate]. }
  assert (H2 : In "Authorization" (StructuredLoggerConfig.LogHeaders sampleStructuredConfig))
    by (simpl; auto).
  split; [exact H1|]. split; [exact H2|].
  destruct (StructuredLogger_logs_configured_headers sampleStructuredConfig w w
              "Authorization" H1 H2) as (w1 & k & ev & own & Hk & Hr & Hf & Hin & _).
  exists w1, k, ev. split; [exact Hk|]. split; [exact Hr|].
  rewrite Hf, in_app_iff. left. apply Hin. vm_compute. discriminate.
Defined.

(* ================================================================== *)
(** * Panics and the order of the chain *)

Lemma PassesThrough_forward (w1 : World) :
  exists (w0 : World) (k : Outcome -> Prog),
    callNext w1 (fun w' => Done (Returned w')) = Next w0 k /\
    (forall w' : World, exists w'' : World,
        k (Returned w') = Done (Returned w'') /\ ctx w'' = ctx w') /\
    (forall (w' : World) (v : Any), k (Panicked w' v) = Done (Panicked w' v)).
Proof.
  eexists _, _. split; [reflexivity|]. split; [|reflexivity].
  intros w'. exists w'. split; reflexivity.
Qed.

Lemma GinLoggerWithConfig_passes (config : GinLoggerConfig.t) :
  PassesThrough (GinLoggerWithConfig config).
Proof.
  intros w.
  destruct (in_dec string_dec (Path (Req (ctx w))) (GinLoggerConfig.SkipPaths config)) as [Hin|Hn].
  - apply skipped_spec in Hin. unfold GinLoggerWithConfig. rewrite Hin.
    apply PassesThrough_forward.
  - destruct (GinLoggerWithConfig_completion_shape config w Hn) as (k & Hk & Hr & Hp).
    exists (snd (Now w)), k. split; [exact Hk|]. split; [|exact Hp].
    intros w'. eexists. split; [apply Hr | reflexivity].
Qed.

Lemma RequestIDMiddleware_passes : PassesThrough RequestIDMiddleware.
Proof.
  intros w. unfold RequestIDMiddleware.
  destruct (decide (GetHeader (ctx w) "X-Request-ID" = "")).
  - destruct (generateRequestID w) as [id w0]. apply PassesThrough_forward.
  - apply PassesThrough_forward.
Qed.

Lemma ErrorLogger_passes (Errors : Context -> list GinError) :
  PassesThrough (ErrorLogger Errors).
Proof.
  intros w. rewrite ErrorLogger_unfold. unfold callNext.
  eexists _, _. split; [reflexivity|]. split; [|reflexivity].
  intros w'. destruct (logError_loop (Errors (ctx w')) w') as (evs & Heq & _).
  eexists. split; [reflexivity|]. now rewrite Heq.
Qed.

Lemma RequestBodyLogger_passes (config : RequestBodyLoggerConfig.t) :
  PassesThrough (RequestBodyLogger config).
Proof.
  intros w. rewrite RequestBodyLogger_unfold. apply PassesThrough_forward.
Qed.

Lemma StructuredLogger_passes (config : StructuredLoggerConfig.t) :
  PassesThrough (StructuredLogger config).
Proof.
  intros w. destruct (excludedb config (Path (Req (ctx w)))) eqn:E.
  - apply excludedb_spec in E. rewrite (StructuredLogger_excluded config w E).
    apply PassesThrough_forward.
  - assert (NE : ~ excluded config (Path (Req (ctx w))))
      by (rewrite <- excludedb_spec, E; discriminate).
    destruct (StructuredLogger_completion_shape config w NE) as (k & Hk & Hr & Hp).
    eexists _, k. split; [exact Hk|]. split; [|exact Hp].
    intros w'. eexists. split; [apply Hr | reflexivity].
Qed.

Lemma PerformanceLogger_passes : PassesThrough PerformanceLogger.
Proof.
  intros w. unfold PerformanceLogger, callNext. cbv beta iota zeta delta [Now].
  eexists _, _. split; [reflexivity|]. split; [|reflexivity].
  intros w'. cbv beta iota zeta delta [Since Now].
  eexists. split; [reflexivity|].
  destruct (Second <? _); reflexivity.
Qed.

Lemma SecurityLogger_passes : PassesThrough SecurityLogger.
Proof.
  intros w. rewrite SecurityLogger_unfold. apply PassesThrough_forward.
Qed.

Lemma PlainMiddleware_passes (Errors : Context -> list GinError) (h : HandlerFunc) :
  PlainMiddleware Errors h -> PassesThrough h.
Proof.
  intros [ | config | | | config | config | | ].
  - apply GinLoggerWithConfig_passes.
  - apply GinLoggerWithConfig_passes.
  - apply RequestIDMiddleware_passes.
  - apply ErrorLogger_passes.
  - apply RequestBodyLogger_passes.
  - apply StructuredLogger_passes.
  - apply PerformanceLogger_passes.
  - apply SecurityLogger_passes.
Qed.

Lemma run_passes (h : HandlerFunc) (w : World) :
  PassesThrough h ->
  exists w1 : World,
    forall down : World -> Outcome,
      (forall wp v, down w1 = Panicked wp v -> run down (h w) = Panicked wp v) /\
      (forall w', down w1 = Returned w' ->
         exists w'', run down (h w) = Returned w'' /\ ctx w'' = ctx w').
Proof.
  intros P. destruct (P w) as (w1 & k & Hk & Hr & Hp). exists w1. intros down.
  rewrite Hk. simpl. split.
  - intros wp v ->. now rewrite Hp.
  - intros w' ->. destruct (Hr w') as (w'' & -> & Hc). exists w''. auto.
Qed.

(** X9. No handler of this package other than [RecoveryLogger] stops a
    panic or logs it: through any chain of them a panic of the
    terminal handler comes out as it went in, the world of the panic
    unchanged, so no completion, performance or error event is emitted
    for that request; and which world reaches the terminal handler
    does not depend on what that handler does. *)
Theorem plain_chain_passes_panic
    (Errors : Context -> list GinError) (hs : list HandlerFunc) :
  Forall (PlainMiddleware Errors) hs ->
  forall w : World,
    exists w_in : World,
      forall (final : World -> Outcome) (wp : World) (v : Any),
        final w_in = Panicked wp v -> chain hs final w = Panicked wp v.
Proof.
  induction 1 as [|h hs Hh Hhs IH]; intros w.
  - exists w. intros final wp v H. exact H.
  - destruct (run_passes h w (PlainMiddleware_passes Errors h Hh)) as (w1 & Hrun).
    destruct (IH w1) as (w_in & Hin). exists w_in. intros final wp v Hf.
    change (chain (h :: hs) final w) with (run (chain hs final) (h w)).
    apply (proj1 (Hrun (chain hs final))). now apply Hin.
Qed.

Lemma plain_chain_passes_panic_witness :
  Forall (PlainMiddleware (fun _ => []))
         [RequestIDMiddleware; SecurityLogger; PerformanceLogger;
          StructuredLogger exampleStructuredConfig; ErrorLogger (fun _ => [])] /\
  exists w_in : World,
    forall (final : World -> Outcome) (wp : World) (v : Any),
      final w_in = Panicked wp v ->
      chain [RequestIDMiddleware; SecurityLogger; PerformanceLogger;
             StructuredLogger exampleStructuredConfig; ErrorLogger (fun _ => [])]
            final (sampleWorld "/panic" ∅ None 0) = Panicked wp v.
Proof.
  assert (H : Forall (PlainMiddleware (fun _ => []))
                [RequestIDMiddleware; SecurityLogger; PerformanceLogger;
                 StructuredLogger exampleStructuredConfig; ErrorLogger (fun _ => [])]).
  { repeat constructor. }
  split; [exact H|].
  exact (plain_chain_passes_panic (fun _ => []) _ H (sampleWorld "/panic" ∅ None 0)).
Defined.

Lemma RecoveryLogger_returns (down : World -> Outcome) (w : World) :
  exists w'', run down (RecoveryLogger w) = Returned w''.
Proof. unfold RecoveryLogger, CustomRecovery. simpl. destruct (down w); simpl; eauto. Qed.

(** X10. With [RecoveryLogger] as the last middleware, a chain of
    handlers of this package returns normally for every request and
    every terminal handler, panicking or not. *)
Theorem chain_with_recovery_returns
    (Errors : Context -> list GinError) (hs : list HandlerFunc) :
  Forall (PlainMiddleware Errors) hs ->
  forall (final : World -> Outcome) (w : World),
    exists w'' : World, chain (hs ++ [RecoveryLogger]) final w = Returned w''.
Proof.
  induction 1 as [|h hs Hh Hhs IH]; intros final w.
  - apply RecoveryLogger_returns.
  - destruct (run_passes h w (PlainMiddleware_passes Errors h Hh)) as (w1 & Hrun).
    destruct (IH final w1) as (w' & Hw').
    change (chain ((h :: hs) ++ [RecoveryLogger]) final w)
      with (run (chain (hs ++ [RecoveryLogger]) final) (h w)).
    destruct (proj2 (Hrun (chain (hs ++ [RecoveryLogger]) final)) w' Hw') as (w'' & Hr & _).
    eauto.
Qed.

Lemma chain_with_recovery_returns_witness :
  Forall (PlainMiddleware (fun _ => []))
         [RequestIDMiddleware; SecurityLogger; PerformanceLogger;
          StructuredLogger exampleStructuredConfig; ErrorLogger (fun _ => [])] /\
  exists w'' : World,
    chain (exampleMiddleware (fun _ => [])) panicHandler (sampleWorld "/panic" ∅ None 0)
    = Returned w''.
Proof.
  assert (H : Forall (PlainMiddleware (fun _ => []))
                [RequestIDMiddleware; SecurityLogger; PerformanceLogger;
                 StructuredLogger exampleStructuredConfig; ErrorLogger (fun _ => [])]).
  { repeat constructor. }
  split; [exact H|].
  exact (chain_with_recovery_returns (fun _ => []) _ H panicHandler
           (sampleWorld "/panic" ∅ None 0)).
Defined.

(** X11. Where [RecoveryLogger] stands decides whether a request that
    panicked gets a completion event.  Registered after
    [StructuredLogger] (nearer the terminal handler), the panic is
    recovered first and [StructuredLogger] then completes as for any
    response: two events, "Panic recovered" and the completion event,
    whose level, message and status field are those of the status the
    recovery left.  That status is 500, so error level and "Server
    error", when nothing of the response was written before the panic;
    a response already written keeps its status, and the completion
    event is the one of that status.  Registered before
    [StructuredLogger], the panic unwinds through it and it logs
    nothing: the panic event is the only one. *)
Theorem recovery_order_decides_completion_event
    (config : StructuredLoggerConfig.t) (w : World) :
  ~ excluded config (Path (Req (ctx w))) ->
  exists w_in : World,
    forall (final : World -> Outcome) (wp : World) (v : Any),
      final w_in = Panicked wp v ->
      let left := wStatus (Writer (AbortWithStatus 500 (ctx wp))) in
      (wSize (Writer (ctx wp)) = noWritten -> left = 500) /\
      (wSize (Writer (ctx wp)) <> noWritten -> left = wStatus (Writer (ctx wp))) /\
      (exists (evp evc : Event) (w'' : World),
         chain [StructuredLogger config; RecoveryLogger] final w = Returned w'' /\
         events w'' = events wp ++ [evp; evc] /\
         level evp = LevelError /\ message evp = "Panic recovered" /\
         In (FAny "panic" v) (fields evp) /\
         level evc = completionLevel left /\ message evc = completionMessage left /\
         In (FInt "status" left) (fields evc) /\
         wStatus (Writer (ctx w'')) = left) /\
      (exists (evp : Event) (w'' : World),
         chain [RecoveryLogger; StructuredLogger config] final w = Returned w'' /\
         events w'' = events wp ++ [evp] /\
         level evp = LevelError /\ message evp = "Panic recovered" /\
         In (FAny "panic" v) (fields evp) /\
         wStatus (Writer (ctx w'')) = left).
Proof.
  intros NE.
  destruct (StructuredLogger_completion_shape config w NE) as (k & Hk & Hr & Hp).
  eexists. intros final wp v Hf left.
  destruct (RecoveryLogger_recovers final _ wp v Hf) as (evp & Hrun & Hl & _ & Hm & Hfs).
  split; [|split; [|split]].
  - intros Hs. exact (proj1 (AbortWithStatus_unwritten 500 (ctx wp) eq_refl Hs)).
  - intros Hs. unfold left. now rewrite (AbortWithStatus_written 500 (ctx wp) Hs).
  - change (chain [StructuredLogger config; RecoveryLogger] final w)
      with (run (fun w0 => run final (RecoveryLogger w0)) (StructuredLogger config w)).
    rewrite Hk. cbn [run]. rewrite Hrun, Hr. cbn [run ctx events clock ticks localOffset].
    eexists evp, _, _. split; [reflexivity|].
    cbn [events ctx level message fields].
    split; [now rewrite <- app_assoc|].
    split; [exact Hl|]. split; [exact Hm|].
    split; [rewrite Hfs; simpl; tauto|].
    fold left. split; [reflexivity|]. split; [reflexivity|]. split; [|reflexivity].
    unfold structuredFieldsWrittenOut. fold left. simpl. tauto.
  - change (chain [RecoveryLogger; StructuredLogger config] final w)
      with (run (fun w0 => run final (StructuredLogger config w0)) (RecoveryLogger w)).
    assert (Hd : (fun w0 => run final (StructuredLogger config w0)) w = Panicked wp v).
    { cbv beta. rewrite Hk. cbn [run]. rewrite Hf, Hp. reflexivity. }
    destruct (RecoveryLogger_recovers _ w wp v Hd) as (evp' & Hrun' & Hl' & _ & Hm' & Hfs').
    rewrite Hrun'. eexists evp', _. split; [reflexivity|]. cbn [events ctx].
    split; [reflexivity|]. split; [exact Hl'|]. split; [exact Hm'|].
    split; [rewrite Hfs'; simpl; tauto | reflexivity].
Qed.

Lemma recovery_order_decides_completion_event_witness :
  ~ excluded sampleStructuredConfig (Path (Req (ctx (arrivingWorld "/panic" ∅ None 0)))) /\
  exists w_in : World,
    forall (final : World -> Outcome) (wp : World) (v : Any),
      final w_in = Panicked wp v ->
      (wSize (Writer (ctx wp)) = noWritten ->
       wStatus (Writer (AbortWithStatus 500 (ctx wp))) = 500) /\
      exists (evp evc : Event) (w'' : World),
        chain [StructuredLogger sampleStructuredConfig; RecoveryLogger] final
              (arrivingWorld "/panic" ∅ None 0) = Returned w'' /\
        events w'' = events wp ++ [evp; evc] /\
        message evp = "Panic recovered" /\
        message evc = completionMessage (wStatus (Writer (AbortWithStatus 500 (ctx wp)))).
Proof.
  assert (H : ~ excluded sampleStructuredConfig
                (Path (Req (ctx (arrivingWorld "/panic" ∅ None 0))))).
  { apply not_excluded_sample; [reflexivity | discriminate | discriminate]. }
  split; [exact H|].
  destruct (recovery_order_decides_completion_event sampleStructuredConfig
              (arrivingWorld "/panic" ∅ None 0) H) as (w_in & Hall).
  exists w_in. intros final wp v Hf.
  destruct (Hall final wp v Hf) as (H500 & _ & (evp & evc & w'' & Hc & He & _ & Hm & _ & _ & Hmc & _) & _).
  split; [exact H500|]. exists evp, evc, w''. auto.
Defined.

(* ================================================================== *)
(** * Generated identifiers, byte by byte *)

Lemma charset_get (i : nat) : (i < 62)%nat -> exists b, String.get i charset = Some b.
Proof.
  intros H. do 62 (destruct i as [|i]; [eexists; reflexivity|]). lia.
Qed.

Lemma randomString_S (n : nat) (w : World) :
  randomString (S n) w =
  (String match String.get (N.to_nat (clock w (ticks w) mod 62)) charset with
          | Some b => b
          | None => "000"%char
          end
          (fst (randomString n (snd (Now w)))),
   snd (randomString n (snd (Now w)))).
Proof.
  cbn [randomString]. cbv beta iota zeta delta [Now]. cbn [snd unixNano].
  destruct (randomString n _) as [rest w']. reflexivity.
Qed.

Lemma randomString_clock (n : nat) : forall w, clock (snd (randomString n w)) = clock w.
Proof.
  induction n as [|n IH]; intros w; [reflexivity|].
  rewrite randomString_S. cbn [snd]. now rewrite IH.
Qed.

Lemma randomString_bytes (n : nat) :
  forall (w : World) (j : nat), (j < n)%nat ->
    exists b : ascii,
      String.get j (fst (randomString n w)) = Some b /\
      String.get (N.to_nat (clock w (ticks w + j) mod 62)) charset = Some b.
Proof.
  induction n as [|n IH]; intros w j Hj; [lia|].
  rewrite randomString_S. cbn [fst].
  destruct j as [|j].
  - rewrite Nat.add_0_r.
    destruct (charset_get (N.to_nat (clock w (ticks w) mod 62))) as (b & Hb).
    { pose proof (N.mod_lt (clock w (ticks w)) 62). lia. }
    exists b. rewrite Hb. split; reflexivity.
  - destruct (IH (snd (Now w)) j) as (b & H1 & H2); [lia|].
    exists b. split; [exact H1|].
    cbn [Now snd clock ticks] in H2.
    now replace (ticks w + S j)%nat with (S (ticks w) + j)%nat by lia.
Qed.

(** X12. What [generateRequestID] returns is fixed by nine consecutive
    clock readings and nothing else: the timestamp of the first, a
    dash, and eight bytes of which the j-th is the byte of [charset] at
    index (reading 1+j) mod 62, so every byte is a letter or digit of
    [charset] and the fallback of the model is never taken.  The
    context, the events and the clock itself are left as they were; the
    clock has been read nine times. *)
Theorem generateRequestID_bytes (w : World) :
  exists (suffix : string) (w' : World),
    generateRequestID w =
      (Format20060102150405 {| unixNano := clock w (ticks w); zoneOffset := localOffset w |}
       +:+ "-" +:+ suffix, w') /\
    String.length suffix = 8%nat /\
    (forall j : nat, (j < 8)%nat ->
       exists b : ascii,
         String.get j suffix = Some b /\
         String.get (N.to_nat (clock w (ticks w + 1 + j) mod 62)) charset = Some b) /\
    ctx w' = ctx w /\ events w' = events w /\ clock w' = clock w /\
    ticks w' = (ticks w + 9)%nat.
Proof.
  unfold generateRequestID. cbv beta iota zeta delta [Now].
  pose proof (randomString_length 8 (snd (Now w))) as Hlen.
  pose proof (randomString_bytes 8 (snd (Now w))) as Hb.
  pose proof (randomString_frame 8 (snd (Now w))) as [Hev Hctx].
  pose proof (randomString_clock 8 (snd (Now w))) as Hcl.
  pose proof (randomString_ticks 8 (snd (Now w))) as Ht.
  cbv beta iota zeta delta [Now] in Hlen, Hb, Hev, Hctx, Hcl, Ht.
  cbn [snd ctx events clock ticks] in Hlen, Hb, Hev, Hctx, Hcl, Ht.
  destruct (randomString 8 _) as [suffix w2]. cbn [fst snd] in *.
  exists suffix, w2. split; [reflexivity|]. split; [exact Hlen|].
  split.
  - intros j Hj. destruct (Hb j Hj) as (b & H1 & H2). exists b. split; [exact H1|].
    now replace (ticks w + 1 + j)%nat with (S (ticks w) + j)%nat by lia.
  - repeat split; auto. lia.
Qed.

(* ================================================================== *)
(** * Keywords in any letter case *)

Lemma In_allBytes (a : ascii) : In a allBytes.
Proof.
  unfold allBytes. rewrite <- (ascii_nat_embedding a). apply in_map.
  apply in_seq. pose proof (nat_ascii_bounded a). lia.
Qed.

Lemma foldCase_bytes_checked :
  forallb (fun a =>
    forallb (fun b =>
      implb (Ascii.eqb (toLowerByte a) (toLowerByte b))
            (matchWhole (foldCase a) (String b ""))) allBytes) allBytes = true.
Proof. vm_compute. reflexivity. Qed.

Lemma foldCase_byte (a b : ascii) :
  toLowerByte a = toLowerByte b -> Denotes (foldCase a) (String b "").
Proof.
  intros H. apply matchWhole_spec.
  pose proof foldCase_bytes_checked as C.
  rewrite forallb_forall in C. specialize (C a (In_allBytes a)).
  rewrite forallb_forall in C. specialize (C b (In_allBytes b)).
  rewrite H, Ascii.eqb_refl in C. exact C.
Qed.

Lemma literal_fold (kw : string) :
  forall sub, sameFold kw sub -> Denotes (literal true kw) sub.
Proof.
  induction kw as [|a kw IH]; intros [|b sub] H; simpl in H; try contradiction.
  - constructor.
  - destruct H as [Hab Hs]. cbn [literal].
    change (String b sub) with (String b "" +:+ sub).
    constructor; [now apply foldCase_byte | now apply IH].
Qed.

Lemma alternation_intro (rs : list Regexp) (r : Regexp) (s : string) :
  In r rs -> Denotes r s -> Denotes (alternation rs) s.
Proof.
  induction rs as [|r0 rs IH]; intros Hin H; [destruct Hin|].
  destruct Hin as [<-|Hin].
  - now apply DenAltL.
  - apply DenAltR. now apply IH.
Qed.

Lemma keyword_found (kws : list string) (kw sub path : string) :
  In kw kws -> sameFold kw sub -> contains sub path ->
  MatchString (alternation (map (literal true) kws)) path = true.
Proof.
  intros Hin Hs Hc. apply MatchString_spec. exists sub. split; [|exact Hc].
  apply alternation_intro with (r := literal true kw); [now apply in_map|].
  now apply literal_fold.
Qed.

(** X13. [SecurityLogger] flags every path that holds one of the
    thirteen keywords of its two [(?i)] patterns anywhere, in any mix
    of upper and lower case, whatever surrounds it (so also inside
    harmless words): exactly one warning event is emitted before the
    rest of the chain runs.  Its reason is "Path traversal attempt"
    exactly when the path also holds [../]; for a keyword of the XSS
    pattern it is otherwise "XSS attempt". *)
Theorem SecurityLogger_flags_keywords_any_case (w : World) (kw sub : string) :
  In kw (["union"; "select"; "insert"; "delete"; "drop"; "create"; "alter"; "exec"; "script"]
         ++ ["<script"; "javascript:"; "onload="; "onerror="]) ->
  sameFold kw sub ->
  contains sub (Path (Req (ctx w))) ->
  exists (reason : string) (w1 : World),
    SecurityLogger w = callNext w1 (fun w' => Done (Returned w')) /\
    ctx w1 = ctx w /\
    events w1 = events w ++ [securityEvent (ctx w) reason] /\
    In reason ["SQL injection attempt"; "XSS attempt"; "Path traversal attempt"] /\
    (reason = "Path traversal attempt" <-> contains "../" (Path (Req (ctx w)))) /\
    (In kw ["<script"; "javascript:"; "onload="; "onerror="] ->
     ~ contains "../" (Path (Req (ctx w))) -> reason = "XSS attempt").
Proof.
  intros Hin Hs Hc.
  assert (Hm : MatchString sqlInjectionPattern (Path (Req (ctx w))) = true \/
               MatchString xssPattern (Path (Req (ctx w))) = true).
  { apply in_app_or in Hin as [Hin|Hin]; [left|right];
      exact (keyword_found _ kw sub _ Hin Hs Hc). }
  assert (Hx : In kw ["<script"; "javascript:"; "onload="; "onerror="] ->
               MatchString xssPattern (Path (Req (ctx w))) = true).
  { intros Hin'. exact (keyword_found _ kw sub _ Hin' Hs Hc). }
  rewrite SecurityLogger_unfold. unfold reported.
  pose proof (pathTraversal_iff (Path (Req (ctx w)))) as Ht.
  destruct (MatchString pathTraversalPattern (Path (Req (ctx w)))) eqn:T.
  - eexists _, _. split; [reflexivity|]. cbn [ctx events].
    split; [reflexivity|]. split; [reflexivity|]. split; [simpl; tauto|].
    split; [split; [intros _; now apply Ht | reflexivity]|].
    intros _ Hn. exfalso. apply Hn. now apply Ht.
  - assert (Hnt : ~ contains "../" (Path (Req (ctx w)))).
    { intros Hcn. apply Ht in Hcn. discriminate. }
    destruct (MatchString xssPattern (Path (Req (ctx w)))) eqn:X.
    + eexists _, _. split; [reflexivity|]. cbn [ctx events].
      split; [reflexivity|]. split; [reflexivity|]. split; [simpl; tauto|].
      split; [split; [discriminate | intros Hcn; contradiction]|]. reflexivity.
    + destruct Hm as [Hm|Hm]; [|discriminate]. rewrite Hm.
      eexists _, _. split; [reflexivity|]. cbn [ctx events].
      split; [reflexivity|]. split; [reflexivity|]. split; [simpl; tauto|].
      split; [split; [discriminate | intros Hcn; contradiction]|].
      intros Hin' _. apply Hx in Hin'. discriminate.
Qed.

Lemma SecurityLogger_flags_keywords_any_case_witness :
  sameFold "drop" "Drop" /\
  contains "Drop" (Path (Req (ctx (sampleWorld "/shop/Dropdown-menus" ∅ None 0)))) /\
  exists (reason : string) (w1 : World),
    SecurityLogger (sampleWorld "/shop/Dropdown-menus" ∅ None 0)
    = callNext w1 (fun w' => Done (Returned w')) /\
    ctx w1 = ctx (sampleWorld "/shop/Dropdown-menus" ∅ None 0) /\
    events w1 = events (sampleWorld "/shop/Dropdown-menus" ∅ None 0)
                ++ [securityEvent (ctx (sampleWorld "/shop/Dropdown-menus" ∅ None 0)) reason] /\
    In reason ["SQL injection attempt"; "XSS attempt"; "Path traversal attempt"] /\
    (reason = "Path traversal attempt" <->
     contains "../" (Path (Req (ctx (sampleWorld "/shop/Dropdown-menus" ∅ None 0))))) /\
    (In "drop" ["<script"; "javascript:"; "onload="; "onerror="] ->
     ~ contains "../" (Path (Req (ctx (sampleWorld "/shop/Dropdown-menus" ∅ None 0)))) ->
     reason = "XSS attempt").
Proof.
  assert (H1 : sameFold "drop" "Drop") by (simpl; repeat split; reflexivity).
  assert (H2 : contains "Drop"
                 (Path (Req (ctx (sampleWorld "/shop/Dropdown-menus" ∅ None 0)))))
    by (exists "/shop/", "down-menus"; reflexivity).
  split; [exact H1|]. split; [exact H2|].
  apply (SecurityLogger_flags_keywords_any_case
           (sampleWorld "/shop/Dropdown-menus" ∅ None 0) "drop" "Drop");
    [simpl; tauto | exact H1 | exact H2].
Defined.

(* ================================================================== *)
(** * One identifier across the chain *)

Lemma RequestIDMiddleware_world (w : World) :
  exists (id : string) (w0 : World),
    id <> "" /\ events w0 = events w /\ ctx w0 = ctx w /\
    RequestIDMiddleware w =
    callNext (withCtx (SetResponseHeader "X-Request-ID" id)
                (withCtx (SetKey "request_id" (AString id)) w0))
             (fun w' => Done (Returned w')).
Proof.
  unfold RequestIDMiddleware.
  destruct (decide (GetHeader (ctx w) "X-Request-ID" = "")) as [E|NE].
  - pose proof (generateRequestID_nonempty w) as Hne.
    pose proof (generateRequestID_frame w) as [Hev Hctx].
    destruct (generateRequestID w) as [id w0]. simpl in Hne, Hev, Hctx.
    exists id, w0. auto.
  - exists (GetHeader (ctx w) "X-Request-ID"), w. auto.
Qed.

Lemma captureRequestBody_keys (enabled : bool) (maxBodySize : Z) (w : World) :
  Keys (ctx (snd (captureRequestBody enabled maxBodySize w))) = Keys (ctx w) /\
  Writer (ctx (snd (captureRequestBody enabled maxBodySize w))) = Writer (ctx w).
Proof.
  rewrite captureRequestBody_spec.
  destruct (Body (Req (ctx w))) as [body|]; [|auto].
  destruct (enabled && _); [|auto].
  destruct (failure body); auto.
Qed.

(** X14. One identifier ties a request's response header, its scoped
    logger and its completion event together.  Behind
    [RequestIDMiddleware], [StructuredLogger] hands the rest of the
    chain a context whose response header X-Request-ID is a non-empty
    identifier and whose [LoggerFromContext] handle has that identifier
    bound as request_id; and when the rest of the chain returns with
    the context key untouched, the completion event carries the same
    identifier. *)
Theorem request_id_ties_header_logger_and_event
    (config : StructuredLoggerConfig.t) (w : World) :
  ~ excluded config (Path (Req (ctx w))) ->
  exists (id : string) (w_in : World),
    id <> "" /\
    HeaderGet (wHeader (Writer (ctx w_in))) "X-Request-ID" = id /\
    In (FString "request_id" id) (bound (LoggerFromContext (ctx w_in))) /\
    forall (final : World -> Outcome) (w' : World),
      final w_in = Returned w' ->
      GetString (ctx w') "request_id" = id ->
      exists (ev : Event) (w'' : World),
        chain [RequestIDMiddleware; StructuredLogger config] final w = Returned w'' /\
        events w'' = events w' ++ [ev] /\
        In (FString "request_id" id) (fields ev).
Proof.
  intros NE.
  destruct (RequestIDMiddleware_world w) as (id & w0 & Hid & Hev & Hctx & HR).
  set (w1 := withCtx (SetResponseHeader "X-Request-ID" id)
               (withCtx (SetKey "request_id" (AString id)) w0)) in *.
  assert (NE1 : ~ excluded config (Path (Req (ctx w1)))).
  { unfold w1. cbn [withCtx ctx SetResponseHeader SetKey Req]. now rewrite Hctx. }
  destruct (StructuredLogger_completion_shape config w1 NE1) as (k & Hk & Hr & Hp).
  match type of Hk with _ = Next ?x _ => set (w_in := x) in * end.
  assert (Hkeys : Keys (ctx w_in) = Keys (ctx w1) /\ Writer (ctx w_in) = Writer (ctx w1)).
  { unfold w_in. destruct (captureRequestBody_keys
      (StructuredLoggerConfig.LogRequestBody config)
      (effectiveMax (StructuredLoggerConfig.MaxBodySize config)) (snd (Now w1))) as [K W].
    rewrite K, W. split; reflexivity. }
  destruct Hkeys as [HK HW].
  assert (Hg : GetString (ctx w_in) "request_id" = id).
  { unfold GetString. rewrite HK. unfold w1. cbn [withCtx ctx SetResponseHeader SetKey Keys].
    now rewrite lookup_insert_eq. }
  exists id, w_in. split; [exact Hid|]. split; [|split].
  - rewrite HW. unfold w1. cbn [withCtx ctx SetResponseHeader Writer wHeader].
    destruct (decide (id = "")); [contradiction|]. apply HeaderGet_HeaderSet.
  - rewrite LoggerFromContext_identity. unfold With, identityFields. cbn [bound GetLogger].
    rewrite Hg. destruct (decide (id = "")); [contradiction|]. simpl. tauto.
  - intros final w' Hf Hg'.
    change (chain [RequestIDMiddleware; StructuredLogger config] final w)
      with (run (fun w2 => run final (StructuredLogger config w2)) (RequestIDMiddleware w)).
    rewrite HR. fold w1. unfold callNext. cbn [run]. rewrite Hk. cbn [run].
    rewrite Hf, Hr. cbn [run]. eexists _, _. split; [reflexivity|].
    cbn [events fields]. split; [reflexivity|].
    apply in_or_app. left. unfold structuredFieldsWrittenOut, identityFields.
    rewrite Hg'. destruct (decide (id = "")); [contradiction|].
    rewrite !in_app_iff. simpl. tauto.
Qed.

Lemma request_id_ties_header_logger_and_event_witness :
  ~ excluded sampleStructuredConfig (Path (Req (ctx (sampleWorld "/api/users" ∅ None 0)))) /\
  exists (id : string) (w_in : World),
    id <> "" /\
    HeaderGet (wHeader (Writer (ctx w_in))) "X-Request-ID" = id /\
    In (FString "request_id" id) (bound (LoggerFromContext (ctx w_in))) /\
    forall (final : World -> Outcome) (w' : World),
      final w_in = Returned w' ->
      GetString (ctx w') "request_id" = id ->
      exists (ev : Event) (w'' : World),
        chain [RequestIDMiddleware; StructuredLogger sampleStructuredConfig] final
              (sampleWorld "/api/users" ∅ None 0) = Returned w'' /\
        events w'' = events w' ++ [ev] /\
        In (FString "request_id" id) (fields ev).
Proof.
  assert (H : ~ excluded sampleStructuredConfig
                (Path (Req (ctx (sampleWorld "/api/users" ∅ None 0))))).
  { apply not_excluded_sample; [reflexivity | discriminate | discriminate]. }
  split; [exact H|].
  exact (request_id_ties_header_logger_and_event sampleStructuredConfig
           (sampleWorld "/api/users" ∅ None 0) H).
Defined.

(** X15. The [LogResponseBody] option is never read: whatever it is set
    to, [StructuredLogger] is the same handler. *)
Theorem StructuredLogger_ignores_LogResponseBody
    (config : StructuredLoggerConfig.t) (b : bool) :
  StructuredLogger (setLogResponseBody b config) = StructuredLogger config.
Proof. reflexivity. Qed.

(* ================================================================== *)
(** * Checks on concrete inputs *)

Example format_utc :
  Format20060102150405 {| unixNano := 1700000000123456789; zoneOffset := 0 |} = "20231114221320".
Proof. vm_compute. reflexivity. Qed.

Example format_west_of_utc :
  Format20060102150405 {| unixNano := 0; zoneOffset := -3600 |} = "19691231230000".
Proof. vm_compute. reflexivity. Qed.

Example format_leap_day :
  Format20060102150405 {| unixNano := 951782400000000000; zoneOffset := 0 |} = "20000229000000".
Proof. vm_compute. reflexivity. Qed.

Example canonical_request_id_key : CanonicalMIMEHeaderKey "X-Request-ID" = "X-Request-Id".
Proof. vm_compute. reflexivity. Qed.

Example generated_identifier :
  fst (generateRequestID (sampleWorld "/" ∅ None 0)) = "20231114221320-YmK8wUiG".
Proof. vm_compute. reflexivity. Qed.

Example security_sql :
  SecurityLogger (sampleWorld "/api/users?id=1' UNION SELECT * FROM users--" ∅ None 0)
  = callNext
      {| ctx := ctx (sampleWorld "/api/users?id=1' UNION SELECT * FROM users--" ∅ None 0);
         events := [ {| via := GetLogger; level := LevelWarn;
                        message := "Suspicious request detected";
                        fields := [ FString "method" "GET";
                                    FString "path" "/api/users?id=1' UNION SELECT * FROM users--";
                                    FString "ip" "10.0.0.7";
                                    FString "user_agent" "";
                                    FString "reason" "SQL injection attempt" ] |} ];
         clock := sampleClock; ticks := 0; localOffset := 0 |}
      (fun w' => Done (Returned w')).
Proof. reflexivity. Qed.

Example security_xss_any_case : reported "/a/<ScRipt>" = Some "XSS attempt".
Proof. vm_compute. reflexivity. Qed.

Example security_clean :
  SecurityLogger (sampleWorld "/api/users" ∅ None 0)
  = callNext (sampleWorld "/api/users" ∅ None 0) (fun w' => Done (Returned w')).
Proof. reflexivity. Qed.

(** Under [(?i)] the long s (U+017F, bytes C5 BF) matches the letter s. *)
Example detect_long_s :
  MatchString sqlInjectionPattern
    (String (ascii_of_nat 197) (String (ascii_of_nat 191) "elect")) = true.
Proof. vm_compute. reflexivity. Qed.

(** The query string is not part of [URL.Path]: the same text behind a
    question mark of the request target is not seen by the engine. *)
Example query_is_not_scanned :
  reported (Path {| Method := "GET"; Path := "/api/users";
                    RawQuery := "id=1'%20UNION%20SELECT%20*%20FROM%20users--";
                    Header := ∅; Body := None; ContentLength := 0 |}) = None.
Proof. vm_compute. reflexivity. Qed.

(** With a clock that does not move between readings, the eight
    bytes after the dash are one byte repeated. *)
Example stuck_clock_identifier :
  fst (generateRequestID (stuckWorld 1700000000000000000)) = "20231114221320-AAAAAAAA".
Proof. vm_compute. reflexivity. Qed.

(** Keywords are found inside harmless words too. *)
Example security_harmless_words :
  (reported "/api/selection", reported "/EXECUTIVE/summary")
  = (Some "SQL injection attempt", Some "SQL injection attempt").
Proof. vm_compute. reflexivity. Qed.

(** The whole chain of the example application's [/panic] route: the
    panic stops at [RecoveryLogger], and the loggers above it complete
    (the sample clock advances by a second and a half per reading). *)
Example panic_route_chain :
  match chain [RequestIDMiddleware; SecurityLogger; PerformanceLogger;
               StructuredLogger sampleStructuredConfig; RecoveryLogger] panicHandler
              (arrivingWorld "/panic" ∅ None 0) with
  | Returned w'' =>
      (wStatus (Writer (ctx w'')), map level (events w''), map message (events w''))
      = (500, [LevelError; LevelError; LevelWarn],
         ["Panic recovered"; "Server error"; "Slow request detected"])
  | Panicked _ _ => False
  end.
Proof. vm_compute. reflexivity. Qed.

(** The same chain over a handler that has answered 200 before it
    panics: the response keeps its status, and the completion event is
    the one of a 200. *)
Example panic_after_response_chain :
  match chain [RequestIDMiddleware; SecurityLogger; PerformanceLogger;
               StructuredLogger sampleStructuredConfig; RecoveryLogger] respondThenPanic
              (arrivingWorld "/report" ∅ None 0) with
  | Returned w'' =>
      (wStatus (Writer (ctx w'')), map level (events w''), map message (events w''))
      = (200, [LevelError; LevelInfo; LevelWarn],
         ["Panic recovered"; "Request completed"; "Slow request detected"])
  | Panicked _ _ => False
  end.
Proof. vm_compute. reflexivity. Qed.
